(** * meta-ads-mcp: the ad-set tools of [meta_ads_mcp/core/adsets.py]

    A shallow embedding of the four tool bodies [get_adsets],
    [get_adset_details], [create_adset] and [update_adset], of the part of
    Python's data model and of the [json] module they rely on, and of the
    token manager's bypass mode exercised by [test_bypass.py].

    The values of [Py] are the JSON-shaped ones: [None], booleans, integers,
    strings, lists and string-keyed dicts; [Objects] adds the tuples and the
    dict keys that are not strings, which [json.dumps] accepts and alters.
    A [str] is a [string] whose characters are the code points
    U+0000 .. U+00FF; floats and code points above U+00FF are outside the
    model, and the decoder says so explicitly ([OutsideModel]) instead of
    guessing.  An exception is either an instance of [Exception] or one of
    the [BaseException] classes outside it, which [except Exception] does
    not catch. *)

From Stdlib Require Import ZArith NArith List Bool Lia.
From Stdlib Require Import Ascii String DecimalString DecimalZ DecimalFacts.
Import ListNotations.

Set Warnings "-register-all".

Local Open Scope list_scope.
Local Open Scope string_scope.

(* ================================================================== *)
(** * Python values *)
(* ================================================================== *)

Module Py.

(** The values a tool argument, a request parameter or a decoded payload
    can hold.  A dict keeps its insertion order, as in Python.  These are
    the values [json.loads] produces; what [json.dumps] accepts besides
    them, tuples and keys that are no strings, is in [Objects]. *)
Inductive value : Type :=
| VNone
| VBool (b : bool)
| VInt (z : Z)
| VStr (s : string)
| VList (l : list value)
| VDict (d : list (string * value)).

Definition dict : Type := list (string * value).

(** [chr n] and [ord c], on the code points the model has. *)
Definition chr (n : N) : ascii := ascii_of_N n.
Definition ord (c : ascii) : N := N_of_ascii c.

Definition quote : ascii := Eval cbv in chr 34.
Definition apostrophe : ascii := Eval cbv in chr 39.
Definition backslash : ascii := Eval cbv in chr 92.
Definition newline : ascii := Eval cbv in chr 10.

(** [str1 c] is the one-character string. *)
Definition str1 (c : ascii) : string := String c EmptyString.

(** ** Truthiness: [bool(x)], as tested by [if x] and [not x] *)

Definition truthy (v : value) : bool :=
  match v with
  | VNone => false
  | VBool b => b
  | VInt z => negb (z =? 0)%Z
  | VStr s => negb (s =? EmptyString)%string
  | VList l => match l with [] => false | _ => true end
  | VDict d => match d with [] => false | _ => true end
  end.

(** An argument declared [x: str = None] holds a string or [None]. *)
Definition opt_str (o : option string) : value :=
  match o with
  | Some s => VStr s
  | None => VNone
  end.

(** An argument declared [x: int = None] holds an integer or [None]. *)
Definition opt_int (o : option Z) : value :=
  match o with
  | Some z => VInt z
  | None => VNone
  end.

(** ** Dict operations *)

(** [d.get(k)] / [k in d] / [d[k]] when present. *)
Fixpoint dict_get (d : dict) (k : string) : option value :=
  match d with
  | [] => None
  | (k', v) :: d' => if (k' =? k)%string then Some v else dict_get d' k
  end.

Definition dict_has (d : dict) (k : string) : bool :=
  match dict_get d k with Some _ => true | None => false end.

(** [d[k] = v]: an existing key keeps its position, a new one goes last. *)
Fixpoint dict_set (d : dict) (k : string) (v : value) : dict :=
  match d with
  | [] => [(k, v)]
  | (k', v') :: d' =>
      if (k' =? k)%string then (k', v) :: d' else (k', v') :: dict_set d' k v
  end.

(** [dict(pairs)]: the pairs are inserted from left to right. *)
Definition dict_of_pairs (pairs : list (string * value)) : dict :=
  fold_left (fun d kv => dict_set d (fst kv) (snd kv)) pairs [].

Definition keys (d : dict) : list string := map fst d.

(** ** [repr] and [str] *)

Definition hexdigit (n : N) : ascii :=
  if (n <? 10)%N then chr (48 + n) else chr (87 + n).

(** Two lower-case hexadecimal digits of a code point below 256. *)
Definition hex2 (c : ascii) : string :=
  String (hexdigit (ord c / 16)) (String (hexdigit (ord c mod 16)) EmptyString).

(** [repr(n)] of an integer. *)
Definition int_repr (z : Z) : string := NilZero.string_of_int (Z.to_int z).

Fixpoint contains_char (c : ascii) (s : string) : bool :=
  match s with
  | EmptyString => false
  | String c' s' => Ascii.eqb c' c || contains_char c s'
  end.

(** [str.isprintable] on the code points of the model. *)
Definition isprintable (c : ascii) : bool :=
  let n := ord c in
  ((32 <=? n) && (n <? 127) || (161 <=? n) && negb (n =? 173))%N.

Definition repr_char (q : ascii) (c : ascii) : string :=
  let n := ord c in
  if Ascii.eqb c q || Ascii.eqb c backslash then String backslash (str1 c)
  else if (n =? 9)%N then String backslash "t"
  else if (n =? 10)%N then String backslash "n"
  else if (n =? 13)%N then String backslash "r"
  else if isprintable c then str1 c
  else String backslash (String "x" (hex2 c)).

Fixpoint repr_chars (q : ascii) (s : string) : string :=
  match s with
  | EmptyString => EmptyString
  | String c s' => repr_char q c ++ repr_chars q s'
  end.

(** [repr(s)] of a string: single quotes unless the text holds one and no
    double quote. *)
Definition str_repr (s : string) : string :=
  let q := if contains_char apostrophe s && negb (contains_char quote s)
           then quote else apostrophe in
  String q (repr_chars q s ++ str1 q).

Fixpoint repr (v : value) : string :=
  match v with
  | VNone => "None"
  | VBool true => "True"
  | VBool false => "False"
  | VInt z => int_repr z
  | VStr s => str_repr s
  | VList l => "[" ++ String.concat ", " (map repr l) ++ "]"
  | VDict d =>
      "{" ++ String.concat ", "
               (map (fun kv => str_repr (fst kv) ++ ": " ++ repr (snd kv)) d)
          ++ "}"
  end.

(** [str(v)], which is also what an f-string field [{v}] inserts. *)
Definition str (v : value) : string :=
  match v with
  | VStr s => s
  | _ => repr v
  end.

(** ** Exceptions and the operators that raise them

    An instance of [Exception] raised by a collaborator
    ([get_ad_accounts], [make_api_request]) is known by its text
    [str(e)], which is all the tools ever read of it.  A collaborator can
    also raise outside [Exception]: [asyncio.CancelledError],
    [KeyboardInterrupt] and [SystemExit] derive from [BaseException]
    only, and are known by the name of their class.  An exception raised
    by an operator of the tool body is known by its class. *)
Inductive exn : Type :=
| Fault (str_e : string)
| BaseFault (class : string)
| TypeError
| KeyError
| IndexError
| JSONDecodeError.

Inductive result (A : Type) : Type :=
| Val (a : A)
| Exc (e : exn).

Arguments Val {A} a.
Arguments Exc {A} e.

(** [is_substring k s]: [k in s] on two strings. *)
Fixpoint is_substring (k s : string) : bool :=
  String.prefix k s ||
  match s with
  | EmptyString => false
  | String _ s' => is_substring k s'
  end.

Definition is_str (k : string) (v : value) : bool :=
  match v with
  | VStr s => (s =? k)%string
  | _ => false
  end.

(** [k in v] for a string [k]: a key of a dict, an element of a list, a
    substring of a string; anything else is not iterable. *)
Definition contains (v : value) (k : string) : result bool :=
  match v with
  | VDict d => Val (dict_has d k)
  | VList l => Val (existsb (is_str k) l)
  | VStr s => Val (is_substring k s)
  | _ => Exc TypeError
  end.

(** [v[k]] for a string [k]. *)
Definition getitem (v : value) (k : string) : result value :=
  match v with
  | VDict d =>
      match dict_get d k with
      | Some x => Val x
      | None => Exc KeyError
      end
  | _ => Exc TypeError
  end.

(** [v[i]] for an index [i >= 0].  The dicts of the model have string
    keys only, so an integer is never one of their keys. *)
Definition getindex (v : value) (i : nat) : result value :=
  match v with
  | VList l =>
      match nth_error l i with
      | Some x => Val x
      | None => Exc IndexError
      end
  | VStr s =>
      match String.get i s with
      | Some c => Val (VStr (str1 c))
      | None => Exc IndexError
      end
  | VDict _ => Exc KeyError
  | _ => Exc TypeError
  end.

(** [v[k] = x] for a string [k]. *)
Definition setitem (v : value) (k : string) (x : value) : result value :=
  match v with
  | VDict d => Val (VDict (dict_set d k x))
  | _ => Exc TypeError
  end.

Definition is_not_None (v : value) : bool :=
  match v with
  | VNone => false
  | _ => true
  end.

(** A mapping or a sequence, as opposed to a scalar or a string. *)
Definition structured (v : value) : bool :=
  match v with
  | VList _ | VDict _ => true
  | _ => false
  end.

Definition isinstance_dict (v : value) : bool :=
  match v with
  | VDict _ => true
  | _ => false
  end.

(** ** Dicts have distinct keys

    A Python dict holds a key once; a [dict] of the model is meant to be
    such a list, at every depth of a value. *)
Fixpoint distinct (l : list string) : bool :=
  match l with
  | [] => true
  | k :: l' => negb (existsb (String.eqb k) l') && distinct l'
  end.

Fixpoint well_formed (v : value) : bool :=
  match v with
  | VList l => forallb well_formed l
  | VDict d =>
      distinct (map fst d) && forallb (fun kv => well_formed (snd kv)) d
  | _ => true
  end.

End Py.

(* ================================================================== *)
(** * The [json] module: [json.dumps] and [json.loads] *)
(* ================================================================== *)

Module Json.
Import Py.

(** ** Encoding *)

(** One character of a string under [ensure_ascii=True]: the short
    escapes, the printable ASCII characters as they are, and a [\u00xx]
    escape for everything else. *)
Definition escape_char (c : ascii) : string :=
  let n := ord c in
  if Ascii.eqb c backslash then String backslash (str1 backslash)
  else if Ascii.eqb c quote then String backslash (str1 quote)
  else if (n =? 8)%N then String backslash "b"
  else if (n =? 12)%N then String backslash "f"
  else if (n =? 10)%N then String backslash "n"
  else if (n =? 13)%N then String backslash "r"
  else if (n =? 9)%N then String backslash "t"
  else if ((32 <=? n) && (n <=? 126))%N then str1 c
  else String backslash ("u00" ++ hex2 c).

Fixpoint escape_chars (s : string) : string :=
  match s with
  | EmptyString => EmptyString
  | String c s' => escape_char c ++ escape_chars s'
  end.

Definition encode_basestring_ascii (s : string) : string :=
  String quote (escape_chars s ++ str1 quote).

Fixpoint spaces (n : nat) : string :=
  match n with
  | O => EmptyString
  | S n' => String " " (spaces n')
  end.

Section Encoder.

(** [indent=None] is the compact form, [indent=n] the pretty-printed one. *)
Variable indent : option nat.

Definition newline_indent (level : nat) : string :=
  match indent with
  | None => EmptyString
  | Some n => String newline (spaces (n * level))
  end.

Definition item_separator : string :=
  match indent with
  | None => ", "
  | Some _ => ","
  end.

Definition key_separator : string := ": ".

Fixpoint iterencode (level : nat) (v : value) : string :=
  match v with
  | VNone => "null"
  | VBool true => "true"
  | VBool false => "false"
  | VInt z => int_repr z
  | VStr s => encode_basestring_ascii s
  | VList l =>
      match l with
      | [] => "[]"
      | _ =>
          "[" ++ newline_indent (S level)
              ++ String.concat (item_separator ++ newline_indent (S level))
                   (map (iterencode (S level)) l)
              ++ newline_indent level ++ "]"
      end
  | VDict d =>
      match d with
      | [] => "{}"
      | _ =>
          "{" ++ newline_indent (S level)
              ++ String.concat (item_separator ++ newline_indent (S level))
                   (map (fun kv => encode_basestring_ascii (fst kv)
                                     ++ key_separator
                                     ++ iterencode (S level) (snd kv)) d)
              ++ newline_indent level ++ "}"
      end
  end.

End Encoder.

(** [json.dumps(v)] is [dumps None v]; [json.dumps(v, indent=2)] is
    [dumps (Some 2) v]. *)
Definition dumps (indent : option nat) (v : value) : string :=
  iterencode indent 0 v.

(** ** Decoding *)

(** The result of a scan: a decoded item, [json.JSONDecodeError], or a
    document that leaves the model (a float literal, or an escape for a code
    point above U+00FF).  Running out of [fuel] is reported the same way;
    a scanner spends at most two units of it for a character it reads, and
    [loads] provides twice the length of the text and one more, which no
    text exhausts ([FuelFacts.scanners_fuel], [FuelFacts.loads_fuel_suffices]). *)
Inductive scan (A : Type) : Type :=
| Ok (a : A)
| DecodeError
| OutsideModel.

Arguments Ok {A} a.
Arguments DecodeError {A}.
Arguments OutsideModel {A}.

Definition scan_bind {A B : Type} (m : scan A) (k : A -> scan B) : scan B :=
  match m with
  | Ok a => k a
  | DecodeError => DecodeError
  | OutsideModel => OutsideModel
  end.

Notation "' p <- m ;; k" := (scan_bind m (fun p => k))
  (at level 61, p pattern, m at next level, right associativity).

(** The JSON whitespace: space, tab, line feed, carriage return. *)
Definition is_ws (c : ascii) : bool :=
  let n := ord c in
  ((n =? 32) || (n =? 9) || (n =? 10) || (n =? 13))%N.

Fixpoint skip_ws (s : string) : string :=
  match s with
  | EmptyString => EmptyString
  | String c s' => if is_ws c then skip_ws s' else s
  end.

Fixpoint strip_prefix (p s : string) : option string :=
  match p with
  | EmptyString => Some s
  | String a p' =>
      match s with
      | EmptyString => None
      | String b s' => if Ascii.eqb a b then strip_prefix p' s' else None
      end
  end.

Definition hexval (c : ascii) : option N :=
  let n := ord c in
  if ((48 <=? n) && (n <=? 57))%N then Some (n - 48)%N
  else if ((97 <=? n) && (n <=? 102))%N then Some (n - 87)%N
  else if ((65 <=? n) && (n <=? 70))%N then Some (n - 55)%N
  else None.

Definition decode_uXXXX (h1 h2 h3 h4 : ascii) : option N :=
  match hexval h1, hexval h2, hexval h3, hexval h4 with
  | Some a, Some b, Some c, Some d => Some (((a * 16 + b) * 16 + c) * 16 + d)%N
  | _, _, _, _ => None
  end.

(** The characters a backslash can introduce, [u] apart. *)
Definition unescape (e : ascii) : option ascii :=
  let n := ord e in
  if Ascii.eqb e quote then Some quote
  else if Ascii.eqb e backslash then Some backslash
  else if (n =? 47)%N then Some e
  else if (n =? 98)%N then Some (chr 8)
  else if (n =? 102)%N then Some (chr 12)
  else if (n =? 110)%N then Some (chr 10)
  else if (n =? 114)%N then Some (chr 13)
  else if (n =? 116)%N then Some (chr 9)
  else None.

Definition cons_char (c : ascii) (r : scan (string * string))
  : scan (string * string) :=
  '(str, rest) <- r ;; Ok (String c str, rest).

(** [scanstring s], in strict mode, where [s] starts just after the opening
    quote: the decoded text and what follows the closing quote. *)
Fixpoint scanstring (s : string) : scan (string * string) :=
  match s with
  | EmptyString => DecodeError
  | String c s' =>
      if Ascii.eqb c quote then Ok (EmptyString, s')
      else if Ascii.eqb c backslash then
        match s' with
        | EmptyString => DecodeError
        | String e s'' =>
            if Ascii.eqb e "u" then
              match s'' with
              | String h1 (String h2 (String h3 (String h4 s3))) =>
                  match decode_uXXXX h1 h2 h3 h4 with
                  | None => DecodeError
                  | Some n =>
                      if (n <? 256)%N then cons_char (chr n) (scanstring s3)
                      else OutsideModel
                  end
              | _ => DecodeError
              end
            else
              match unescape e with
              | Some ch => cons_char ch (scanstring s'')
              | None => DecodeError
              end
        end
      else if (ord c <? 32)%N then DecodeError
      else cons_char c (scanstring s')
  end.

Definition is_digit (c : ascii) : bool :=
  ((48 <=? ord c) && (ord c <=? 57))%N.

Definition digit_of (c : ascii) : option (Decimal.uint -> Decimal.uint) :=
  match ord c with
  | 48 => Some Decimal.D0 | 49 => Some Decimal.D1 | 50 => Some Decimal.D2
  | 51 => Some Decimal.D3 | 52 => Some Decimal.D4 | 53 => Some Decimal.D5
  | 54 => Some Decimal.D6 | 55 => Some Decimal.D7 | 56 => Some Decimal.D8
  | 57 => Some Decimal.D9
  | _ => None
  end%N.

(** The longest run of decimal digits at the head of [s]. *)
Fixpoint scan_digits (s : string) : Decimal.uint * string :=
  match s with
  | EmptyString => (Decimal.Nil, EmptyString)
  | String c s' =>
      match digit_of c with
      | Some D => let (u, r) := scan_digits s' in (D u, r)
      | None => (Decimal.Nil, s)
      end
  end.

(** The integer part of the number pattern: an optional minus sign, then
    a single zero or a non-zero digit followed by any digits. *)
Definition match_integer (s : string) : option (Decimal.int * string) :=
  let (neg, s1) :=
    match s with
    | String c s' => if Ascii.eqb c "-" then (true, s') else (false, s)
    | EmptyString => (false, s)
    end in
  let sign := fun u => if neg then Decimal.Neg u else Decimal.Pos u in
  match s1 with
  | EmptyString => None
  | String c s2 =>
      if Ascii.eqb c "0" then Some (sign (Decimal.D0 Decimal.Nil), s2)
      else if is_digit c then let (u, r) := scan_digits s1 in Some (sign u, r)
      else None
  end.

(** Does a fraction [\.[0-9]+] or an exponent [[eE][-+]?[0-9]+] follow? *)
Definition starts_with_digit (s : string) : bool :=
  match s with
  | String d _ => is_digit d
  | EmptyString => false
  end.

Definition float_follows (s : string) : bool :=
  match s with
  | String c r =>
      if Ascii.eqb c "." then starts_with_digit r
      else if Ascii.eqb c "e" || Ascii.eqb c "E" then
        match r with
        | String g r' =>
            if Ascii.eqb g "+" || Ascii.eqb g "-" then starts_with_digit r'
            else is_digit g
        | EmptyString => false
        end
      else false
  | EmptyString => false
  end.

Definition is_some {A : Type} (o : option A) : bool :=
  match o with Some _ => true | None => false end.

(** The items of [scan_once] that hold no other item: the three names,
    a number, and the three float names. *)
Definition scan_atom (s : string) : scan (value * string) :=
  match strip_prefix "null" s, strip_prefix "true" s,
        strip_prefix "false" s with
  | Some r, _, _ => Ok (VNone, r)
  | _, Some r, _ => Ok (VBool true, r)
  | _, _, Some r => Ok (VBool false, r)
  | None, None, None =>
      match match_integer s with
      | Some (i, r) =>
          if float_follows r then OutsideModel
          else Ok (VInt (Z.of_int i), r)
      | None =>
          if is_some (strip_prefix "NaN" s)
             || is_some (strip_prefix "Infinity" s)
             || is_some (strip_prefix "-Infinity" s)
          then OutsideModel
          else DecodeError
      end
  end.

(** [scan_once] with the array and object loops it calls.  [JSONObject] is
    entered just after the opening quote of a key, [JSONArray] at the first
    character of an item. *)
Fixpoint scan_once (fuel : nat) (s : string) {struct fuel}
  : scan (value * string) :=
  match fuel with
  | O => OutsideModel
  | S fuel' =>
      match s with
      | EmptyString => DecodeError
      | String c s' =>
          if Ascii.eqb c quote then
            '(str, rest) <- scanstring s' ;; Ok (VStr str, rest)
          else if Ascii.eqb c "{" then
            match skip_ws s' with
            | EmptyString => DecodeError
            | String c1 s1 =>
                if Ascii.eqb c1 "}" then Ok (VDict [], s1)
                else if Ascii.eqb c1 quote then
                  '(pairs, rest) <- JSONObject fuel' s1 ;;
                  Ok (VDict (dict_of_pairs pairs), rest)
                else DecodeError
            end
          else if Ascii.eqb c "[" then
            match skip_ws s' with
            | EmptyString => DecodeError
            | String c1 s1 =>
                if Ascii.eqb c1 "]" then Ok (VList [], s1)
                else
                  '(items, rest) <- JSONArray fuel' (String c1 s1) ;;
                  Ok (VList items, rest)
            end
          else
            scan_atom s
      end
  end

with JSONObject (fuel : nat) (s : string) {struct fuel}
  : scan (list (string * value) * string) :=
  match fuel with
  | O => OutsideModel
  | S fuel' =>
      '(key, r1) <- scanstring s ;;
      match skip_ws r1 with
      | EmptyString => DecodeError
      | String c r2 =>
          if Ascii.eqb c ":" then
            '(v, r3) <- scan_once fuel' (skip_ws r2) ;;
            match skip_ws r3 with
            | EmptyString => DecodeError
            | String c' r4 =>
                if Ascii.eqb c' "}" then Ok ([(key, v)], r4)
                else if Ascii.eqb c' "," then
                  match skip_ws r4 with
                  | EmptyString => DecodeError
                  | String c'' r5 =>
                      if Ascii.eqb c'' quote then
                        '(pairs, r6) <- JSONObject fuel' r5 ;;
                        Ok ((key, v) :: pairs, r6)
                      else DecodeError
                  end
                else DecodeError
            end
          else DecodeError
      end
  end

with JSONArray (fuel : nat) (s : string) {struct fuel}
  : scan (list value * string) :=
  match fuel with
  | O => OutsideModel
  | S fuel' =>
      '(v, r1) <- scan_once fuel' s ;;
      match skip_ws r1 with
      | EmptyString => DecodeError
      | String c r2 =>
          if Ascii.eqb c "]" then Ok ([v], r2)
          else if Ascii.eqb c "," then
            '(items, r3) <- JSONArray fuel' (skip_ws r2) ;;
            Ok (v :: items, r3)
          else DecodeError
      end
  end.

(** [json.loads(s)]: leading whitespace, one value, trailing whitespace,
    and nothing else. *)
Definition loads (s : string) : scan value :=
  '(v, rest) <- scan_once (S (2 * String.length s)) (skip_ws s) ;;
  match skip_ws rest with
  | EmptyString => Ok v
  | String _ _ => DecodeError
  end.

(** ** What may follow a value

    In a document a value is followed by the end of the text, a comma, a
    closing bracket or brace, or whitespace. *)
Definition terminated (rest : string) : bool :=
  match rest with
  | EmptyString => true
  | String c _ =>
      is_ws c || Ascii.eqb c "," || Ascii.eqb c "]" || Ascii.eqb c "}"
  end.

(** A string of whitespace only. *)
Fixpoint all_ws (s : string) : bool :=
  match s with
  | EmptyString => true
  | String c s' => is_ws c && all_ws s'
  end.

End Json.

(* ================================================================== *)
(** * The Python objects [json.dumps] accepts *)
(* ================================================================== *)

Module Objects.
Import Py Json.















End Objects.

(* ================================================================== *)
(** * Tool bodies as interaction scripts *)
(* ================================================================== *)

Module Tool.
Import Py Json.

(** What an awaited collaborator hands back: its result, an instance of
    [Exception] with text [str_e], or an exception that derives from
    [BaseException] without being an [Exception], such as
    [asyncio.CancelledError] when the awaiting task is cancelled. *)
Inductive reply (R : Type) : Type :=
| Returned (r : R)
| Raised (str_e : string)
| RaisedBase (class : string).

Arguments Returned {R} r.
Arguments Raised {R} str_e.
Arguments RaisedBase {R} class.

(** A tool body: it returns, raises, leaves the model, or awaits one of
    its two collaborators and goes on with the reply.  The arguments of
    the awaits are the ones of the call, in its order. *)
Inductive tool (A : Type) : Type :=
| Return (a : A)
| Raise (e : exn)
| Unmodelled
| Await_get_ad_accounts
    (arg1 arg2 : string) (arg3 : option string) (k : reply string -> tool A)
| Await_make_api_request
    (endpoint : string) (access_token : option string) (params : dict)
    (method : option string) (k : reply value -> tool A).

Arguments Return {A} a.
Arguments Raise {A} e.
Arguments Unmodelled {A}.
Arguments Await_get_ad_accounts {A} arg1 arg2 arg3 k.
Arguments Await_make_api_request {A} endpoint access_token params method k.

Fixpoint bind {A B : Type} (t : tool A) (f : A -> tool B) : tool B :=
  match t with
  | Return a => f a
  | Raise e => Raise e
  | Unmodelled => Unmodelled
  | Await_get_ad_accounts a1 a2 a3 k =>
      Await_get_ad_accounts a1 a2 a3 (fun r => bind (k r) f)
  | Await_make_api_request ep tok ps m k =>
      Await_make_api_request ep tok ps m (fun r => bind (k r) f)
  end.

Notation "x <- t ;; f" := (bind t (fun x => f))
  (at level 61, t at next level, right associativity).

(** An await outside any [try]: the collaborator's exception propagates. *)
Definition propagate {R : Type} (r : reply R) : tool R :=
  match r with
  | Returned x => Return x
  | Raised str_e => Raise (Fault str_e)
  | RaisedBase class => Raise (BaseFault class)
  end.

Definition get_ad_accounts (arg1 arg2 : string) (arg3 : option string)
  : tool string :=
  Await_get_ad_accounts arg1 arg2 arg3 propagate.

Definition make_api_request (endpoint : string) (access_token : option string)
  (params : dict) (method : option string) : tool value :=
  Await_make_api_request endpoint access_token params method propagate.

Definition lift {A : Type} (r : result A) : tool A :=
  match r with
  | Val a => Return a
  | Exc e => Raise e
  end.

Definition json_loads (s : string) : tool value :=
  match loads s with
  | Ok v => Return v
  | DecodeError => Raise JSONDecodeError
  | OutsideModel => Unmodelled
  end.

(** ** Running a tool against a remote world *)

Inductive event : Type :=
| Called_get_ad_accounts
    (arg1 arg2 : string) (arg3 : option string) (r : reply string)
| Called_make_api_request
    (endpoint : string) (access_token : option string) (params : dict)
    (method : option string) (r : reply value).

Inductive outcome (A : Type) : Type :=
| Returns (a : A)
| Raises (e : exn)
| LeavesModel.

Arguments Returns {A} a.
Arguments Raises {A} e.
Arguments LeavesModel {A}.

Section Run.

(** The remote side: any state, and any behaviour of the two
    collaborators on it. *)
Variable World : Type.
Variable accounts_service :
  string -> string -> option string -> World -> reply string * World.
Variable dispatcher :
  string -> option string -> dict -> option string -> World ->
  reply value * World.

Record run_result (A : Type) : Type := mk_run
  { result_of : outcome A;
    trace_of : list event;
    world_of : World }.

Arguments mk_run {A} _ _ _.

Definition logged {A : Type} (e : event) (r : run_result A) : run_result A :=
  mk_run (result_of A r) (e :: trace_of A r) (world_of A r).

Fixpoint run {A : Type} (t : tool A) (w : World) : run_result A :=
  match t with
  | Return a => mk_run (Returns a) [] w
  | Raise e => mk_run (Raises e) [] w
  | Unmodelled => mk_run LeavesModel [] w
  | Await_get_ad_accounts a1 a2 a3 k =>
      let (r, w') := accounts_service a1 a2 a3 w in
      logged (Called_get_ad_accounts a1 a2 a3 r) (run (k r) w')
  | Await_make_api_request ep tok ps m k =>
      let (r, w') := dispatcher ep tok ps m w in
      logged (Called_make_api_request ep tok ps m r) (run (k r) w')
  end.

End Run.

Arguments result_of {World A} _.
Arguments trace_of {World A} _.
Arguments world_of {World A} _.
Arguments run {World} accounts_service dispatcher {A} t w.

End Tool.

(* ================================================================== *)
(** * [meta_ads_mcp/core/adsets.py] *)
(* ================================================================== *)

Module Adsets.
Import Py Json Tool.

Definition adsets_fields : string :=
  "id,name,campaign_id,status,daily_budget,lifetime_budget,targeting,bid_amount,bid_strategy,optimization_goal,billing_event,start_time,end_time,created_time,updated_time,frequency_control_specs{event,interval_days,max_frequency}".

Definition adset_details_fields : string :=
  "id,name,campaign_id,status,frequency_control_specs{event,interval_days,max_frequency},daily_budget,lifetime_budget,targeting,bid_amount,bid_strategy,optimization_goal,billing_event,start_time,end_time,created_time,updated_time,attribution_spec,destination_type,promoted_object,pacing_type,budget_remaining".

(** [json.dumps({"error": msg}, indent=2)] *)
Definition error_envelope (msg : string) : string :=
  dumps (Some 2%nat) (VDict [("error", VStr msg)]).

(** The part of [get_adsets] after the account has been resolved; the
    resolved [account_id] is whatever the accounts payload held. *)
Definition get_adsets_request (access_token : option string)
  (account_id : value) (limit : Z) (campaign_id : string) : tool string :=
  let (endpoint, params) :=
    if truthy (VStr campaign_id) then
      (campaign_id ++ "/adsets",
       [("fields", VStr adsets_fields); ("limit", VInt limit)])
    else
      (str account_id ++ "/adsets",
       [("fields", VStr adsets_fields); ("limit", VInt limit)]) in
  data <- make_api_request endpoint access_token params None ;;
  Return (dumps (Some 2%nat) data).

(** [get_adsets(access_token=None, account_id=None, limit=10, campaign_id=...)],
    the default of [campaign_id] being the empty string. *)
Definition get_adsets (access_token : option string)
  (account_id : option string) (limit : Z) (campaign_id : string)
  : tool string :=
  if negb (truthy (opt_str account_id)) then
    accounts_json <-
      get_ad_accounts "me" (dumps None (VDict [("limit", VInt 1)]))
        access_token ;;
    accounts_data <- json_loads accounts_json ;;
    has_data <- lift (contains accounts_data "data") ;;
    nonempty <-
      (if has_data : bool
       then d <- lift (getitem accounts_data "data") ;; Return (truthy d)
       else Return false) ;;
    if nonempty : bool then
      d <- lift (getitem accounts_data "data") ;;
      first <- lift (getindex d 0) ;;
      id <- lift (getitem first "id") ;;
      get_adsets_request access_token id limit campaign_id
    else
      Return (error_envelope
                "No account ID specified and no accounts found for user")
  else
    get_adsets_request access_token (opt_str account_id) limit campaign_id.

Definition no_frequency_control_specs_note : string :=
  "No frequency_control_specs field was returned by the API. This means either no frequency caps are set or the API did not include this field in the response.".

(** [get_adset_details(access_token=None, adset_id=None)] *)
Definition get_adset_details (access_token : option string)
  (adset_id : option string) : tool string :=
  if negb (truthy (opt_str adset_id)) then
    Return (error_envelope "No ad set ID provided")
  else
    let endpoint := str (opt_str adset_id) in
    let params := [("fields", VStr adset_details_fields)] in
    data <- make_api_request endpoint access_token params None ;;
    has_specs <- lift (contains data "frequency_control_specs") ;;
    data <-
      (if negb has_specs
       then lift (setitem data "_meta"
                    (VDict [("note", VStr no_frequency_control_specs_note)]))
       else Return data) ;;
    Return (dumps (Some 2%nat) data).

Definition default_targeting : value :=
  VDict [("age_min", VInt 18);
         ("age_max", VInt 65);
         ("geo_locations", VDict [("countries", VList [VStr "US"])]);
         ("targeting_automation", VDict [("advantage_audience", VInt 1)])].

(** [params[k] = str(v)] when [v is not None]. *)
Definition set_str_if_not_None (params : dict) (k : string) (v : value) : dict :=
  if is_not_None v then dict_set params k (VStr (str v)) else params.

(** [params[k] = v] when [v] is truthy. *)
Definition set_if_truthy (params : dict) (k : string) (v : value) : dict :=
  if truthy v then dict_set params k v else params.

(** [params[k] = v] when [v is not None]. *)
Definition set_if_not_None (params : dict) (k : string) (v : value) : dict :=
  if is_not_None v then dict_set params k v else params.

(** The [params] of [create_adset] once the required arguments are there. *)
Definition create_adset_params (campaign_id name : option string)
  (status : string) (daily_budget lifetime_budget targeting : value)
  (optimization_goal billing_event : option string) (bid_amount : value)
  (bid_strategy start_time end_time : option string) : dict :=
  let targeting := if negb (truthy targeting) then default_targeting
                   else targeting in
  let params :=
    [("name", opt_str name);
     ("campaign_id", opt_str campaign_id);
     ("status", VStr status);
     ("optimization_goal", opt_str optimization_goal);
     ("billing_event", opt_str billing_event);
     ("targeting", VStr (dumps None targeting))] in
  let params := set_str_if_not_None params "daily_budget" daily_budget in
  let params := set_str_if_not_None params "lifetime_budget" lifetime_budget in
  let params := set_str_if_not_None params "bid_amount" bid_amount in
  let params := set_if_truthy params "bid_strategy" (opt_str bid_strategy) in
  let params := set_if_truthy params "start_time" (opt_str start_time) in
  let params := set_if_truthy params "end_time" (opt_str end_time) in
  params.

(** [create_adset(account_id=None, campaign_id=None, name=None,
    status="PAUSED", daily_budget=None, lifetime_budget=None, targeting=None,
    optimization_goal=None, billing_event=None, bid_amount=None,
    bid_strategy=None, start_time=None, end_time=None, access_token=None)].
    The [try] encloses the await and the encoding of its result, and
    encoding a value of the model cannot fail; [except Exception] leaves
    what is raised outside [Exception] to propagate. *)
Definition create_adset (account_id campaign_id name : option string)
  (status : string) (daily_budget lifetime_budget targeting : value)
  (optimization_goal billing_event : option string) (bid_amount : value)
  (bid_strategy start_time end_time access_token : option string)
  : tool string :=
  if negb (truthy (opt_str account_id)) then
    Return (error_envelope "No account ID provided")
  else if negb (truthy (opt_str campaign_id)) then
    Return (error_envelope "No campaign ID provided")
  else if negb (truthy (opt_str name)) then
    Return (error_envelope "No ad set name provided")
  else if negb (truthy (opt_str optimization_goal)) then
    Return (error_envelope "No optimization goal provided")
  else if negb (truthy (opt_str billing_event)) then
    Return (error_envelope "No billing event provided")
  else
    let endpoint := str (opt_str account_id) ++ "/adsets" in
    let params :=
      create_adset_params campaign_id name status daily_budget lifetime_budget
        targeting optimization_goal billing_event bid_amount bid_strategy
        start_time end_time in
    Await_make_api_request endpoint access_token params (Some "POST")
      (fun r =>
         match r with
         | Returned data => Return (dumps (Some 2%nat) data)
         | Raised error_msg =>
             Return (dumps (Some 2%nat)
                       (VDict [("error", VStr "Failed to create ad set");
                               ("details", VStr error_msg);
                               ("params_sent", VDict params)]))
         | RaisedBase class => Raise (BaseFault class)
         end).

(** The [params] of [update_adset]. *)
Definition update_adset_params (frequency_control_specs : value)
  (bid_strategy : option string) (bid_amount : option Z)
  (status : option string) (targeting : value)
  (optimization_goal : option string) : dict :=
  let params := [] in
  let params :=
    set_if_not_None params "frequency_control_specs" frequency_control_specs in
  let params := set_if_not_None params "bid_strategy" (opt_str bid_strategy) in
  let params := set_str_if_not_None params "bid_amount" (opt_int bid_amount) in
  let params := set_if_not_None params "status" (opt_str status) in
  let params :=
    set_if_not_None params "optimization_goal" (opt_str optimization_goal) in
  let params :=
    if is_not_None targeting then
      if isinstance_dict targeting
      then dict_set params "targeting" (VStr (dumps None targeting))
      else dict_set params "targeting" targeting
    else params in
  params.

(** [update_adset(adset_id, frequency_control_specs=None, bid_strategy=None,
    bid_amount=None, status=None, targeting=None, optimization_goal=None,
    access_token=None)] *)
Definition update_adset (adset_id : string) (frequency_control_specs : value)
  (bid_strategy : option string) (bid_amount : option Z)
  (status : option string) (targeting : value)
  (optimization_goal access_token : option string) : tool string :=
  if negb (truthy (VStr adset_id)) then
    Return (error_envelope "No ad set ID provided")
  else
    let params :=
      update_adset_params frequency_control_specs bid_strategy bid_amount
        status targeting optimization_goal in
    if negb (truthy (VDict params)) then
      Return (error_envelope "No update parameters provided")
    else
      let endpoint := adset_id in
      Await_make_api_request endpoint access_token params (Some "POST")
        (fun r =>
           match r with
           | Returned data => Return (dumps (Some 2%nat) data)
           | Raised error_msg =>
               Return (dumps (Some 2%nat)
                         (VDict [("error",
                                  VStr ("Failed to update ad set " ++ adset_id));
                                 ("details", VStr error_msg);
                                 ("params_sent", VDict params)]))
           | RaisedBase class => Raise (BaseFault class)
           end).

(** ** Vocabulary of the statements about [get_adsets] *)

(** The accounts query [get_adsets] makes when no account is given. *)
Definition accounts_query {World : Type}
  (accounts_service :
     string -> string -> option string -> World -> reply string * World)
  (access_token : option string) (w : World) : reply string * World :=
  accounts_service "me" (dumps None (VDict [("limit", VInt 1)]))
    access_token w.

Definition accounts_event {World : Type}
  (accounts_service :
     string -> string -> option string -> World -> reply string * World)
  (access_token : option string) (w : World) : event :=
  Called_get_ad_accounts "me" (dumps None (VDict [("limit", VInt 1)]))
    access_token (fst (accounts_query accounts_service access_token w)).

(** The request is on the campaign's path, with [fields] and [limit] only. *)
Definition campaign_scoped (campaign_id : string) (e : event) : Prop :=
  match e with
  | Called_make_api_request endpoint _ params _ _ =>
      endpoint = campaign_id ++ "/adsets" /\ keys params = ["fields"; "limit"]
  | Called_get_ad_accounts _ _ _ _ => True
  end.

(** The payload of the accounts query lists no account: it is a mapping
    with no [data], or with an empty one. *)
Definition zero_accounts (accounts_json : string) : Prop :=
  exists d,
    loads accounts_json = Ok (VDict d)
    /\ (dict_get d "data" = None \/ dict_get d "data" = Some (VList [])).

(** The payload of the accounts query lists an account first whose [id]
    is [id]. *)
Definition first_account (accounts_json : string) (id : value) : Prop :=
  exists d first others,
    loads accounts_json = Ok (VDict d)
    /\ dict_get d "data" = Some (VList (VDict first :: others))
    /\ dict_get first "id" = Some id.

End Adsets.

(* ================================================================== *)
(** * The token manager behind [pipeboard_auth_manager] *)
(* ================================================================== *)

Module PipeboardAuth.

(** The value [test_bypass.py] compares every token with. *)
Definition MOCK_ACCESS_TOKEN : string := "MOCK_ACCESS_TOKEN_BYPASS_12345".

(** Modelled from the spec: the [source] of a credential, from the data
    model of the token manager ([pipeboard_auth.py] is not among the
    sources). *)
Inductive source : Type := LIVE | BYPASS.

(** Modelled from the spec: the [Credential] record of the data model of
    the token manager, which is not among the sources. *)
Record Credential : Type := mkCredential
  { token : string;
    obtained_at : Z;
    cred_source : source;
    known_valid : option bool }.

(** Modelled from the spec: the states of the token lifecycle, which is
    not among the sources; acquiring is transient inside one call and has
    no state of its own here. *)
Inductive lifecycle : Type :=
| UNINITIALIZED
| BYPASSED
| HELD (c : Credential).

(** Modelled from the spec: the token manager, which is not among the
    sources: the environment signal that selects bypass mode, and the
    credential store. *)
Record manager : Type := mkManager
  { bypass_mode : bool;
    state : lifecycle }.

(** Modelled from the spec: what [get_access_token] gives, a token or the
    signal [AuthError]; the function is not among the sources. *)
Inductive token_result : Type :=
| Token (t : string)
| AuthError.

Section Manager.

(** What the token provider would answer to an acquisition ([None]: it
    fails), and the time of the call. *)
Variable acquisition : option string.
Variable now : Z.

(** Modelled from the spec: the token currently held by the manager, which
    is not among the sources. *)
Definition held_token (m : manager) : option string :=
  match state m with
  | HELD c => Some (token c)
  | _ => None
  end.

(** Modelled from the spec: a held token can be returned as it is unless
    it is known to be invalid; the manager is not among the sources, and
    the empty string is never returned. *)
Definition usable (m : manager) : bool :=
  match state m with
  | HELD c =>
      match known_valid c with
      | Some false => false
      | _ => negb (token c =? EmptyString)%string
      end
  | _ => false
  end.

(** Modelled from the spec: the fall-back of a failed acquisition in the
    manager, which is not among the sources.  [AuthError] is signalled
    when no prior token is available; with one at hand the spec names no
    error, and the prior token is returned. *)
Definition prior_token (m : manager) : token_result * manager :=
  match held_token m with
  | Some old =>
      if (old =? EmptyString)%string then (AuthError, m) else (Token old, m)
  | None => (AuthError, m)
  end.

(** Modelled from the spec: an acquisition by the manager, which is not
    among the sources.  The new token replaces the credential; an empty
    answer counts as a failure, since an empty string is never returned. *)
Definition acquire (m : manager) : token_result * manager :=
  match acquisition with
  | Some t =>
      if (t =? EmptyString)%string then prior_token m
      else
        (Token t,
         mkManager (bypass_mode m) (HELD (mkCredential t now LIVE None)))
  | None => prior_token m
  end.

(** Modelled from the spec: [get_access_token] of
    [meta_ads_mcp/core/pipeboard_auth.py], which is not among the sources.
    In bypass mode it always returns the fixed sentinel token, whatever
    [force_refresh] is.  Otherwise a held token is returned unchanged
    when [force_refresh] is false; with no token held, with
    [force_refresh] true or with a held token known to be invalid, it
    acquires and returns the new token.  It never returns an empty
    string, and signals [AuthError] when acquisition fails and no prior
    token is available. *)
Definition get_access_token (m : manager) (force_refresh : bool)
  : token_result * manager :=
  if bypass_mode m then
    (Token MOCK_ACCESS_TOKEN, mkManager true BYPASSED)
  else if negb force_refresh && usable m then
    match held_token m with
    | Some t => (Token t, m)
    | None => acquire m
    end
  else acquire m.

(** The tokens a sequence of calls returns, one per [force_refresh]
    argument, each call on the manager as the one before left it. *)
Fixpoint tokens_of_calls (m : manager) (calls : list bool)
  : list token_result :=
  match calls with
  | [] => []
  | force_refresh :: calls' =>
      let (t, m') := get_access_token m force_refresh in
      t :: tokens_of_calls m' calls'
  end.

End Manager.

End PipeboardAuth.

(* ================================================================== *)
(** * Scripted remote worlds, for the examples *)
(* ================================================================== *)

Module Scenario.
Import Py Json Tool.

(** The remote state here counts the calls it has served. *)
Definition World : Type := nat.

(** [get_ad_accounts] answering that the user has no account. *)
Definition no_accounts (arg1 arg2 : string) (arg3 : option string) (w : World)
  : reply string * World :=
  (Returned (dumps None (VDict [("data", VList [])])), S w).

(** [get_ad_accounts] answering with the single account [act_1]. *)
Definition one_account (arg1 arg2 : string) (arg3 : option string) (w : World)
  : reply string * World :=
  (Returned (dumps None (VDict [("data", VList [VDict [("id", VStr "act_1")]])])),
   S w).

(** A dispatcher whose every call raises. *)
Definition failing (endpoint : string) (access_token : option string)
  (params : dict) (method : option string) (w : World)
  : reply value * World :=
  (Raised "Connection refused", S w).

(** A dispatcher whose every call is cut short by the cancellation of
    the task that awaits it. *)
Definition cancelled (endpoint : string) (access_token : option string)
  (params : dict) (method : option string) (w : World)
  : reply value * World :=
  (RaisedBase "CancelledError", S w).

(** A dispatcher whose every call returns [payload]. *)
Definition answering (payload : value) (endpoint : string)
  (access_token : option string) (params : dict) (method : option string)
  (w : World) : reply value * World :=
  (Returned payload, S w).

(** The frequency caps of the docstring of [update_adset]. *)
Definition frequency_caps : value :=
  VList [VDict [("event", VStr "IMPRESSIONS");
                ("interval_days", VInt 7);
                ("max_frequency", VInt 3)]].

(** An ad set as the API describes it, with no frequency caps. *)
Definition adset_payload : dict :=
  [("id", VStr "123"); ("name", VStr "Spring"); ("status", VStr "PAUSED")].

End Scenario.

(* ================================================================== *)
(** * Vocabulary and scripted worlds for the whole of [adsets.py] *)
(* ================================================================== *)

Module Shape.
Import Py Json Tool Adsets.

(** A call of [make_api_request]. *)
Definition is_request (e : event) : bool :=
  match e with
  | Called_make_api_request _ _ _ _ _ => true
  | Called_get_ad_accounts _ _ _ _ => false
  end.

(** A call of [get_ad_accounts]. *)
Definition is_query (e : event) : bool :=
  match e with
  | Called_get_ad_accounts _ _ _ _ => true
  | Called_make_api_request _ _ _ _ _ => false
  end.

(** Printable ASCII, or a line feed. *)
Definition plain_char (c : ascii) : bool :=
  let n := ord c in
  ((n =? 10) || (32 <=? n) && (n <=? 126))%N.

Fixpoint plain_text (s : string) : bool :=
  match s with
  | EmptyString => true
  | String c s' => plain_char c && plain_text s'
  end.

(** The value [get_adset_details] stores under [_meta]. *)
Definition meta_note : value :=
  VDict [("note", VStr no_frequency_control_specs_note)].

(** The message of the first required argument of [create_adset] that is
    missing, in the order the body tests them. *)
Definition first_missing
  (account_id campaign_id name optimization_goal billing_event : option string)
  : option string :=
  if negb (truthy (opt_str account_id)) then Some "No account ID provided"
  else if negb (truthy (opt_str campaign_id)) then
    Some "No campaign ID provided"
  else if negb (truthy (opt_str name)) then Some "No ad set name provided"
  else if negb (truthy (opt_str optimization_goal)) then
    Some "No optimization goal provided"
  else if negb (truthy (opt_str billing_event)) then
    Some "No billing event provided"
  else None.

(** [x is not None] for an optional string or integer argument. *)
Definition given {A : Type} (o : option A) : bool :=
  match o with
  | Some _ => true
  | None => false
  end.

(** [get_ad_accounts] raising. *)
Definition accounts_down (arg1 arg2 : string) (arg3 : option string)
  (w : Scenario.World) : reply string * Scenario.World :=
  (Raised "Invalid OAuth access token", S w).


(** [get_ad_accounts] answering with an account that has a name and no
    [id]. *)
Definition account_without_id (arg1 arg2 : string) (arg3 : option string)
  (w : Scenario.World) : reply string * Scenario.World :=
  (Returned
     (dumps None (VDict [("data", VList [VDict [("name", VStr "Main")]])])),
   S w).

End Shape.

(* ================================================================== *)
(** * Facts about strings and the JSON codec *)
(* ================================================================== *)

Module JsonFacts.
Import Py Json.

(** Induction on values that reaches inside lists and dicts. *)
Lemma value_ind' (P : value -> Prop) :
  P VNone ->
  (forall b, P (VBool b)) ->
  (forall z, P (VInt z)) ->
  (forall s, P (VStr s)) ->
  (forall l, Forall P l -> P (VList l)) ->
  (forall d, Forall (fun kv => P (snd kv)) d -> P (VDict d)) ->
  forall v, P v.
Proof.
  intros HN HB HI HS HL HD.
  fix IH 1.
  intros [ | b | z | s | l | d ].
  - exact HN.
  - apply HB.
  - apply HI.
  - apply HS.
  - apply HL. induction l as [ | x l IHl ]; constructor.
    + apply IH.
    + exact IHl.
  - apply HD. induction d as [ | [k x] d IHd ]; constructor.
    + apply IH.
    + exact IHd.
Qed.

Lemma append_assoc (a b c : string) : (a ++ b) ++ c = a ++ (b ++ c).
Proof.
  induction a as [ | x a IHa ]; simpl; [ reflexivity | now rewrite IHa ].
Qed.

Lemma length_append (a b : string) :
  String.length (a ++ b) = (String.length a + String.length b)%nat.
Proof.
  induction a as [ | x a IHa ]; simpl; [ reflexivity | now rewrite IHa ].
Qed.

(** ** Whitespace *)

Lemma skip_ws_all_ws (w s : string) :
  all_ws w = true -> skip_ws (w ++ s) = skip_ws s.
Proof.
  induction w as [ | c w IHw ]; simpl; [ reflexivity | ].
  intros H. apply andb_true_iff in H as [Hc Hw].
  rewrite Hc. auto.
Qed.

Lemma skip_ws_head (c : ascii) (s : string) :
  is_ws c = false -> skip_ws (String c s) = String c s.
Proof. intros H. simpl. now rewrite H. Qed.

Lemma all_ws_spaces (n : nat) : all_ws (spaces n) = true.
Proof. induction n; simpl; auto. Qed.

Lemma all_ws_newline_indent (indent : option nat) (level : nat) :
  all_ws (newline_indent indent level) = true.
Proof.
  destruct indent as [ n | ]; simpl; [ apply all_ws_spaces | reflexivity ].
Qed.

(** The text between two items: a comma, then whitespace only. *)
Lemma item_separator_shape (indent : option nat) (level : nat) :
  exists w,
    item_separator indent ++ newline_indent indent level = String "," w
    /\ all_ws w = true.
Proof.
  destruct indent as [ n | ]; simpl.
  - exists (String newline (spaces (n * level))). split; [ reflexivity | ].
    simpl. apply all_ws_spaces.
  - exists " ". split; reflexivity.
Qed.

(** ** Strings *)

Lemma scanstring_escape_char (c : ascii) (s : string) :
  scanstring (escape_char c ++ s) = cons_char c (scanstring s).
Proof.
  destruct c as [[] [] [] [] [] [] [] []]; reflexivity.
Qed.

Lemma scanstring_escape_chars (s rest : string) :
  scanstring (escape_chars s ++ String quote rest) = Ok (s, rest).
Proof.
  induction s as [ | c s IHs ]; simpl.
  - reflexivity.
  - rewrite append_assoc, scanstring_escape_char, IHs. reflexivity.
Qed.

Lemma length_escape_char (c : ascii) : (1 <= String.length (escape_char c))%nat.
Proof.
  destruct c as [[] [] [] [] [] [] [] []]; vm_compute; lia.
Qed.

(** ** Integers *)

Lemma scan_digits_uint (u : Decimal.uint) (rest : string) :
  starts_with_digit rest = false ->
  scan_digits (NilEmpty.string_of_uint u ++ rest) = (u, rest).
Proof.
  intros Hrest.
  induction u; simpl; try (rewrite IHu; reflexivity).
  destruct rest as [ | c r ]; [ reflexivity | ].
  simpl in Hrest. simpl.
  unfold is_digit in Hrest. unfold digit_of.
  destruct c as [[] [] [] [] [] [] [] []]; try reflexivity; discriminate Hrest.
Qed.

(** The decimal digits of a positive number start with a non-zero one. *)
Lemma to_uint_head (p : positive) :
  match Pos.to_uint p with
  | Decimal.Nil | Decimal.D0 _ => False
  | _ => True
  end.
Proof.
  pose proof (DecimalPos.Unsigned.to_of (Pos.to_uint p)) as H.
  rewrite DecimalPos.Unsigned.of_to in H. simpl in H.
  pose proof (DecimalPos.Unsigned.to_uint_nonzero p) as Hz.
  pose proof (DecimalPos.Unsigned.to_uint_nonnil p) as Hn.
  destruct (Pos.to_uint p) as [ | u | u | u | u | u | u | u | u | u | u ]
    eqn:E; try exact I; try congruence.
  rewrite unorm_D0 in H.
  destruct (Decimal.uint_eq_dec u Decimal.Nil) as [ -> | Hu ];
    [ now apply Hz | ].
  pose proof (nb_digits_unorm u Hu) as Hlen.
  rewrite <- H in Hlen. simpl in Hlen. lia.
Qed.

Lemma terminated_no_digit (rest : string) :
  terminated rest = true -> starts_with_digit rest = false.
Proof.
  destruct rest as [ | c r ]; [ reflexivity | ].
  destruct c as [[] [] [] [] [] [] [] []]; intros H; try reflexivity;
    discriminate H.
Qed.

Lemma terminated_no_float (rest : string) :
  terminated rest = true -> float_follows rest = false.
Proof.
  destruct rest as [ | c r ]; [ reflexivity | ].
  destruct c as [[] [] [] [] [] [] [] []]; intros H; try reflexivity;
    discriminate H.
Qed.

Lemma match_integer_pos (p : positive) (rest : string) :
  starts_with_digit rest = false ->
  match_integer (NilEmpty.string_of_uint (Pos.to_uint p) ++ rest)
  = Some (Decimal.Pos (Pos.to_uint p), rest).
Proof.
  intros Hrest. pose proof (to_uint_head p) as Hh.
  destruct (Pos.to_uint p) as [ | u | u | u | u | u | u | u | u | u | u ];
    try contradiction;
    unfold match_integer; cbn -[scan_digits];
    cbn; rewrite (scan_digits_uint u rest Hrest); reflexivity.
Qed.

Lemma match_integer_neg (p : positive) (rest : string) :
  starts_with_digit rest = false ->
  match_integer (String "-" (NilEmpty.string_of_uint (Pos.to_uint p) ++ rest))
  = Some (Decimal.Neg (Pos.to_uint p), rest).
Proof.
  intros Hrest. pose proof (to_uint_head p) as Hh.
  destruct (Pos.to_uint p) as [ | u | u | u | u | u | u | u | u | u | u ];
    try contradiction;
    unfold match_integer; cbn -[scan_digits];
    cbn; rewrite (scan_digits_uint u rest Hrest); reflexivity.
Qed.

Lemma string_of_uint_pos (p : positive) :
  NilZero.string_of_uint (Pos.to_uint p)
  = NilEmpty.string_of_uint (Pos.to_uint p).
Proof.
  pose proof (DecimalPos.Unsigned.to_uint_nonnil p) as Hn.
  destruct (Pos.to_uint p); [ congruence | reflexivity .. ].
Qed.

Lemma scan_atom_int (z : Z) (rest : string) :
  terminated rest = true ->
  scan_atom (int_repr z ++ rest) = Ok (VInt z, rest).
Proof.
  intros Hrest.
  pose proof (terminated_no_digit rest Hrest) as Hd.
  pose proof (terminated_no_float rest Hrest) as Hf.
  pose proof (DecimalZ.of_to z) as Hz.
  unfold int_repr in *.
  destruct z as [ | p | p ]; simpl Z.to_int in *.
  - unfold scan_atom. cbn. rewrite Hf. reflexivity.
  - simpl NilZero.string_of_int. rewrite string_of_uint_pos.
    pose proof (match_integer_pos p rest Hd) as Hm.
    pose proof (to_uint_head p) as Hh.
    unfold scan_atom. rewrite Hm, Hf, Hz.
    destruct (Pos.to_uint p); try contradiction; reflexivity.
  - simpl NilZero.string_of_int. rewrite string_of_uint_pos.
    pose proof (match_integer_neg p rest Hd) as Hm.
    unfold scan_atom.
    change (String "-" (NilEmpty.string_of_uint (Pos.to_uint p)) ++ rest)
      with (String "-" (NilEmpty.string_of_uint (Pos.to_uint p) ++ rest)).
    rewrite Hm, Hf, Hz. reflexivity.
Qed.

(** ** Dicts rebuilt from their own pairs *)

Lemma distinct_NoDup (l : list string) : distinct l = true -> NoDup l.
Proof.
  induction l as [ | k l IHl ]; simpl; intros H; constructor.
  - apply andb_true_iff in H as [H _].
    intros Hin. apply negb_true_iff in H.
    assert (existsb (String.eqb k) l = true) as E.
    { apply existsb_exists. exists k. split; [ exact Hin | apply String.eqb_refl ]. }
    congruence.
  - apply IHl. now apply andb_true_iff in H as [_ H].
Qed.

Lemma dict_set_fresh (d : dict) (k : string) (v : value) :
  ~ In k (map fst d) -> dict_set d k v = (d ++ [(k, v)])%list.
Proof.
  induction d as [ | [k' v'] d IHd ]; simpl; intros Hk; [ reflexivity | ].
  destruct (String.eqb_spec k' k) as [ -> | Hne ].
  - exfalso. apply Hk. now left.
  - rewrite IHd; [ reflexivity | ]. intros Hin. apply Hk. now right.
Qed.

Lemma fold_dict_set_fresh (d acc : dict) :
  NoDup (map fst (acc ++ d)%list) ->
  fold_left (fun d kv => dict_set d (fst kv) (snd kv)) d acc = (acc ++ d)%list.
Proof.
  revert acc. induction d as [ | [k v] d IHd ]; intros acc Hnd; simpl.
  - now rewrite List.app_nil_r.
  - rewrite dict_set_fresh.
    + rewrite IHd; rewrite <- List.app_assoc; [ reflexivity | exact Hnd ].
    + rewrite map_app in Hnd. simpl in Hnd.
      apply NoDup_remove_2 in Hnd. intros Hin. apply Hnd.
      apply in_or_app. now left.
Qed.

Lemma dict_of_pairs_distinct (d : dict) :
  distinct (map fst d) = true -> dict_of_pairs d = d.
Proof.
  intros H. unfold dict_of_pairs.
  apply (fold_dict_set_fresh d []). simpl. now apply distinct_NoDup.
Qed.

(** ** One step of each scanner *)

Lemma scan_once_atom (fuel : nat) (c : ascii) (s : string) :
  Ascii.eqb c quote = false ->
  Ascii.eqb c "{" = false ->
  Ascii.eqb c "[" = false ->
  scan_once (S fuel) (String c s) = scan_atom (String c s).
Proof. intros H1 H2 H3. simpl. rewrite H1, H2, H3. reflexivity. Qed.

Lemma scan_once_string (fuel : nat) (s : string) :
  scan_once (S fuel) (String quote s)
  = scan_bind (scanstring s) (fun p => Ok (VStr (fst p), snd p)).
Proof. simpl. destruct (scanstring s) as [ [t r] | | ]; reflexivity. Qed.

Lemma scan_once_array (fuel : nat) (s : string) (c1 : ascii) (s1 : string) :
  skip_ws s = String c1 s1 ->
  Ascii.eqb c1 "]" = false ->
  scan_once (S fuel) (String "[" s)
  = scan_bind (JSONArray fuel (String c1 s1))
      (fun p => Ok (VList (fst p), snd p)).
Proof.
  intros H1 H2. simpl. rewrite H1, H2.
  destruct (JSONArray fuel (String c1 s1)) as [ [t r] | | ]; reflexivity.
Qed.

Lemma scan_once_object (fuel : nat) (s s1 : string) :
  skip_ws s = String quote s1 ->
  scan_once (S fuel) (String "{" s)
  = scan_bind (JSONObject fuel s1)
      (fun p => Ok (VDict (dict_of_pairs (fst p)), snd p)).
Proof.
  intros H1. simpl. rewrite H1. simpl.
  destruct (JSONObject fuel s1) as [ [t r] | | ]; reflexivity.
Qed.

Lemma JSONArray_step (fuel : nat) (s : string) (v : value) (r : string) :
  scan_once fuel s = Ok (v, r) ->
  JSONArray (S fuel) s
  = match skip_ws r with
    | EmptyString => DecodeError
    | String c r2 =>
        if Ascii.eqb c "]" then Ok ([v], r2)
        else if Ascii.eqb c "," then
          scan_bind (JSONArray fuel (skip_ws r2))
            (fun p => Ok (v :: fst p, snd p))
        else DecodeError
    end.
Proof.
  intros H. simpl. rewrite H. simpl.
  destruct (skip_ws r) as [ | c r2 ]; [ reflexivity | ].
  destruct (Ascii.eqb c "]"); [ reflexivity | ].
  destruct (Ascii.eqb c ","); [ | reflexivity ].
  destruct (JSONArray fuel (skip_ws r2)) as [ [t q] | | ]; reflexivity.
Qed.

Lemma JSONObject_step (fuel : nat) (s key r1 r2 : string) (v : value)
  (r3 : string) :
  scanstring s = Ok (key, r1) ->
  skip_ws r1 = String ":" r2 ->
  scan_once fuel (skip_ws r2) = Ok (v, r3) ->
  JSONObject (S fuel) s
  = match skip_ws r3 with
    | EmptyString => DecodeError
    | String c' r4 =>
        if Ascii.eqb c' "}" then Ok ([(key, v)], r4)
        else if Ascii.eqb c' "," then
          match skip_ws r4 with
          | EmptyString => DecodeError
          | String c'' r5 =>
              if Ascii.eqb c'' quote then
                scan_bind (JSONObject fuel r5)
                  (fun p => Ok ((key, v) :: fst p, snd p))
              else DecodeError
          end
        else DecodeError
    end.
Proof.
  intros H1 H2 H3. simpl. rewrite H1. simpl. rewrite H2. simpl.
  rewrite H3. simpl.
  destruct (skip_ws r3) as [ | c' r4 ]; [ reflexivity | ].
  destruct (Ascii.eqb c' "}"); [ reflexivity | ].
  destruct (Ascii.eqb c' ","); [ | reflexivity ].
  destruct (skip_ws r4) as [ | c'' r5 ]; [ reflexivity | ].
  destruct (Ascii.eqb c'' quote); [ | reflexivity ].
  destruct (JSONObject fuel r5) as [ [t q] | | ]; reflexivity.
Qed.

(** ** How an encoding starts, and how long it is *)

Lemma int_repr_head (z : Z) :
  exists c s,
    int_repr z = String c s /\ (Ascii.eqb c "-" || is_digit c) = true.
Proof.
  unfold int_repr.
  destruct z as [ | p | p ]; simpl Z.to_int; simpl NilZero.string_of_int.
  - exists "0"%char, EmptyString. split; reflexivity.
  - rewrite string_of_uint_pos. pose proof (to_uint_head p) as Hh.
    destruct (Pos.to_uint p); try contradiction; simpl;
      eexists; eexists; (split; [ reflexivity | reflexivity ]).
  - eexists; eexists; split; reflexivity.
Qed.

Lemma iterencode_head (indent : option nat) (level : nat) (v : value) :
  exists c s,
    iterencode indent level v = String c s
    /\ is_ws c = false /\ Ascii.eqb c "]" = false.
Proof.
  destruct v as [ | [ | ] | z | s | [ | x l ] | [ | kv d ] ];
    try (simpl; eexists; eexists; (split; [ reflexivity | split; reflexivity ])).
  destruct (int_repr_head z) as (c & s & E & H).
  exists c, s. simpl. split; [ exact E | ].
  clear E. unfold is_digit in H.
  destruct c as [[] [] [] [] [] [] [] []]; try discriminate H;
    split; reflexivity.
Qed.

Lemma length_iterencode (indent : option nat) (level : nat) (v : value) :
  (1 <= String.length (iterencode indent level v))%nat.
Proof.
  destruct (iterencode_head indent level v) as (c & s & E & _).
  rewrite E. simpl. lia.
Qed.

Lemma skip_ws_iterencode (indent : option nat) (level : nat) (v : value)
  (tail : string) :
  skip_ws (iterencode indent level v ++ tail)
  = iterencode indent level v ++ tail.
Proof.
  destruct (iterencode_head indent level v) as (c & s & E & Hws & _).
  rewrite E. simpl append. now apply skip_ws_head.
Qed.

Lemma skip_ws_space (s : string) : skip_ws (String " " s) = skip_ws s.
Proof. reflexivity. Qed.

Lemma concat_cons2 (sep a b : string) (l : list string) :
  String.concat sep (a :: b :: l) = a ++ sep ++ String.concat sep (b :: l).
Proof. reflexivity. Qed.

Lemma terminated_close (w : string) (c : ascii) (rest : string) :
  all_ws w = true ->
  (Ascii.eqb c "]" || Ascii.eqb c "}") = true ->
  terminated (w ++ String c rest) = true.
Proof.
  intros Hw Hc. destruct w as [ | x w ]; simpl in *.
  - destruct (is_ws c), (Ascii.eqb c ","), (Ascii.eqb c "]"),
      (Ascii.eqb c "}"); try reflexivity; discriminate Hc.
  - apply andb_true_iff in Hw as [Hx _]. rewrite Hx. reflexivity.
Qed.

(** ** Arrays *)

Section Items.

Variable indent : option nat.
Variable level : nat.

(** The property of one value that the loops below rely on. *)
Let scans (v : value) : Prop :=
  forall fuel rest,
    terminated rest = true ->
    (String.length (iterencode indent level v) <= fuel)%nat ->
    scan_once fuel (iterencode indent level v ++ rest) = Ok (v, rest).

Let sep : string := item_separator indent ++ newline_indent indent level.

Lemma JSONArray_items (close rest : string) :
  all_ws close = true ->
  forall items,
    items <> [] ->
    Forall scans items ->
    forall fuel,
      (String.length (String.concat sep (map (iterencode indent level) items))
       + 1 <= fuel)%nat ->
      JSONArray fuel
        (String.concat sep (map (iterencode indent level) items)
           ++ close ++ String "]" rest)
      = Ok (items, rest).
Proof.
  intros Hclose items.
  induction items as [ | x xs IH ]; [ congruence | ].
  intros _ HF fuel Hfuel. inversion HF as [ | ? ? Hx Hxs ]; subst.
  destruct fuel as [ | fuel ]; [ lia | ].
  destruct xs as [ | y ys ].
  - simpl map in *. simpl String.concat in *.
    rewrite (JSONArray_step fuel _ x (close ++ String "]" rest)).
    + rewrite skip_ws_all_ws by exact Hclose.
      rewrite skip_ws_head by reflexivity. reflexivity.
    + apply Hx; [ | lia ]. apply terminated_close; [ exact Hclose | reflexivity ].
  - change (map (iterencode indent level) (x :: y :: ys))
      with (iterencode indent level x
              :: iterencode indent level y
              :: map (iterencode indent level) ys) in *.
    rewrite concat_cons2 in *.
    change (iterencode indent level y :: map (iterencode indent level) ys)
      with (map (iterencode indent level) (y :: ys)) in *.
    set (C := String.concat sep (map (iterencode indent level) (y :: ys))) in *.
    destruct (item_separator_shape indent level) as (w & Esep & Hw).
    fold sep in Esep. rewrite Esep in *.
    rewrite !length_append in Hfuel. simpl String.length in Hfuel.
    pose proof (length_iterencode indent level x) as Hlx.
    rewrite !append_assoc.
    change (String "," w ++ C ++ close ++ String "]" rest)
      with (String "," (w ++ C ++ close ++ String "]" rest)).
    rewrite (JSONArray_step fuel _ x
               (String "," (w ++ C ++ close ++ String "]" rest))).
    + rewrite skip_ws_head by reflexivity.
      change (Ascii.eqb "," "]") with false.
      change (Ascii.eqb "," ",") with true. cbv iota.
      rewrite skip_ws_all_ws by exact Hw.
      destruct (iterencode_head indent level y) as (c & s & Ey & Hws & _).
      assert (C ++ close ++ String "]" rest
              = String c (match ys with
                          | [] => s
                          | _ => s ++ sep
                                   ++ String.concat sep
                                        (map (iterencode indent level) ys)
                          end ++ close ++ String "]" rest)) as EC.
      { unfold C. destruct ys as [ | y' ys' ].
        - simpl. rewrite Ey. reflexivity.
        - change (map (iterencode indent level) (y :: y' :: ys'))
            with (iterencode indent level y
                    :: map (iterencode indent level) (y' :: ys')).
          simpl map. rewrite concat_cons2, Ey. reflexivity. }
      rewrite EC, skip_ws_head by exact Hws. rewrite <- EC.
      rewrite IH; [ reflexivity | congruence | exact Hxs | lia ].
    + apply Hx; [ reflexivity | lia ].
Qed.

End Items.

(** ** Objects *)

Lemma member_shape (k E tail : string) :
  (encode_basestring_ascii k ++ key_separator ++ E) ++ tail
  = String quote
      (escape_chars k ++ String quote (String ":" (String " " (E ++ tail)))).
Proof.
  unfold encode_basestring_ascii, key_separator, str1. simpl.
  rewrite !append_assoc. reflexivity.
Qed.

Lemma length_member (k E : string) :
  (String.length E + 4
   <= String.length (encode_basestring_ascii k ++ key_separator ++ E))%nat.
Proof.
  unfold encode_basestring_ascii, key_separator, str1. simpl.
  rewrite !length_append. simpl. lia.
Qed.

Section Members.

Variable indent : option nat.
Variable level : nat.

Let scans (v : value) : Prop :=
  forall fuel rest,
    terminated rest = true ->
    (String.length (iterencode indent level v) <= fuel)%nat ->
    scan_once fuel (iterencode indent level v ++ rest) = Ok (v, rest).

Let sep : string := item_separator indent ++ newline_indent indent level.

Let member (kv : string * value) : string :=
  encode_basestring_ascii (fst kv) ++ key_separator
    ++ iterencode indent level (snd kv).

Lemma JSONObject_members (close rest : string) :
  all_ws close = true ->
  forall d,
    d <> [] ->
    Forall (fun kv => scans (snd kv)) d ->
    forall fuel X,
      (String.length (String.concat sep (map member d)) + 1 <= fuel)%nat ->
      String.concat sep (map member d) ++ close ++ String "}" rest
      = String quote X ->
      JSONObject fuel X = Ok (d, rest).
Proof.
  intros Hclose d.
  induction d as [ | [k v] d IH ]; [ congruence | ].
  intros _ HF fuel X Hfuel EX. inversion HF as [ | ? ? Hv Hd ]; subst.
  simpl in Hv.
  destruct fuel as [ | fuel ]; [ lia | ].
  destruct d as [ | kv' d' ].
  - simpl map in *. simpl String.concat in *. unfold member in EX, Hfuel.
    simpl fst in *. simpl snd in *.
    pose proof (length_member k (iterencode indent level v)) as Hlen.
    rewrite member_shape in EX. injection EX as EX. subst X.
    rewrite (JSONObject_step fuel _ k
               (String ":" (String " " (iterencode indent level v
                                          ++ close ++ String "}" rest)))
               (String " " (iterencode indent level v
                              ++ close ++ String "}" rest))
               v (close ++ String "}" rest)).
    + rewrite skip_ws_all_ws by exact Hclose.
      rewrite skip_ws_head by reflexivity. reflexivity.
    + apply scanstring_escape_chars.
    + apply skip_ws_head. reflexivity.
    + rewrite skip_ws_space, skip_ws_iterencode.
      apply Hv; [ | lia ].
      apply terminated_close; [ exact Hclose | reflexivity ].
  - change (map member ((k, v) :: kv' :: d'))
      with (member (k, v) :: member kv' :: map member d') in *.
    rewrite concat_cons2 in *.
    change (member kv' :: map member d') with (map member (kv' :: d')) in *.
    set (M := String.concat sep (map member (kv' :: d'))) in *.
    destruct (item_separator_shape indent level) as (w & Esep & Hw).
    fold sep in Esep. rewrite Esep in *.
    unfold member at 1 in EX. unfold member at 1 in Hfuel.
    simpl fst in *. simpl snd in *.
    pose proof (length_member k (iterencode indent level v)) as Hlen.
    rewrite !length_append in Hfuel, Hlen.
    simpl String.length in Hfuel, Hlen.
    rewrite ?length_append in Hfuel.
    rewrite append_assoc in EX.
    rewrite member_shape in EX. injection EX as EX. subst X.
    assert (exists X', M ++ close ++ String "}" rest = String quote X')
      as (X' & EM).
    { unfold M. destruct d' as [ | kv'' d'' ].
      - simpl. unfold member, encode_basestring_ascii. simpl. eauto.
      - change (map member (kv' :: kv'' :: d''))
          with (member kv' :: map member (kv'' :: d'')).
        simpl map. rewrite concat_cons2.
        unfold member at 1, encode_basestring_ascii. simpl. eauto. }
    rewrite (JSONObject_step fuel _ k
               (String ":" (String " " (iterencode indent level v
                  ++ (String "," w ++ M) ++ close ++ String "}" rest)))
               (String " " (iterencode indent level v
                  ++ (String "," w ++ M) ++ close ++ String "}" rest))
               v ((String "," w ++ M) ++ close ++ String "}" rest)).
    + rewrite !append_assoc.
      change (String "," w ++ M ++ close ++ String "}" rest)
        with (String "," (w ++ M ++ close ++ String "}" rest)).
      rewrite skip_ws_head by reflexivity.
      change (Ascii.eqb "," "}") with false.
      change (Ascii.eqb "," ",") with true. cbv iota.
      rewrite skip_ws_all_ws by exact Hw.
      rewrite EM. rewrite skip_ws_head by reflexivity.
      change (Ascii.eqb quote quote) with true. cbv iota.
      rewrite (IH ltac:(congruence) Hd fuel X'); [ reflexivity | lia | exact EM ].
    + apply scanstring_escape_chars.
    + apply skip_ws_head. reflexivity.
    + rewrite skip_ws_space, skip_ws_iterencode.
      apply Hv; [ reflexivity | lia ].
Qed.

End Members.

(** ** Every encoding scans back to its value *)

Lemma concat_items_head (indent : option nat) (level : nat) (sep : string)
  (x : value) (xs : list value) :
  exists c s,
    String.concat sep (map (iterencode indent level) (x :: xs)) = String c s
    /\ is_ws c = false /\ Ascii.eqb c "]" = false.
Proof.
  destruct (iterencode_head indent level x) as (c & s & E & Hws & Hc).
  destruct xs as [ | y ys ].
  - exists c, s. simpl. auto.
  - exists c, (s ++ sep
                 ++ String.concat sep (map (iterencode indent level) (y :: ys))).
    change (map (iterencode indent level) (x :: y :: ys))
      with (iterencode indent level x
              :: iterencode indent level y
              :: map (iterencode indent level) ys).
    rewrite concat_cons2, E. auto.
Qed.

Lemma concat_members_head (indent : option nat) (level : nat) (sep : string)
  (kv : string * value) (d : list (string * value)) :
  exists s,
    String.concat sep
      (map (fun kv => encode_basestring_ascii (fst kv) ++ key_separator
                        ++ iterencode indent level (snd kv)) (kv :: d))
    = String quote s.
Proof.
  destruct d as [ | kv' d' ].
  - simpl. unfold encode_basestring_ascii. simpl. eauto.
  - simpl map. rewrite concat_cons2.
    unfold encode_basestring_ascii. simpl. eauto.
Qed.

Lemma scan_once_iterencode (indent : option nat) (v : value) :
  well_formed v = true ->
  forall level fuel rest,
    terminated rest = true ->
    (String.length (iterencode indent level v) <= fuel)%nat ->
    scan_once fuel (iterencode indent level v ++ rest) = Ok (v, rest).
Proof.
  induction v as [ | b | z | s | l IHl | d IHd ] using value_ind';
    intros Hwf level fuel rest Hrest Hfuel;
    pose proof (length_iterencode indent level) as Hpos;
    (destruct fuel as [ | fuel ];
     [ match goal with
       | H : (String.length (iterencode _ _ ?x) <= 0)%nat |- _ =>
           specialize (Hpos x); lia
       end | ]);
    clear Hpos.
  - reflexivity.
  - destruct b; reflexivity.
  - destruct (int_repr_head z) as (c & s & E & Hc).
    simpl iterencode. rewrite E. simpl append.
    rewrite scan_once_atom.
    + change (String c (s ++ rest)) with (String c s ++ rest).
      rewrite <- E. now apply scan_atom_int.
    + clear E. unfold is_digit in Hc.
      destruct c as [[] [] [] [] [] [] [] []]; try discriminate Hc; reflexivity.
    + clear E. unfold is_digit in Hc.
      destruct c as [[] [] [] [] [] [] [] []]; try discriminate Hc; reflexivity.
    + clear E. unfold is_digit in Hc.
      destruct c as [[] [] [] [] [] [] [] []]; try discriminate Hc; reflexivity.
  - simpl iterencode. unfold encode_basestring_ascii, str1. simpl append.
    rewrite append_assoc. simpl append.
    rewrite scan_once_string, scanstring_escape_chars. reflexivity.
  - destruct l as [ | x xs ]; [ reflexivity | ].
    change (forallb well_formed (x :: xs) = true) in Hwf.
    destruct (concat_items_head indent (S level)
                (item_separator indent ++ newline_indent indent (S level))
                x xs) as (c & s & EC & Hws & Hc).
    change (iterencode indent level (VList (x :: xs)))
      with (String "["
              (newline_indent indent (S level)
                 ++ String.concat
                      (item_separator indent ++ newline_indent indent (S level))
                      (map (iterencode indent (S level)) (x :: xs))
                 ++ newline_indent indent level ++ "]")) in *.
    remember (String.concat
                (item_separator indent ++ newline_indent indent (S level))
                (map (iterencode indent (S level)) (x :: xs))) as C eqn:EqC.
    simpl String.length in Hfuel. rewrite !length_append in Hfuel.
    simpl String.length in Hfuel.
    simpl append at 1. rewrite !append_assoc.
    rewrite (scan_once_array fuel _ c
               (s ++ newline_indent indent level ++ "]" ++ rest)).
    + change (String c (s ++ newline_indent indent level ++ "]" ++ rest))
        with (String c s ++ newline_indent indent level ++ String "]" rest).
      rewrite <- EC, EqC.
      rewrite (JSONArray_items indent (S level)
                 (newline_indent indent level) rest).
      * reflexivity.
      * apply all_ws_newline_indent.
      * discriminate.
      * apply Forall_forall. intros y Hy fuel' rest' Hr Hf.
        rewrite Forall_forall in IHl. apply IHl; auto.
        apply (proj1 (forallb_forall _ _) Hwf y Hy).
      * rewrite <- EqC. lia.
    + rewrite skip_ws_all_ws by apply all_ws_newline_indent.
      rewrite EC. simpl append. now apply skip_ws_head.
    + exact Hc.
  - destruct d as [ | kv d' ]; [ reflexivity | ].
    change (distinct (map fst (kv :: d'))
            && forallb (fun kv => well_formed (snd kv)) (kv :: d') = true)
      in Hwf.
    apply andb_true_iff in Hwf as [Hkeys Hwf].
    set (member := fun kv : string * value =>
                     encode_basestring_ascii (fst kv) ++ key_separator
                       ++ iterencode indent (S level) (snd kv)).
    destruct (concat_members_head indent (S level)
                (item_separator indent ++ newline_indent indent (S level))
                kv d') as (s & EC).
    fold member in EC.
    change (iterencode indent level (VDict (kv :: d')))
      with (String "{"
              (newline_indent indent (S level)
                 ++ String.concat
                      (item_separator indent ++ newline_indent indent (S level))
                      (map member (kv :: d'))
                 ++ newline_indent indent level ++ "}")) in *.
    remember (String.concat
                (item_separator indent ++ newline_indent indent (S level))
                (map member (kv :: d'))) as M eqn:EqM.
    simpl String.length in Hfuel. rewrite !length_append in Hfuel.
    simpl String.length in Hfuel.
    simpl append at 1. rewrite !append_assoc.
    rewrite (scan_once_object fuel _
               (s ++ newline_indent indent level ++ "}" ++ rest)).
    + rewrite (JSONObject_members indent (S level)
                 (newline_indent indent level) rest
                 (all_ws_newline_indent indent level) (kv :: d')).
      * simpl scan_bind. simpl fst. simpl snd.
        now rewrite dict_of_pairs_distinct.
      * discriminate.
      * apply Forall_forall. intros y Hy fuel' rest' Hr Hf.
        rewrite Forall_forall in IHd. apply IHd; auto.
        apply (proj1 (forallb_forall _ _) Hwf y Hy).
      * fold member. rewrite <- EqM. lia.
      * fold member. rewrite <- EqM, EC. reflexivity.
    + rewrite skip_ws_all_ws by apply all_ws_newline_indent.
      rewrite EC. simpl append. now apply skip_ws_head.
Qed.

Lemma append_nil_r (s : string) : s ++ EmptyString = s.
Proof.
  induction s as [ | c s IHs ]; simpl; [ reflexivity | now rewrite IHs ].
Qed.

(** [json.loads(json.dumps(v, indent=...))] gives [v] back, for every
    indentation; the fuel [loads] provides is enough. *)
Lemma loads_dumps (indent : option nat) (v : value) :
  well_formed v = true -> loads (dumps indent v) = Ok v.
Proof.
  intros Hwf. unfold loads, dumps.
  rewrite <- (append_nil_r (iterencode indent 0 v)) at 2.
  rewrite skip_ws_iterencode.
  rewrite (scan_once_iterencode indent v Hwf 0 _ EmptyString);
    [ reflexivity | reflexivity | lia ].
Qed.

End JsonFacts.

(* ================================================================== *)
(** * The round trip of a targeting specification *)
(* ================================================================== *)

Module RoundTrip.
Import Py Json Tool Adsets Objects.







End RoundTrip.

(* ================================================================== *)
(** * The ad-set tools against any remote world *)
(* ================================================================== *)

Module AdsetsSpec.
Import Py Json Tool Adsets.

#[local] Arguments loads : simpl never.
#[local] Arguments dumps : simpl never.
#[local] Arguments error_envelope : simpl never.
#[local] Arguments String.append : simpl never.
#[local] Arguments is_substring : simpl never.

Section AnyWorld.

Variable World : Type.
Variable accounts_service :
  string -> string -> option string -> World -> reply string * World.
Variable dispatcher :
  string -> option string -> dict -> option string -> World ->
  reply value * World.

Notation "'exec' t w" := (run accounts_service dispatcher t w)
  (at level 10, t at level 9, w at level 9, only parsing).

Lemma run_get_adsets_request (access_token : option string) (id : value)
  (limit : Z) (campaign_id : string) (w : World) :
  exists endpoint params r w',
    dispatcher endpoint access_token params None w = (r, w')
    /\ endpoint = (if truthy (VStr campaign_id) then campaign_id ++ "/adsets"
                   else str id ++ "/adsets")
    /\ params = [("fields", VStr adsets_fields); ("limit", VInt limit)]
    /\ trace_of (exec (get_adsets_request access_token id limit campaign_id) w)
       = [Called_make_api_request endpoint access_token params None r]
    /\ world_of (exec (get_adsets_request access_token id limit campaign_id) w)
       = w'
    /\ result_of (exec (get_adsets_request access_token id limit campaign_id) w)
       = match r with
         | Returned data => Returns (dumps (Some 2%nat) data)
         | Raised str_e => Raises (Fault str_e)
         | RaisedBase class => Raises (BaseFault class)
         end.
Proof.
  unfold get_adsets_request.
  destruct (truthy (VStr campaign_id)); simpl;
    match goal with
    | |- context [dispatcher ?e ?t ?p ?m ?w] =>
        destruct (dispatcher e t p m w) as [[data | str_e | class] w'] eqn:E;
        exists e, p; eexists; exists w'
    end; simpl; repeat split; try reflexivity; exact E.
Qed.

(** With no account given, [get_adsets] starts with the accounts query and
    then either goes on to its request with some resolved account, or
    stops there. *)
Lemma get_adsets_lookup (access_token account_id : option string) (limit : Z)
  (campaign_id : string) (w : World) :
  truthy (opt_str account_id) = false ->
  (exists id,
      exec (get_adsets access_token account_id limit campaign_id) w
      = logged World (accounts_event accounts_service access_token w)
          (exec (get_adsets_request access_token id limit campaign_id)
                (snd (accounts_query accounts_service access_token w))))
  \/ (trace_of (exec (get_adsets access_token account_id limit campaign_id) w)
      = [accounts_event accounts_service access_token w]
      /\ world_of (exec (get_adsets access_token account_id limit campaign_id) w)
         = snd (accounts_query accounts_service access_token w)).
Proof.
  intros Hacc. unfold get_adsets, accounts_event, accounts_query.
  rewrite Hacc. simpl.
  destruct (accounts_service _ _ _ w) as [[s | str_e | class] w']; simpl;
    [ | right; split; reflexivity .. ].
  unfold json_loads.
  destruct (loads s) as [ v | | ]; simpl; try (right; split; reflexivity).
  destruct v as [ | b | z | t | l | d ]; simpl;
    try (right; split; reflexivity).
  - destruct (is_substring "data" t); simpl; right; split; reflexivity.
  - destruct (existsb (is_str "data") l); simpl; right; split; reflexivity.
  - unfold dict_has.
    destruct (dict_get d "data") as [ x | ] eqn:Ed; simpl;
      [ | right; split; reflexivity ].
    destruct (truthy x) eqn:Et; simpl; [ | right; split; reflexivity ].
    destruct x as [ | b | z | t | l | a ]; simpl;
      try (right; split; reflexivity).
    + destruct t as [ | c t ]; simpl; right; split; reflexivity.
    + destruct l as [ | first l ]; simpl; [ right; split; reflexivity | ].
      destruct first as [ | b | z | t | l' | a ]; simpl;
        try (right; split; reflexivity).
      destruct (dict_get a "id") as [ id | ]; simpl;
        [ left; exists id; reflexivity | right; split; reflexivity ].
Qed.

Lemma get_adsets_starts_with_lookup (access_token account_id : option string)
  (limit : Z) (campaign_id : string) (w : World) :
  truthy (opt_str account_id) = false ->
  exists rest,
    trace_of (exec (get_adsets access_token account_id limit campaign_id) w)
    = accounts_event accounts_service access_token w :: rest.
Proof.
  intros Hacc.
  destruct (get_adsets_lookup access_token account_id limit campaign_id w Hacc)
    as [ [id E] | [E _] ]; rewrite E; simpl; eauto.
Qed.

Lemma get_adsets_resolved (access_token account_id : option string)
  (limit : Z) (campaign_id : string) (w : World) (s : string) (id : value) :
  truthy (opt_str account_id) = false ->
  fst (accounts_query accounts_service access_token w) = Returned s ->
  first_account s id ->
  exec (get_adsets access_token account_id limit campaign_id) w
  = logged World (accounts_event accounts_service access_token w)
      (exec (get_adsets_request access_token id limit campaign_id)
            (snd (accounts_query accounts_service access_token w))).
Proof.
  intros Hacc Hq (d & first & others & Hl & Hd & Hid).
  unfold get_adsets, accounts_event, accounts_query in *.
  rewrite Hacc. simpl.
  destruct (accounts_service _ _ _ w) as [r w']. simpl in Hq. subst r. simpl.
  unfold json_loads. rewrite Hl. simpl.
  unfold dict_has. rewrite Hd. simpl. rewrite ?Hd. simpl.
  rewrite Hid. simpl. reflexivity.
Qed.

Lemma get_adsets_no_account (access_token account_id : option string)
  (limit : Z) (campaign_id : string) (w : World) (s : string) :
  truthy (opt_str account_id) = false ->
  fst (accounts_query accounts_service access_token w) = Returned s ->
  zero_accounts s ->
  result_of (exec (get_adsets access_token account_id limit campaign_id) w)
  = Returns (error_envelope
               "No account ID specified and no accounts found for user")
  /\ trace_of (exec (get_adsets access_token account_id limit campaign_id) w)
     = [accounts_event accounts_service access_token w].
Proof.
  intros Hacc Hq (d & Hl & Hd).
  unfold get_adsets, accounts_event, accounts_query in *.
  rewrite Hacc. simpl.
  destruct (accounts_service _ _ _ w) as [r w']. simpl in Hq. subst r. simpl.
  unfold json_loads. rewrite Hl. simpl.
  unfold dict_has.
  destruct Hd as [Hd | Hd]; rewrite Hd; simpl; rewrite ?Hd; simpl;
    split; reflexivity.
Qed.

(** C3.  With a campaign given, every request [get_adsets] hands to the
    dispatcher is on the path [campaign_id/adsets] and carries the
    parameters [fields] and [limit] and no other; the campaign is not
    among the parameters.  With an account given the request is the one
    interaction of the call; with none, it follows the accounts query when
    that query names an account. *)
Theorem get_adsets_campaign_scoped (access_token account_id : option string)
  (limit : Z) (campaign_id : string) (w : World) :
  truthy (VStr campaign_id) = true ->
  Forall (campaign_scoped campaign_id)
    (trace_of (exec (get_adsets access_token account_id limit campaign_id) w))
  /\ (truthy (opt_str account_id) = true ->
      exists r,
        trace_of (exec (get_adsets access_token account_id limit campaign_id) w)
        = [Called_make_api_request (campaign_id ++ "/adsets") access_token
             [("fields", VStr adsets_fields); ("limit", VInt limit)] None r])
  /\ (forall s id,
        truthy (opt_str account_id) = false ->
        fst (accounts_query accounts_service access_token w) = Returned s ->
        first_account s id ->
        exists r,
          trace_of
            (exec (get_adsets access_token account_id limit campaign_id) w)
          = [accounts_event accounts_service access_token w;
             Called_make_api_request (campaign_id ++ "/adsets") access_token
               [("fields", VStr adsets_fields); ("limit", VInt limit)] None r]).
Proof.
  intros Hc.
  assert (forall id w0,
             exists r,
               trace_of
                 (exec (get_adsets_request access_token id limit campaign_id) w0)
               = [Called_make_api_request (campaign_id ++ "/adsets")
                    access_token
                    [("fields", VStr adsets_fields); ("limit", VInt limit)]
                    None r]) as Hreq.
  { intros id w0.
    destruct (run_get_adsets_request access_token id limit campaign_id w0)
      as (ep & ps & r & w' & _ & Eep & Eps & Etr & _).
    rewrite Hc in Eep. subst ep ps. eauto. }
  split; [ | split ].
  - destruct (truthy (opt_str account_id)) eqn:Hacc.
    + unfold get_adsets. rewrite Hacc. simpl negb. cbv iota.
      destruct (Hreq (opt_str account_id) w) as [r E]. rewrite E.
      constructor; [ | constructor ]. simpl. split; reflexivity.
    + destruct (get_adsets_lookup access_token account_id limit campaign_id
                  w Hacc) as [ [id E] | [E _] ]; rewrite E.
      * simpl. constructor; [ exact I | ].
        destruct (Hreq id (snd (accounts_query accounts_service access_token w)))
          as [r E']. rewrite E'.
        constructor; [ | constructor ]. simpl. split; reflexivity.
      * constructor; [ exact I | constructor ].
  - intros Hacc. unfold get_adsets. rewrite Hacc. simpl negb. cbv iota.
    apply Hreq.
  - intros s id Hacc Hq Hfirst.
    rewrite (get_adsets_resolved access_token account_id limit campaign_id w
               s id Hacc Hq Hfirst).
    destruct (Hreq id (snd (accounts_query accounts_service access_token w)))
      as [r E'].
    exists r. simpl. rewrite E'. reflexivity.
Qed.

(** C5.  With no account given, [get_adsets] first asks [get_ad_accounts]
    for the accounts of [me] with the text of [{"limit": 1}], and goes on
    with the [id] of the first account of the answer: without a campaign
    the request is on the path [id/adsets].  When the answer lists no
    account the call returns the error envelope and the dispatcher is
    never called. *)
Theorem get_adsets_default_account (access_token account_id : option string)
  (limit : Z) (campaign_id : string) (w : World) :
  truthy (opt_str account_id) = false ->
  (exists rest,
      trace_of (exec (get_adsets access_token account_id limit campaign_id) w)
      = Called_get_ad_accounts "me" (dumps None (VDict [("limit", VInt 1)]))
          access_token (fst (accounts_query accounts_service access_token w))
        :: rest)
  /\ (forall s id,
        fst (accounts_query accounts_service access_token w) = Returned s ->
        first_account s id ->
        exec (get_adsets access_token account_id limit campaign_id) w
        = logged World (accounts_event accounts_service access_token w)
            (exec (get_adsets_request access_token id limit campaign_id)
                  (snd (accounts_query accounts_service access_token w)))
        /\ (truthy (VStr campaign_id) = false ->
            exists r,
              trace_of
                (exec (get_adsets access_token account_id limit campaign_id) w)
              = [accounts_event accounts_service access_token w;
                 Called_make_api_request (str id ++ "/adsets") access_token
                   [("fields", VStr adsets_fields); ("limit", VInt limit)]
                   None r]))
  /\ (forall s,
        fst (accounts_query accounts_service access_token w) = Returned s ->
        zero_accounts s ->
        result_of (exec (get_adsets access_token account_id limit campaign_id) w)
        = Returns (error_envelope
                     "No account ID specified and no accounts found for user")
        /\ trace_of
             (exec (get_adsets access_token account_id limit campaign_id) w)
           = [accounts_event accounts_service access_token w]).
Proof.
  intros Hacc. split; [ | split ].
  - apply (get_adsets_starts_with_lookup access_token account_id limit
             campaign_id w Hacc).
  - intros s id Hq Hfirst.
    pose proof (get_adsets_resolved access_token account_id limit campaign_id
                  w s id Hacc Hq Hfirst) as E.
    split; [ exact E | ].
    intros Hc. rewrite E.
    destruct (run_get_adsets_request access_token id limit campaign_id
                (snd (accounts_query accounts_service access_token w)))
      as (ep & ps & r & w' & _ & Eep & Eps & Etr & _).
    rewrite Hc in Eep. subst ep ps. exists r. simpl. rewrite Etr. reflexivity.
  - intros s Hq Hzero.
    apply (get_adsets_no_account access_token account_id limit campaign_id
             w s Hacc Hq Hzero).
Qed.

(** C10.  With a campaign given but no account, [get_adsets] still makes
    the accounts query first, and returns the error envelope, with no
    request to the dispatcher, when the answer lists no account; yet the
    account it resolves plays no part in the campaign-scoped request. *)
Theorem get_adsets_campaign_needs_account
  (access_token account_id : option string) (limit : Z) (campaign_id : string)
  (w : World) :
  truthy (VStr campaign_id) = true ->
  truthy (opt_str account_id) = false ->
  (exists rest,
      trace_of (exec (get_adsets access_token account_id limit campaign_id) w)
      = accounts_event accounts_service access_token w :: rest)
  /\ (forall s,
        fst (accounts_query accounts_service access_token w) = Returned s ->
        zero_accounts s ->
        result_of (exec (get_adsets access_token account_id limit campaign_id) w)
        = Returns (error_envelope
                     "No account ID specified and no accounts found for user")
        /\ trace_of
             (exec (get_adsets access_token account_id limit campaign_id) w)
           = [accounts_event accounts_service access_token w])
  /\ (forall id id',
        get_adsets_request access_token id limit campaign_id
        = get_adsets_request access_token id' limit campaign_id).
Proof.
  intros Hc Hacc. split; [ | split ].
  - apply (get_adsets_starts_with_lookup access_token account_id limit
             campaign_id w Hacc).
  - intros s Hq Hzero.
    apply (get_adsets_no_account access_token account_id limit campaign_id
             w s Hacc Hq Hzero).
  - intros id id'. unfold get_adsets_request. rewrite Hc. reflexivity.
Qed.

(** C1.  When [optimization_goal] is [None] or empty, [create_adset]
    returns an error envelope at once: the script has no await, so no run
    of it calls the dispatcher or changes the remote world, and the
    envelope decodes to a mapping with the single key [error], hence
    without [params_sent].  With [account_id], [campaign_id] and [name]
    supplied the message is the one about the optimization goal. *)
Theorem create_adset_requires_optimization_goal
  (account_id campaign_id name : option string) (status : string)
  (daily_budget lifetime_budget targeting : value)
  (optimization_goal billing_event : option string) (bid_amount : value)
  (bid_strategy start_time end_time access_token : option string) (w : World) :
  truthy (opt_str optimization_goal) = false ->
  (exists msg,
      create_adset account_id campaign_id name status daily_budget
        lifetime_budget targeting optimization_goal billing_event bid_amount
        bid_strategy start_time end_time access_token
      = Return (error_envelope msg)
      /\ loads (error_envelope msg) = Ok (VDict [("error", VStr msg)])
      /\ dict_has [("error", VStr msg)] "params_sent" = false)
  /\ trace_of
       (exec (create_adset account_id campaign_id name status daily_budget
                lifetime_budget targeting optimization_goal billing_event
                bid_amount bid_strategy start_time end_time access_token) w)
     = []
  /\ world_of
       (exec (create_adset account_id campaign_id name status daily_budget
                lifetime_budget targeting optimization_goal billing_event
                bid_amount bid_strategy start_time end_time access_token) w)
     = w
  /\ (truthy (opt_str account_id) = true ->
      truthy (opt_str campaign_id) = true ->
      truthy (opt_str name) = true ->
      create_adset account_id campaign_id name status daily_budget
        lifetime_budget targeting optimization_goal billing_event bid_amount
        bid_strategy start_time end_time access_token
      = Return (error_envelope "No optimization goal provided")).
Proof.
  intros Hgoal. unfold create_adset. rewrite Hgoal.
  destruct (truthy (opt_str account_id));
    destruct (truthy (opt_str campaign_id));
    destruct (truthy (opt_str name)); simpl negb; cbv iota;
    (split; [ eexists; split; [ reflexivity | split; reflexivity ] | ]);
    (split; [ reflexivity | ]); (split; [ reflexivity | ]);
    intros H1 H2 H3; try discriminate; reflexivity.
Qed.

(** C9.  [update_adset] on an ad set, with every optional update argument
    left at [None], builds no parameter and returns the envelope
    [{"error": "No update parameters provided"}]; the script has no await,
    so no run of it calls the dispatcher or changes the remote world. *)
Theorem update_adset_without_updates (adset_id : string)
  (access_token : option string) (w : World) :
  truthy (VStr adset_id) = true ->
  update_adset adset_id VNone None None None VNone None access_token
  = Return (error_envelope "No update parameters provided")
  /\ loads (error_envelope "No update parameters provided")
     = Ok (VDict [("error", VStr "No update parameters provided")])
  /\ trace_of
       (exec (update_adset adset_id VNone None None None VNone None
                access_token) w)
     = []
  /\ world_of
       (exec (update_adset adset_id VNone None None None VNone None
                access_token) w)
     = w.
Proof.
  intros Hid. unfold update_adset. rewrite Hid. simpl negb. cbv iota.
  repeat split; reflexivity.
Qed.

(** The runs of the two write tools: nothing, or one request. *)
Lemma run_create_adset
  (account_id campaign_id name : option string) (status : string)
  (daily_budget lifetime_budget targeting : value)
  (optimization_goal billing_event : option string) (bid_amount : value)
  (bid_strategy start_time end_time access_token : option string) (w : World) :
  let t := create_adset account_id campaign_id name status daily_budget
             lifetime_budget targeting optimization_goal billing_event
             bid_amount bid_strategy start_time end_time access_token in
  let params := create_adset_params campaign_id name status daily_budget
                  lifetime_budget targeting optimization_goal billing_event
                  bid_amount bid_strategy start_time end_time in
  trace_of (exec t w) = []
  \/ exists endpoint r,
       trace_of (exec t w)
       = [Called_make_api_request endpoint access_token params (Some "POST") r]
       /\ result_of (exec t w)
          = match r with
            | Returned data => Returns (dumps (Some 2%nat) data)
            | Raised str_e =>
                Returns
                  (dumps (Some 2%nat)
                     (VDict [("error", VStr "Failed to create ad set");
                             ("details", VStr str_e);
                             ("params_sent", VDict params)]))
            | RaisedBase class => Raises (BaseFault class)
            end.
Proof.
  unfold create_adset.
  destruct (truthy (opt_str account_id)); [ | left; reflexivity ].
  destruct (truthy (opt_str campaign_id)); [ | left; reflexivity ].
  destruct (truthy (opt_str name)); [ | left; reflexivity ].
  destruct (truthy (opt_str optimization_goal)); [ | left; reflexivity ].
  destruct (truthy (opt_str billing_event)); [ | left; reflexivity ].
  right. simpl negb. cbv iota. cbv zeta.
  match goal with
  | |- context [Await_make_api_request ?e ?t ?p ?m _] =>
      exists e; simpl; destruct (dispatcher e t p m w) as [[data | str_e | class] w']
  end; eexists; split; reflexivity.
Qed.

Lemma run_update_adset (adset_id : string) (frequency_control_specs : value)
  (bid_strategy : option string) (bid_amount : option Z)
  (status : option string) (targeting : value)
  (optimization_goal access_token : option string) (w : World) :
  let t := update_adset adset_id frequency_control_specs bid_strategy
             bid_amount status targeting optimization_goal access_token in
  let params := update_adset_params frequency_control_specs bid_strategy
                  bid_amount status targeting optimization_goal in
  trace_of (exec t w) = []
  \/ exists r,
       trace_of (exec t w)
       = [Called_make_api_request adset_id access_token params (Some "POST") r]
       /\ result_of (exec t w)
          = match r with
            | Returned data => Returns (dumps (Some 2%nat) data)
            | Raised str_e =>
                Returns
                  (dumps (Some 2%nat)
                     (VDict [("error",
                              VStr ("Failed to update ad set " ++ adset_id));
                             ("details", VStr str_e);
                             ("params_sent", VDict params)]))
            | RaisedBase class => Raises (BaseFault class)
            end.
Proof.
  unfold update_adset.
  destruct (truthy (VStr adset_id)); [ | left; reflexivity ].
  simpl negb. cbv iota. cbv zeta.
  destruct (update_adset_params frequency_control_specs bid_strategy
              bid_amount status targeting optimization_goal)
    as [ | kv ps ]; [ left; reflexivity | ].
  right. simpl negb. cbv iota.
  match goal with
  | |- context [Await_make_api_request ?e ?t ?p ?m _] =>
      simpl; destruct (dispatcher e t p m w) as [[data | str_e | class] w']
  end; eexists; split; reflexivity.
Qed.

(** What the write tools do once their arguments pass the tests: one
    [POST] request, whose reply decides the result. *)
Lemma run_create_adset_request
  (account_id campaign_id name : option string) (status : string)
  (daily_budget lifetime_budget targeting : value)
  (optimization_goal billing_event : option string) (bid_amount : value)
  (bid_strategy start_time end_time access_token : option string) (w : World) :
  let t := create_adset account_id campaign_id name status daily_budget
             lifetime_budget targeting optimization_goal billing_event
             bid_amount bid_strategy start_time end_time access_token in
  let params := create_adset_params campaign_id name status daily_budget
                  lifetime_budget targeting optimization_goal billing_event
                  bid_amount bid_strategy start_time end_time in
  let endpoint := str (opt_str account_id) ++ "/adsets" in
  Shape.first_missing account_id campaign_id name optimization_goal
    billing_event = None ->
  forall r,
    fst (dispatcher endpoint access_token params (Some "POST") w) = r ->
    trace_of (exec t w)
    = [Called_make_api_request endpoint access_token params (Some "POST") r]
    /\ result_of (exec t w)
       = match r with
         | Returned data => Returns (dumps (Some 2%nat) data)
         | Raised str_e =>
             Returns
               (dumps (Some 2%nat)
                  (VDict [("error", VStr "Failed to create ad set");
                          ("details", VStr str_e);
                          ("params_sent", VDict params)]))
         | RaisedBase class => Raises (BaseFault class)
         end.
Proof.
  unfold Shape.first_missing, create_adset.
  destruct (truthy (opt_str account_id)); simpl negb; cbv iota;
    [ | discriminate ].
  destruct (truthy (opt_str campaign_id)); simpl negb; cbv iota;
    [ | discriminate ].
  destruct (truthy (opt_str name)); simpl negb; cbv iota; [ | discriminate ].
  destruct (truthy (opt_str optimization_goal)); simpl negb; cbv iota;
    [ | discriminate ].
  destruct (truthy (opt_str billing_event)); simpl negb; cbv iota;
    [ | discriminate ].
  cbv zeta. intros _ r Hr. simpl.
  destruct (dispatcher _ _ _ _ w) as [r' w']. simpl in Hr. subst r'.
  destruct r; split; reflexivity.
Qed.

Lemma run_update_adset_request (adset_id : string)
  (frequency_control_specs : value) (bid_strategy : option string)
  (bid_amount : option Z) (status : option string) (targeting : value)
  (optimization_goal access_token : option string) (w : World) :
  let t := update_adset adset_id frequency_control_specs bid_strategy
             bid_amount status targeting optimization_goal access_token in
  let params := update_adset_params frequency_control_specs bid_strategy
                  bid_amount status targeting optimization_goal in
  truthy (VStr adset_id) = true ->
  truthy (VDict params) = true ->
  forall r,
    fst (dispatcher adset_id access_token params (Some "POST") w) = r ->
    trace_of (exec t w)
    = [Called_make_api_request adset_id access_token params (Some "POST") r]
    /\ result_of (exec t w)
       = match r with
         | Returned data => Returns (dumps (Some 2%nat) data)
         | Raised str_e =>
             Returns
               (dumps (Some 2%nat)
                  (VDict [("error",
                           VStr ("Failed to update ad set " ++ adset_id));
                          ("details", VStr str_e);
                          ("params_sent", VDict params)]))
         | RaisedBase class => Raises (BaseFault class)
         end.
Proof.
  cbv zeta. intros Hid Hparams r Hr. unfold update_adset.
  rewrite Hid, Hparams. simpl.
  destruct (dispatcher _ _ _ _ w) as [r' w']. simpl in Hr. subst r'.
  destruct r; split; reflexivity.
Qed.

(** C4, as the code has it.  The handler of the write tools is
    [except Exception].  When the arguments of [create_adset] or
    [update_adset] pass the tests, the tool makes its one request; if the
    dispatcher raises an instance of [Exception] there, the tool returns
    the pretty-printed envelope whose keys are [error], [details] and
    [params_sent], in that order and no other, [details] being the text
    of the exception and [params_sent] the parameters of the request.
    What the dispatcher raises outside [Exception], such as
    [asyncio.CancelledError], is not caught: the call raises it. *)
Theorem write_tools_envelope_dispatcher_faults
  (account_id campaign_id name : option string) (status : string)
  (daily_budget lifetime_budget targeting : value)
  (optimization_goal billing_event : option string) (bid_amount : value)
  (bid_strategy start_time end_time access_token : option string)
  (adset_id : string) (frequency_control_specs : value)
  (update_bid_amount : option Z) (update_status : option string)
  (w : World) :
  let create := create_adset account_id campaign_id name status daily_budget
                  lifetime_budget targeting optimization_goal billing_event
                  bid_amount bid_strategy start_time end_time access_token in
  let created := create_adset_params campaign_id name status daily_budget
                   lifetime_budget targeting optimization_goal billing_event
                   bid_amount bid_strategy start_time end_time in
  let update := update_adset adset_id frequency_control_specs bid_strategy
                  update_bid_amount update_status targeting optimization_goal
                  access_token in
  let updated := update_adset_params frequency_control_specs bid_strategy
                   update_bid_amount update_status targeting
                   optimization_goal in
  (Shape.first_missing account_id campaign_id name optimization_goal
     billing_event = None ->
   forall str_e,
     fst (dispatcher (str (opt_str account_id) ++ "/adsets") access_token
            created (Some "POST") w) = Raised str_e ->
     trace_of (exec create w)
     = [Called_make_api_request (str (opt_str account_id) ++ "/adsets")
          access_token created (Some "POST") (Raised str_e)]
     /\ result_of (exec create w)
        = Returns
            (dumps (Some 2%nat)
               (VDict [("error", VStr "Failed to create ad set");
                       ("details", VStr str_e);
                       ("params_sent", VDict created)])))
  /\ (truthy (VStr adset_id) = true ->
      truthy (VDict updated) = true ->
      forall str_e,
        fst (dispatcher adset_id access_token updated (Some "POST") w)
        = Raised str_e ->
        trace_of (exec update w)
        = [Called_make_api_request adset_id access_token updated
             (Some "POST") (Raised str_e)]
        /\ result_of (exec update w)
           = Returns
               (dumps (Some 2%nat)
                  (VDict [("error",
                           VStr ("Failed to update ad set " ++ adset_id));
                          ("details", VStr str_e);
                          ("params_sent", VDict updated)])))
  /\ (forall endpoint token params method str_e,
        In (Called_make_api_request endpoint token params method (Raised str_e))
           (trace_of (exec create w)) ->
        exists envelope,
          result_of (exec create w)
          = Returns (dumps (Some 2%nat) (VDict envelope))
          /\ keys envelope = ["error"; "details"; "params_sent"]
          /\ dict_get envelope "error" = Some (VStr "Failed to create ad set")
          /\ dict_get envelope "details" = Some (VStr str_e)
          /\ dict_get envelope "params_sent" = Some (VDict params))
  /\ (forall endpoint token params method str_e,
        In (Called_make_api_request endpoint token params method (Raised str_e))
           (trace_of (exec update w)) ->
        exists envelope,
          result_of (exec update w)
          = Returns (dumps (Some 2%nat) (VDict envelope))
          /\ keys envelope = ["error"; "details"; "params_sent"]
          /\ dict_get envelope "error"
             = Some (VStr ("Failed to update ad set " ++ adset_id))
          /\ dict_get envelope "details" = Some (VStr str_e)
          /\ dict_get envelope "params_sent" = Some (VDict params))
  /\ (forall endpoint token params method class,
        In (Called_make_api_request endpoint token params method
              (RaisedBase class))
           (trace_of (exec create w)) ->
        result_of (exec create w) = Raises (BaseFault class))
  /\ (forall endpoint token params method class,
        In (Called_make_api_request endpoint token params method
              (RaisedBase class))
           (trace_of (exec update w)) ->
        result_of (exec update w) = Raises (BaseFault class)).
Proof.
  intros create created update updated.
  split; [ | split; [ | split; [ | split; [ | split ] ] ] ].
  - intros Hargs str_e Hr.
    apply (run_create_adset_request account_id campaign_id name status
             daily_budget lifetime_budget targeting optimization_goal
             billing_event bid_amount bid_strategy start_time end_time
             access_token w Hargs (Raised str_e) Hr).
  - intros Hid Hparams str_e Hr.
    apply (run_update_adset_request adset_id frequency_control_specs
             bid_strategy update_bid_amount update_status targeting
             optimization_goal access_token w Hid Hparams (Raised str_e) Hr).
  - intros endpoint token params method str_e Hin.
    destruct (run_create_adset account_id campaign_id name status daily_budget
                lifetime_budget targeting optimization_goal billing_event
                bid_amount bid_strategy start_time end_time access_token w)
      as [ E | (ep & r & Etr & Eres) ]; unfold create in *;
      rewrite ?E, ?Etr in Hin.
    + contradiction.
    + destruct Hin as [Hev | []]. injection Hev as E1 E2 E3 E4 E5. subst.
      rewrite Eres. eexists. split; [ reflexivity | ].
      repeat split; reflexivity.
  - intros endpoint token params method str_e Hin.
    destruct (run_update_adset adset_id frequency_control_specs bid_strategy
                update_bid_amount update_status targeting optimization_goal
                access_token w)
      as [ E | (r & Etr & Eres) ]; unfold update in *;
      rewrite ?E, ?Etr in Hin.
    + contradiction.
    + destruct Hin as [Hev | []]. injection Hev as E1 E2 E3 E4 E5. subst.
      rewrite Eres. eexists. split; [ reflexivity | ].
      repeat split; reflexivity.
  - intros endpoint token params method class Hin.
    destruct (run_create_adset account_id campaign_id name status daily_budget
                lifetime_budget targeting optimization_goal billing_event
                bid_amount bid_strategy start_time end_time access_token w)
      as [ E | (ep & r & Etr & Eres) ]; unfold create in *;
      rewrite ?E, ?Etr in Hin.
    + contradiction.
    + destruct Hin as [Hev | []]. injection Hev as E1 E2 E3 E4 E5. subst.
      exact Eres.
  - intros endpoint token params method class Hin.
    destruct (run_update_adset adset_id frequency_control_specs bid_strategy
                update_bid_amount update_status targeting optimization_goal
                access_token w)
      as [ E | (r & Etr & Eres) ]; unfold update in *;
      rewrite ?E, ?Etr in Hin.
    + contradiction.
    + destruct Hin as [Hev | []]. injection Hev as E1 E2 E3 E4 E5. subst.
      exact Eres.
Qed.

Lemma run_get_adset_details (access_token adset_id : option string) (w : World) :
  let t := get_adset_details access_token adset_id in
  trace_of (exec t w) = []
  \/ exists r,
       trace_of (exec t w)
       = [Called_make_api_request (str (opt_str adset_id)) access_token
            [("fields", VStr adset_details_fields)] None r]
       /\ result_of (exec t w)
          = match r with
            | Raised str_e => Raises (Fault str_e)
            | RaisedBase class => Raises (BaseFault class)
            | Returned data =>
                match contains data "frequency_control_specs" with
                | Exc e => Raises e
                | Val true => Returns (dumps (Some 2%nat) data)
                | Val false =>
                    match setitem data "_meta"
                            (VDict [("note",
                                     VStr no_frequency_control_specs_note)])
                    with
                    | Val data' => Returns (dumps (Some 2%nat) data')
                    | Exc e => Raises e
                    end
                end
            end.
Proof.
  unfold get_adset_details.
  destruct (truthy (opt_str adset_id)); [ | left; reflexivity ].
  right. simpl negb. cbv iota. cbv zeta. simpl.
  destruct (dispatcher _ _ _ _ w) as [[data | str_e | class] w']; simpl;
    [ | eexists; split; reflexivity .. ].
  exists (Returned data).
  destruct (contains data "frequency_control_specs") as [ [ | ] | e ]; simpl;
    try (split; reflexivity).
  destruct (setitem data "_meta" _) as [ data' | e ]; split; reflexivity.
Qed.

Lemma run_get_adsets_payload (access_token account_id : option string)
  (limit : Z) (campaign_id : string) (w : World) (endpoint : string)
  (token : option string) (params : dict) (method : option string)
  (data : value) :
  In (Called_make_api_request endpoint token params method (Returned data))
     (trace_of (exec (get_adsets access_token account_id limit campaign_id) w)) ->
  result_of (exec (get_adsets access_token account_id limit campaign_id) w)
  = Returns (dumps (Some 2%nat) data).
Proof.
  assert (forall id w0,
             In (Called_make_api_request endpoint token params method
                   (Returned data))
                (trace_of
                   (exec (get_adsets_request access_token id limit campaign_id)
                         w0)) ->
             result_of
               (exec (get_adsets_request access_token id limit campaign_id) w0)
             = Returns (dumps (Some 2%nat) data)) as Hreq.
  { intros id w0 Hin.
    destruct (run_get_adsets_request access_token id limit campaign_id w0)
      as (ep & ps & r & w' & _ & _ & _ & Etr & _ & Eres).
    rewrite Etr in Hin. destruct Hin as [Hev | []].
    injection Hev as E1 E2 E3 E4. subst. exact Eres. }
  destruct (truthy (opt_str account_id)) eqn:Hacc.
  - unfold get_adsets. rewrite Hacc. simpl negb. cbv iota. apply Hreq.
  - destruct (get_adsets_lookup access_token account_id limit campaign_id
                w Hacc) as [ [id E] | [E _] ]; rewrite E.
    + simpl. intros [Hev | Hin]; [ discriminate Hev | ]. now apply Hreq.
    + intros [Hev | []]. discriminate Hev.
Qed.

(** C6, as the code has it.  When the dispatcher returns a payload,
    [get_adsets], [create_adset] and [update_adset] return that payload
    pretty-printed and nothing else.  [get_adset_details] does so for a
    mapping that has the key [frequency_control_specs]; to a mapping
    without it, it first adds the key [_meta] holding a note. *)
Theorem successful_payload_is_returned (w : World) :
  (forall access_token account_id limit campaign_id
          endpoint token params method data,
      In (Called_make_api_request endpoint token params method (Returned data))
         (trace_of
            (exec (get_adsets access_token account_id limit campaign_id) w)) ->
      result_of (exec (get_adsets access_token account_id limit campaign_id) w)
      = Returns (dumps (Some 2%nat) data))
  /\ (forall account_id campaign_id name status daily_budget lifetime_budget
             targeting optimization_goal billing_event bid_amount bid_strategy
             start_time end_time access_token
             endpoint token params method data,
        In (Called_make_api_request endpoint token params method (Returned data))
           (trace_of
              (exec (create_adset account_id campaign_id name status
                       daily_budget lifetime_budget targeting optimization_goal
                       billing_event bid_amount bid_strategy start_time
                       end_time access_token) w)) ->
        result_of
          (exec (create_adset account_id campaign_id name status daily_budget
                   lifetime_budget targeting optimization_goal billing_event
                   bid_amount bid_strategy start_time end_time access_token) w)
        = Returns (dumps (Some 2%nat) data))
  /\ (forall adset_id frequency_control_specs bid_strategy bid_amount status
             targeting optimization_goal access_token
             endpoint token params method data,
        In (Called_make_api_request endpoint token params method (Returned data))
           (trace_of
              (exec (update_adset adset_id frequency_control_specs bid_strategy
                       bid_amount status targeting optimization_goal
                       access_token) w)) ->
        result_of
          (exec (update_adset adset_id frequency_control_specs bid_strategy
                   bid_amount status targeting optimization_goal
                   access_token) w)
        = Returns (dumps (Some 2%nat) data))
  /\ (forall access_token adset_id endpoint token params method d,
        In (Called_make_api_request endpoint token params method
              (Returned (VDict d)))
           (trace_of (exec (get_adset_details access_token adset_id) w)) ->
        result_of (exec (get_adset_details access_token adset_id) w)
        = Returns
            (dumps (Some 2%nat)
               (VDict
                  (if dict_has d "frequency_control_specs" then d
                   else dict_set d "_meta"
                          (VDict [("note",
                                   VStr no_frequency_control_specs_note)]))))).
Proof.
  split; [ | split; [ | split ] ].
  - intros. eapply run_get_adsets_payload; eauto.
  - intros account_id campaign_id name status daily_budget lifetime_budget
      targeting optimization_goal billing_event bid_amount bid_strategy
      start_time end_time access_token endpoint token params method data Hin.
    destruct (run_create_adset account_id campaign_id name status daily_budget
                lifetime_budget targeting optimization_goal billing_event
                bid_amount bid_strategy start_time end_time access_token w)
      as [ E | (ep & r & Etr & Eres) ]; rewrite ?E, ?Etr in Hin.
    + contradiction.
    + destruct Hin as [Hev | []]. injection Hev as E1 E2 E3 E4 E5. subst.
      exact Eres.
  - intros adset_id frequency_control_specs bid_strategy bid_amount status
      targeting optimization_goal access_token endpoint token params method
      data Hin.
    destruct (run_update_adset adset_id frequency_control_specs bid_strategy
                bid_amount status targeting optimization_goal access_token w)
      as [ E | (r & Etr & Eres) ]; rewrite ?E, ?Etr in Hin.
    + contradiction.
    + destruct Hin as [Hev | []]. injection Hev as E1 E2 E3 E4 E5. subst.
      exact Eres.
  - intros access_token adset_id endpoint token params method d Hin.
    destruct (run_get_adset_details access_token adset_id w)
      as [ E | (r & Etr & Eres) ]; rewrite ?E, ?Etr in Hin.
    + contradiction.
    + destruct Hin as [Hev | []]. injection Hev as E1 E2 E3 E4 E5. subst.
      rewrite Eres. simpl.
      destruct (dict_has d "frequency_control_specs"); reflexivity.
Qed.

Lemma isinstance_dict_not_None (v : value) :
  isinstance_dict v = true -> is_not_None v = true.
Proof. destruct v; intros H; try discriminate H; reflexivity. Qed.

Ltac split_membership :=
  repeat match goal with
         | H : In _ (_ :: _) |- _ => destruct H as [H | H]
         | H : In _ [] |- _ => destruct H
         | H : _ \/ _ |- _ => destruct H as [H | H]
         | H : False |- _ => destruct H
         | H : (_, _) = (_, _) |- _ => injection H as <- <-
         end.

Lemma create_adset_params_flat
  (campaign_id name : option string) (status : string)
  (daily_budget lifetime_budget targeting : value)
  (optimization_goal billing_event : option string) (bid_amount : value)
  (bid_strategy start_time end_time : option string) :
  Forall (fun kv => structured (snd kv) = false)
    (create_adset_params campaign_id name status daily_budget lifetime_budget
       targeting optimization_goal billing_event bid_amount bid_strategy
       start_time end_time)
  /\ dict_get
       (create_adset_params campaign_id name status daily_budget
          lifetime_budget targeting optimization_goal billing_event bid_amount
          bid_strategy start_time end_time) "targeting"
     = Some (VStr (dumps None (if truthy targeting then targeting
                               else default_targeting))).
Proof.
  unfold create_adset_params, set_str_if_not_None, set_if_truthy.
  destruct (truthy targeting);
    destruct (is_not_None daily_budget);
    destruct (is_not_None lifetime_budget);
    destruct (is_not_None bid_amount);
    destruct (truthy (opt_str bid_strategy)) eqn:E1;
    destruct (truthy (opt_str start_time)) eqn:E2;
    destruct (truthy (opt_str end_time)) eqn:E3;
    simpl; (split; [ | reflexivity ]);
    repeat constructor;
    try (destruct name; reflexivity);
    try (destruct campaign_id; reflexivity);
    try (destruct optimization_goal; reflexivity);
    try (destruct billing_event; reflexivity);
    try (destruct bid_strategy; reflexivity);
    try (destruct start_time; reflexivity);
    try (destruct end_time; reflexivity).
Qed.

Lemma update_adset_params_shape (frequency_control_specs : value)
  (bid_strategy : option string) (bid_amount : option Z)
  (status : option string) (targeting : value)
  (optimization_goal : option string) :
  let params := update_adset_params frequency_control_specs bid_strategy
                  bid_amount status targeting optimization_goal in
  (isinstance_dict targeting = true ->
   dict_get params "targeting" = Some (VStr (dumps None targeting)))
  /\ (is_not_None frequency_control_specs = true ->
      dict_get params "frequency_control_specs" = Some frequency_control_specs)
  /\ (forall k v,
        In (k, v) params ->
        structured v = true ->
        (k = "frequency_control_specs" /\ v = frequency_control_specs)
        \/ (k = "targeting" /\ v = targeting
            /\ isinstance_dict targeting = false)).
Proof.
  unfold update_adset_params, set_if_not_None, set_str_if_not_None.
  split; [ | split ].
  - intros Hd. rewrite (isinstance_dict_not_None targeting Hd), Hd.
    destruct (is_not_None frequency_control_specs);
      destruct bid_strategy; destruct bid_amount; destruct status;
      destruct optimization_goal; reflexivity.
  - intros Hf. rewrite Hf.
    destruct bid_strategy; destruct bid_amount; destruct status;
      destruct optimization_goal;
      destruct (is_not_None targeting);
      destruct (isinstance_dict targeting); reflexivity.
  - intros k v Hin Hs.
    destruct (is_not_None frequency_control_specs);
      destruct bid_strategy; destruct bid_amount; destruct status;
      destruct optimization_goal;
      destruct (is_not_None targeting);
      destruct (isinstance_dict targeting) eqn:Hd;
      simpl in Hin; split_membership;
      try discriminate Hs;
      try (left; split; reflexivity);
      right; repeat split; reflexivity.
Qed.


End AnyWorld.

End AdsetsSpec.

(* ================================================================== *)
(** * The tools on scripted worlds *)
(* ================================================================== *)

Module Examples.
Import Py Json Tool Adsets Scenario.

Lemma create_adset_requires_optimization_goal_witness :
  truthy (opt_str None) = false
  /\ create_adset (Some "act_1") (Some "456") (Some "Spring") "PAUSED"
       VNone VNone VNone None (Some "IMPRESSIONS") VNone None None None None
     = Return (error_envelope "No optimization goal provided").
Proof.
  split; [ reflexivity | ].
  destruct (AdsetsSpec.create_adset_requires_optimization_goal
              World one_account failing
              (Some "act_1") (Some "456") (Some "Spring") "PAUSED"
              VNone VNone VNone None (Some "IMPRESSIONS") VNone
              None None None None 0%nat eq_refl) as (_ & _ & _ & H).
  apply H; reflexivity.
Defined.

Lemma get_adsets_campaign_scoped_witness :
  truthy (VStr "456") = true
  /\ Forall (campaign_scoped "456")
       (trace_of
          (run one_account (answering (VDict [("data", VList [])]))
             (get_adsets None None 10 "456") 0%nat)).
Proof.
  split; [ reflexivity | ].
  apply (AdsetsSpec.get_adsets_campaign_scoped World one_account
           (answering (VDict [("data", VList [])])) None None 10 "456" 0%nat).
  reflexivity.
Defined.

Lemma write_tools_envelope_dispatcher_faults_witness :
  Shape.first_missing (Some "act_1") (Some "456") (Some "Spring")
    (Some "REACH") (Some "IMPRESSIONS") = None
  /\ truthy (VStr "123") = true
  /\ truthy
       (VDict (update_adset_params VNone None None (Some "ACTIVE") VNone
                 (Some "REACH"))) = true
  /\ result_of
       (run one_account failing
          (create_adset (Some "act_1") (Some "456") (Some "Spring") "PAUSED"
             VNone VNone VNone (Some "REACH") (Some "IMPRESSIONS") VNone
             None None None None) 0%nat)
     = Returns
         (dumps (Some 2%nat)
            (VDict [("error", VStr "Failed to create ad set");
                    ("details", VStr "Connection refused");
                    ("params_sent",
                     VDict (create_adset_params (Some "456") (Some "Spring")
                              "PAUSED" VNone VNone VNone (Some "REACH")
                              (Some "IMPRESSIONS") VNone None None None))]))
  /\ result_of
       (run one_account failing
          (update_adset "123" VNone None None (Some "ACTIVE") VNone
             (Some "REACH") None) 0%nat)
     = Returns
         (dumps (Some 2%nat)
            (VDict [("error", VStr "Failed to update ad set 123");
                    ("details", VStr "Connection refused");
                    ("params_sent",
                     VDict [("status", VStr "ACTIVE");
                            ("optimization_goal", VStr "REACH")])])).
Proof.
  destruct (AdsetsSpec.write_tools_envelope_dispatcher_faults
              World one_account failing
              (Some "act_1") (Some "456") (Some "Spring") "PAUSED"
              VNone VNone VNone (Some "REACH") (Some "IMPRESSIONS") VNone
              None None None None "123" VNone None (Some "ACTIVE") 0%nat)
    as (Hcreate & Hupdate & _).
  split; [ reflexivity | split; [ reflexivity | split; [ reflexivity | ] ] ].
  split.
  - destruct (Hcreate eq_refl "Connection refused" eq_refl) as [_ E].
    exact E.
  - destruct (Hupdate eq_refl eq_refl "Connection refused" eq_refl) as [_ E].
    exact E.
Defined.

(** C4 as stated fails: an exception outside [Exception] is not caught.
    When the task awaiting the dispatcher is cancelled during
    [create_adset], the call raises [CancelledError] and returns no
    envelope. *)
Lemma write_tools_let_cancellation_through :
  In (Called_make_api_request "act_1/adsets" None
        (create_adset_params (Some "456") (Some "Spring") "PAUSED" VNone VNone
           VNone (Some "REACH") (Some "IMPRESSIONS") VNone None None None)
        (Some "POST") (RaisedBase "CancelledError"))
     (trace_of
        (run one_account cancelled
           (create_adset (Some "act_1") (Some "456") (Some "Spring") "PAUSED"
              VNone VNone VNone (Some "REACH") (Some "IMPRESSIONS") VNone
              None None None None) 0%nat))
  /\ result_of
       (run one_account cancelled
          (create_adset (Some "act_1") (Some "456") (Some "Spring") "PAUSED"
             VNone VNone VNone (Some "REACH") (Some "IMPRESSIONS") VNone
             None None None None) 0%nat)
     = Raises (BaseFault "CancelledError").
Proof.
  split; [ left; reflexivity | reflexivity ].
Qed.

Lemma get_adsets_default_account_witness :
  truthy (opt_str None) = false
  /\ result_of
       (run no_accounts (answering VNone) (get_adsets None None 10 EmptyString)
          0%nat)
     = Returns (error_envelope
                  "No account ID specified and no accounts found for user").
Proof.
  split; [ reflexivity | ].
  destruct (AdsetsSpec.get_adsets_default_account World no_accounts
              (answering VNone) None None 10 EmptyString 0%nat eq_refl)
    as (_ & _ & H).
  destruct (H (dumps None (VDict [("data", VList [])])) eq_refl) as [E _].
  - exists [("data", VList [])]. split; [ reflexivity | right; reflexivity ].
  - exact E.
Defined.

Lemma get_adsets_campaign_needs_account_witness :
  truthy (VStr "456") = true
  /\ truthy (opt_str None) = false
  /\ trace_of
       (run no_accounts (answering VNone) (get_adsets None None 10 "456") 0%nat)
     = [accounts_event no_accounts None 0%nat].
Proof.
  split; [ reflexivity | split; [ reflexivity | ] ].
  destruct (AdsetsSpec.get_adsets_campaign_needs_account World no_accounts
              (answering VNone) None None 10 "456" 0%nat eq_refl eq_refl)
    as (_ & H & _).
  destruct (H (dumps None (VDict [("data", VList [])])) eq_refl) as [_ E].
  - exists [("data", VList [])]. split; [ reflexivity | right; reflexivity ].
  - exact E.
Defined.

Lemma update_adset_without_updates_witness :
  truthy (VStr "123") = true
  /\ update_adset "123" VNone None None None VNone None None
     = Return (error_envelope "No update parameters provided").
Proof.
  split; [ reflexivity | ].
  apply (AdsetsSpec.update_adset_without_updates World one_account failing
           "123" None 0%nat).
  reflexivity.
Defined.

(** C6 as stated fails: [get_adset_details] on an ad set whose payload has
    no [frequency_control_specs] does not return that payload, it returns
    one with a [_meta] entry added. *)
Lemma get_adset_details_alters_payload :
  In (Called_make_api_request "123" None
        [("fields", VStr adset_details_fields)] None
        (Returned (VDict adset_payload)))
     (trace_of
        (run no_accounts (answering (VDict adset_payload))
           (get_adset_details None (Some "123")) 0%nat))
  /\ result_of
       (run no_accounts (answering (VDict adset_payload))
          (get_adset_details None (Some "123")) 0%nat)
     <> Returns (dumps (Some 2%nat) (VDict adset_payload)).
Proof.
  split.
  - left. reflexivity.
  - vm_compute. discriminate.
Qed.

Lemma successful_payload_is_returned_witness :
  result_of
    (run no_accounts (answering (VDict adset_payload))
       (get_adset_details None (Some "123")) 0%nat)
  = Returns
      (dumps (Some 2%nat)
         (VDict (adset_payload
                   ++ [("_meta",
                        VDict [("note",
                                VStr no_frequency_control_specs_note)])])%list)).
Proof.
  destruct (AdsetsSpec.successful_payload_is_returned World no_accounts
              (answering (VDict adset_payload)) 0%nat) as (_ & _ & _ & H).
  apply (H None (Some "123") "123" None
           [("fields", VStr adset_details_fields)] None adset_payload).
  left. reflexivity.
Defined.



End Examples.

(* ================================================================== *)
(** * The token manager in bypass mode *)
(* ================================================================== *)

Module AuthSpec.
Import PipeboardAuth.

Lemma get_access_token_bypass (acquisition : option string) (now : Z)
  (m : manager) (force_refresh : bool) :
  bypass_mode m = true ->
  get_access_token acquisition now m force_refresh
  = (Token MOCK_ACCESS_TOKEN, mkManager true BYPASSED).
Proof. intros H. unfold get_access_token. now rewrite H. Qed.

Lemma tokens_of_calls_bypass (acquisition : option string) (now : Z)
  (calls : list bool) :
  forall m,
    bypass_mode m = true ->
    Forall (eq (Token MOCK_ACCESS_TOKEN))
      (tokens_of_calls acquisition now m calls).
Proof.
  induction calls as [ | force_refresh calls IH ]; intros m H; simpl.
  - constructor.
  - rewrite (get_access_token_bypass acquisition now m force_refresh H).
    constructor; [ reflexivity | ]. apply IH. reflexivity.
Qed.

(** C8.  In bypass mode every call of [get_access_token] returns the
    sentinel [MOCK_ACCESS_TOKEN_BYPASS_12345]: with [force_refresh] false
    or true, on the first call and on every later one, so that two calls
    with different [force_refresh] arguments return the same value. *)
Theorem bypass_token_is_constant (acquisition : option string) (now : Z)
  (m : manager) :
  bypass_mode m = true ->
  (forall force_refresh,
      fst (get_access_token acquisition now m force_refresh)
      = Token MOCK_ACCESS_TOKEN)
  /\ (forall calls,
        Forall (eq (Token MOCK_ACCESS_TOKEN))
          (tokens_of_calls acquisition now m calls))
  /\ fst (get_access_token acquisition now m false)
     = fst (get_access_token acquisition now m true)
  /\ MOCK_ACCESS_TOKEN = "MOCK_ACCESS_TOKEN_BYPASS_12345".
Proof.
  intros H. split; [ | split; [ | split ] ].
  - intros force_refresh.
    now rewrite (get_access_token_bypass acquisition now m force_refresh H).
  - intros calls. now apply tokens_of_calls_bypass.
  - now rewrite !(get_access_token_bypass acquisition now m _ H).
  - reflexivity.
Qed.

Lemma bypass_token_is_constant_witness :
  bypass_mode (mkManager true UNINITIALIZED) = true
  /\ fst (get_access_token None 0 (mkManager true UNINITIALIZED) false)
     = fst (get_access_token None 0 (mkManager true UNINITIALIZED) true).
Proof.
  split; [ reflexivity | ].
  destruct (bypass_token_is_constant None 0 (mkManager true UNINITIALIZED)
              eq_refl) as (_ & _ & H & _).
  exact H.
Defined.

End AuthSpec.

(* ================================================================== *)
(** * Facts about dicts *)
(* ================================================================== *)

Module DictFacts.
Import Py.

Lemma dict_get_set_same (d : dict) (k : string) (v : value) :
  dict_get (dict_set d k v) k = Some v.
Proof.
  induction d as [ | [k' v'] d IHd ]; simpl.
  - now rewrite String.eqb_refl.
  - destruct (k' =? k)%string eqn:E; simpl; rewrite E; [ reflexivity | exact IHd ].
Qed.

Lemma dict_get_set_other (d : dict) (k k' : string) (v : value) :
  k <> k' -> dict_get (dict_set d k' v) k = dict_get d k.
Proof.
  intros Hne. induction d as [ | [k0 v0] d IHd ]; simpl.
  - destruct (String.eqb_spec k' k); [ congruence | reflexivity ].
  - destruct (String.eqb_spec k0 k') as [ -> | Hk ]; simpl.
    + destruct (String.eqb_spec k' k); [ congruence | reflexivity ].
    + now rewrite IHd.
Qed.

Lemma dict_has_false_not_in (d : dict) (k : string) :
  dict_has d k = false -> ~ In k (map fst d).
Proof.
  unfold dict_has. induction d as [ | [k' v'] d IHd ]; simpl; [ tauto | ].
  destruct (String.eqb_spec k' k) as [ -> | Hne ]; [ discriminate | ].
  intros H [ E | Hin ]; [ congruence | now apply IHd ].
Qed.

Lemma keys_dict_set_present (d : dict) (k : string) (v : value) :
  dict_has d k = true -> keys (dict_set d k v) = keys d.
Proof.
  unfold dict_has, keys. induction d as [ | [k' v'] d IHd ]; simpl;
    [ discriminate | ].
  destruct (k' =? k)%string; simpl; [ reflexivity | ].
  intros H. now rewrite IHd.
Qed.

Lemma existsb_keys_dict_set (d : dict) (k k' : string) (v : value) :
  (k' =? k)%string = false ->
  existsb (String.eqb k') (map fst (dict_set d k v))
  = existsb (String.eqb k') (map fst d).
Proof.
  intros Hne. induction d as [ | [k0 v0] d IHd ]; simpl.
  - now rewrite Hne.
  - destruct (k0 =? k)%string; simpl; [ reflexivity | now rewrite IHd ].
Qed.

Lemma distinct_dict_set (d : dict) (k : string) (v : value) :
  distinct (map fst d) = true -> distinct (map fst (dict_set d k v)) = true.
Proof.
  induction d as [ | [k' v'] d IHd ]; simpl; [ reflexivity | ].
  intros H. apply andb_true_iff in H as [Hk Hd].
  destruct (k' =? k)%string eqn:E; simpl.
  - now rewrite Hk, Hd.
  - rewrite existsb_keys_dict_set by exact E. now rewrite Hk, IHd.
Qed.

Lemma forallb_dict_set (f : value -> bool) (d : dict) (k : string) (v : value) :
  forallb (fun kv => f (snd kv)) d = true ->
  f v = true ->
  forallb (fun kv => f (snd kv)) (dict_set d k v) = true.
Proof.
  intros Hd Hv. induction d as [ | [k' v'] d IHd ]; simpl in *.
  - now rewrite Hv.
  - apply andb_true_iff in Hd as [H1 H2].
    destruct (k' =? k)%string; simpl.
    + now rewrite Hv, H2.
    + now rewrite H1, IHd.
Qed.

Lemma well_formed_dict_set (d : dict) (k : string) (v : value) :
  well_formed (VDict d) = true ->
  well_formed v = true ->
  well_formed (VDict (dict_set d k v)) = true.
Proof.
  intros Hd Hv.
  change (distinct (map fst d)
          && forallb (fun kv => well_formed (snd kv)) d = true) in Hd.
  apply andb_true_iff in Hd as [H1 H2].
  change (distinct (map fst (dict_set d k v))
          && forallb (fun kv => well_formed (snd kv)) (dict_set d k v) = true).
  rewrite distinct_dict_set by exact H1.
  now rewrite (forallb_dict_set well_formed) by assumption.
Qed.

End DictFacts.

(* ================================================================== *)
(** * The rest of the behaviour of the four tools *)
(* ================================================================== *)

Module Coverage.
Import Py Json Tool Adsets Shape.

#[local] Arguments loads : simpl never.
#[local] Arguments dumps : simpl never.
#[local] Arguments error_envelope : simpl never.
#[local] Arguments String.append : simpl never.
#[local] Arguments is_substring : simpl never.

Section AnyWorld.

Variable World : Type.
Variable accounts_service :
  string -> string -> option string -> World -> reply string * World.
Variable dispatcher :
  string -> option string -> dict -> option string -> World ->
  reply value * World.

Notation "'exec' t w" := (run accounts_service dispatcher t w)
  (at level 10, t at level 9, w at level 9, only parsing).

(** X1.  With an account given and no campaign, [get_adsets] asks nothing
    about the user's accounts: its one interaction is the request on
    [account_id/adsets], with [fields] and [limit] and no method argument;
    it returns the payload pretty-printed, or lets the exception of the
    dispatcher through. *)
Theorem get_adsets_with_account (access_token : option string)
  (account : string) (limit : Z) (w : World) :
  truthy (VStr account) = true ->
  exists r,
    fst (dispatcher (account ++ "/adsets") access_token
           [("fields", VStr adsets_fields); ("limit", VInt limit)] None w) = r
    /\ trace_of
         (exec (get_adsets access_token (Some account) limit EmptyString) w)
       = [Called_make_api_request (account ++ "/adsets") access_token
            [("fields", VStr adsets_fields); ("limit", VInt limit)] None r]
    /\ world_of
         (exec (get_adsets access_token (Some account) limit EmptyString) w)
       = snd (dispatcher (account ++ "/adsets") access_token
                [("fields", VStr adsets_fields); ("limit", VInt limit)] None w)
    /\ result_of
         (exec (get_adsets access_token (Some account) limit EmptyString) w)
       = match r with
         | Returned data => Returns (dumps (Some 2%nat) data)
         | Raised str_e => Raises (Fault str_e)
         | RaisedBase class => Raises (BaseFault class)
         end.
Proof.
  intros Hacc.
  destruct (AdsetsSpec.run_get_adsets_request World accounts_service dispatcher
              access_token (VStr account) limit EmptyString w)
    as (ep & ps & r & w' & Ed & Eep & Eps & Etr & Ew & Eres).
  simpl in Eep. subst ep ps.
  assert (get_adsets access_token (Some account) limit EmptyString
          = get_adsets_request access_token (VStr account) limit EmptyString)
    as E.
  { unfold get_adsets. change (opt_str (Some account)) with (VStr account).
    now rewrite Hacc. }
  rewrite E, Ed. exists r. simpl. auto.
Qed.

(** X2.  The two read tools have no handler around the dispatcher: when
    it raises during [get_adsets] or [get_adset_details], the call raises
    that same exception and returns no envelope, whether the exception is
    an instance of [Exception] or not. *)
Theorem read_tools_propagate_faults (w : World) :
  (forall access_token account_id limit campaign_id
          endpoint token params method str_e,
      In (Called_make_api_request endpoint token params method (Raised str_e))
         (trace_of
            (exec (get_adsets access_token account_id limit campaign_id) w)) ->
      result_of (exec (get_adsets access_token account_id limit campaign_id) w)
      = Raises (Fault str_e))
  /\ (forall access_token adset_id endpoint token params method str_e,
        In (Called_make_api_request endpoint token params method (Raised str_e))
           (trace_of (exec (get_adset_details access_token adset_id) w)) ->
        result_of (exec (get_adset_details access_token adset_id) w)
        = Raises (Fault str_e))
  /\ (forall access_token account_id limit campaign_id
             endpoint token params method class,
        In (Called_make_api_request endpoint token params method
              (RaisedBase class))
           (trace_of
              (exec (get_adsets access_token account_id limit campaign_id) w)) ->
        result_of
          (exec (get_adsets access_token account_id limit campaign_id) w)
        = Raises (BaseFault class))
  /\ (forall access_token adset_id endpoint token params method class,
        In (Called_make_api_request endpoint token params method
              (RaisedBase class))
           (trace_of (exec (get_adset_details access_token adset_id) w)) ->
        result_of (exec (get_adset_details access_token adset_id) w)
        = Raises (BaseFault class)).
Proof.
  assert (forall access_token account_id limit campaign_id
                 endpoint token params method r,
             In (Called_make_api_request endpoint token params method r)
                (trace_of
                   (exec (get_adsets access_token account_id limit
                            campaign_id) w)) ->
             result_of
               (exec (get_adsets access_token account_id limit campaign_id) w)
             = match r with
               | Returned data => Returns (dumps (Some 2%nat) data)
               | Raised str_e => Raises (Fault str_e)
               | RaisedBase class => Raises (BaseFault class)
               end) as Hany.
  { intros access_token account_id limit campaign_id endpoint token params
      method r.
    assert (forall id w0,
               In (Called_make_api_request endpoint token params method r)
                  (trace_of
                     (exec (get_adsets_request access_token id limit
                              campaign_id) w0)) ->
               result_of
                 (exec (get_adsets_request access_token id limit campaign_id)
                       w0)
               = match r with
                 | Returned data => Returns (dumps (Some 2%nat) data)
                 | Raised str_e => Raises (Fault str_e)
                 | RaisedBase class => Raises (BaseFault class)
                 end) as Hreq.
    { intros id w0 Hin.
      destruct (AdsetsSpec.run_get_adsets_request World accounts_service
                  dispatcher access_token id limit campaign_id w0)
        as (ep & ps & r0 & w' & _ & _ & _ & Etr & _ & Eres).
      rewrite Etr in Hin. destruct Hin as [Hev | []].
      injection Hev as E1 E2 E3 E4 E5. subst. exact Eres. }
    destruct (truthy (opt_str account_id)) eqn:Hacc.
    + unfold get_adsets. rewrite Hacc. simpl negb. cbv iota. apply Hreq.
    + destruct (AdsetsSpec.get_adsets_lookup World accounts_service dispatcher
                  access_token account_id limit campaign_id w Hacc)
        as [ [id E] | [E _] ]; rewrite E.
      * simpl. intros [Hev | Hin]; [ discriminate Hev | ]. now apply Hreq.
      * intros [Hev | []]. discriminate Hev. }
  assert (forall access_token adset_id endpoint token params method r,
             (forall data, r <> Returned data) ->
             In (Called_make_api_request endpoint token params method r)
                (trace_of (exec (get_adset_details access_token adset_id) w)) ->
             result_of (exec (get_adset_details access_token adset_id) w)
             = match r with
               | Returned data => Returns (dumps (Some 2%nat) data)
               | Raised str_e => Raises (Fault str_e)
               | RaisedBase class => Raises (BaseFault class)
               end) as Hdet.
  { intros access_token adset_id endpoint token params method r Hr Hin.
    destruct (AdsetsSpec.run_get_adset_details World accounts_service
                dispatcher access_token adset_id w)
      as [ E | (r0 & Etr & Eres) ]; rewrite ?E, ?Etr in Hin.
    + contradiction.
    + destruct Hin as [Hev | []]. injection Hev as E1 E2 E3 E4 E5. subst.
      rewrite Eres. destruct r; try reflexivity.
      exfalso. now apply (Hr r). }
  split; [ | split; [ | split ] ].
  - intros. eapply (Hany _ _ _ _ _ _ _ _ (Raised str_e)); eauto.
  - intros. eapply (Hdet _ _ _ _ _ _ (Raised str_e)); eauto. discriminate.
  - intros. eapply (Hany _ _ _ _ _ _ _ _ (RaisedBase class)); eauto.
  - intros. eapply (Hdet _ _ _ _ _ _ (RaisedBase class)); eauto. discriminate.
Qed.


Lemma requests_of_get_adsets_request (access_token : option string)
  (id : value) (limit : Z) (campaign_id : string) (w : World) :
  exists e,
    trace_of (exec (get_adsets_request access_token id limit campaign_id) w)
    = [e]
    /\ is_request e = true.
Proof.
  destruct (AdsetsSpec.run_get_adsets_request World accounts_service dispatcher
              access_token id limit campaign_id w)
    as (ep & ps & r & w' & _ & _ & _ & Etr & _).
  rewrite Etr. eexists. split; reflexivity.
Qed.

(** X4.  No tool repeats itself: a call makes at most one request to the
    dispatcher.  Only [get_adsets] ever asks for the user's accounts, at
    most once, and not at all when an account is given. *)
Theorem tools_make_one_request (w : World) :
  (forall access_token account_id limit campaign_id,
      let trace :=
        trace_of (exec (get_adsets access_token account_id limit campaign_id) w)
      in
      (List.length (filter is_request trace) <= 1)%nat
      /\ (List.length (filter is_query trace) <= 1)%nat
      /\ (truthy (opt_str account_id) = true -> filter is_query trace = []))
  /\ (forall access_token adset_id,
        let trace :=
          trace_of (exec (get_adset_details access_token adset_id) w) in
        (List.length (filter is_request trace) <= 1)%nat
        /\ filter is_query trace = [])
  /\ (forall account_id campaign_id name status daily_budget lifetime_budget
             targeting optimization_goal billing_event bid_amount bid_strategy
             start_time end_time access_token,
        let trace :=
          trace_of
            (exec (create_adset account_id campaign_id name status
                     daily_budget lifetime_budget targeting optimization_goal
                     billing_event bid_amount bid_strategy start_time end_time
                     access_token) w) in
        (List.length (filter is_request trace) <= 1)%nat
        /\ filter is_query trace = [])
  /\ (forall adset_id frequency_control_specs bid_strategy bid_amount status
             targeting optimization_goal access_token,
        let trace :=
          trace_of
            (exec (update_adset adset_id frequency_control_specs bid_strategy
                     bid_amount status targeting optimization_goal
                     access_token) w) in
        (List.length (filter is_request trace) <= 1)%nat
        /\ filter is_query trace = []).
Proof.
  split; [ | split; [ | split ] ].
  - intros access_token account_id limit campaign_id trace. subst trace.
    destruct (truthy (opt_str account_id)) eqn:Hacc.
    + unfold get_adsets. rewrite Hacc. simpl negb. cbv iota.
      destruct (requests_of_get_adsets_request access_token
                  (opt_str account_id) limit campaign_id w) as (e & E & He).
      rewrite E. destruct e; [ discriminate He | ]. simpl. auto.
    + destruct (AdsetsSpec.get_adsets_lookup World accounts_service dispatcher
                  access_token account_id limit campaign_id w Hacc)
        as [ [id E] | [E _] ]; rewrite E.
      * destruct (requests_of_get_adsets_request access_token id limit
                    campaign_id
                    (snd (accounts_query accounts_service access_token w)))
          as (e & E' & He).
        simpl. rewrite E'. destruct e; [ discriminate He | ].
        simpl. repeat split; auto; discriminate.
      * simpl. repeat split; auto; discriminate.
  - intros access_token adset_id trace. subst trace.
    destruct (AdsetsSpec.run_get_adset_details World accounts_service
                dispatcher access_token adset_id w)
      as [ E | (r & E & _) ]; rewrite E; simpl; auto.
  - intros account_id campaign_id name status daily_budget lifetime_budget
      targeting optimization_goal billing_event bid_amount bid_strategy
      start_time end_time access_token trace. subst trace.
    destruct (AdsetsSpec.run_create_adset World accounts_service dispatcher
                account_id campaign_id name status daily_budget lifetime_budget
                targeting optimization_goal billing_event bid_amount
                bid_strategy start_time end_time access_token w)
      as [ E | (ep & r & E & _) ]; rewrite E; simpl; auto.
  - intros adset_id frequency_control_specs bid_strategy bid_amount status
      targeting optimization_goal access_token trace. subst trace.
    destruct (AdsetsSpec.run_update_adset World accounts_service dispatcher
                adset_id frequency_control_specs bid_strategy bid_amount
                status targeting optimization_goal access_token w)
      as [ E | (r & E & _) ]; rewrite E; simpl; auto.
Qed.

(** X5.  With no account given, an accounts answer whose first entry
    cannot give an [id] ends [get_adsets] with an exception and no request:
    [KeyError] when the entry is a mapping without the key [id],
    [TypeError] when it is not a mapping. *)
Theorem get_adsets_account_without_id
  (access_token account_id : option string) (limit : Z) (campaign_id : string)
  (w : World) (s : string) (d : dict) (first : value) (others : list value) :
  truthy (opt_str account_id) = false ->
  fst (accounts_query accounts_service access_token w) = Returned s ->
  loads s = Ok (VDict d) ->
  dict_get d "data" = Some (VList (first :: others)) ->
  getitem first "id" = Exc KeyError \/ isinstance_dict first = false ->
  result_of (exec (get_adsets access_token account_id limit campaign_id) w)
  = Raises (if isinstance_dict first then KeyError else TypeError)
  /\ trace_of (exec (get_adsets access_token account_id limit campaign_id) w)
     = [accounts_event accounts_service access_token w].
Proof.
  intros Hacc Hq Hl Hd Hfirst.
  unfold get_adsets, accounts_event, accounts_query in *.
  rewrite Hacc. simpl.
  destruct (accounts_service _ _ _ w) as [r w']. simpl in Hq. subst r. simpl.
  unfold json_loads. rewrite Hl. simpl.
  unfold dict_has. rewrite Hd. simpl. rewrite ?Hd. simpl.
  destruct first as [ | b | z | t | l | a ]; simpl;
    try (split; reflexivity);
    destruct Hfirst as [ Hk | Hk ]; try discriminate Hk.
  simpl in Hk. destruct (dict_get a "id"); [ discriminate Hk | ].
  simpl. split; reflexivity.
Qed.

(** X6.  [get_adset_details] calls the dispatcher exactly when an ad set is
    named.  With [adset_id] [None] or empty it returns the envelope
    [No ad set ID provided] and does nothing else; otherwise its one
    interaction is a request on the path [adset_id], with the single
    parameter [fields] and no method argument. *)
Theorem get_adset_details_request (access_token adset_id : option string)
  (w : World) :
  (truthy (opt_str adset_id) = false ->
   get_adset_details access_token adset_id
   = Return (error_envelope "No ad set ID provided")
   /\ trace_of (exec (get_adset_details access_token adset_id) w) = []
   /\ world_of (exec (get_adset_details access_token adset_id) w) = w
   /\ loads (error_envelope "No ad set ID provided")
      = Ok (VDict [("error", VStr "No ad set ID provided")]))
  /\ (forall id,
        adset_id = Some id ->
        truthy (VStr id) = true ->
        exists r,
          trace_of (exec (get_adset_details access_token adset_id) w)
          = [Called_make_api_request id access_token
               [("fields", VStr adset_details_fields)] None r]).
Proof.
  split.
  - intros H. unfold get_adset_details. rewrite H. simpl negb. cbv iota.
    repeat split; reflexivity.
  - intros id -> H.
    destruct (AdsetsSpec.run_get_adset_details World accounts_service
                dispatcher access_token (Some id) w)
      as [ E | (r & E & _) ].
    + exfalso. revert E. unfold get_adset_details.
      change (opt_str (Some id)) with (VStr id). rewrite H.
      simpl negb. cbv iota. cbv zeta. simpl.
      destruct (dispatcher _ _ _ _ w) as [[data | str_e | class] w']; simpl;
        discriminate.
    + exists r. exact E.
Qed.

(** X7.  The note [get_adset_details] adds to a mapping without
    [frequency_control_specs] leaves every other field of the payload as
    it was: the result holds the note under [_meta] and the payload's
    value under every other key.  A payload without [_meta] gets it as
    its last entry; a payload that had one keeps its keys and has that
    entry replaced. *)
Theorem get_adset_details_note_keeps_fields
  (access_token adset_id : option string) (w : World) (endpoint : string)
  (token : option string) (params : dict) (method : option string) (d : dict) :
  In (Called_make_api_request endpoint token params method (Returned (VDict d)))
     (trace_of (exec (get_adset_details access_token adset_id) w)) ->
  dict_has d "frequency_control_specs" = false ->
  exists d',
    result_of (exec (get_adset_details access_token adset_id) w)
    = Returns (dumps (Some 2%nat) (VDict d'))
    /\ dict_get d' "_meta" = Some meta_note
    /\ (forall k, k <> "_meta" -> dict_get d' k = dict_get d k)
    /\ (dict_has d "_meta" = false -> d' = (d ++ [("_meta", meta_note)])%list)
    /\ (dict_has d "_meta" = true -> keys d' = keys d).
Proof.
  intros Hin Hspecs.
  destruct (AdsetsSpec.run_get_adset_details World accounts_service dispatcher
              access_token adset_id w)
    as [ E | (r & Etr & Eres) ]; rewrite ?E, ?Etr in Hin.
  - contradiction.
  - destruct Hin as [Hev | []]. injection Hev as E1 E2 E3 E4 E5. subst.
    exists (dict_set d "_meta" meta_note).
    rewrite Eres. simpl. rewrite Hspecs.
    split; [ reflexivity | ].
    split; [ apply DictFacts.dict_get_set_same | ].
    split; [ intros k Hk; now apply DictFacts.dict_get_set_other | ].
    split.
    + intros H. apply JsonFacts.dict_set_fresh.
      now apply DictFacts.dict_has_false_not_in.
    + intros H. now apply DictFacts.keys_dict_set_present.
Qed.

(** X8.  A payload that is not a mapping is returned by
    [get_adset_details] only when the test [in] finds
    [frequency_control_specs] in it (an element of a list, a part of a
    string); otherwise the call raises [TypeError], from the test itself on
    a scalar and from the assignment of [_meta] on a list or a string. *)
Theorem get_adset_details_other_payloads
  (access_token adset_id : option string) (w : World) (endpoint : string)
  (token : option string) (params : dict) (method : option string)
  (data : value) :
  In (Called_make_api_request endpoint token params method (Returned data))
     (trace_of (exec (get_adset_details access_token adset_id) w)) ->
  isinstance_dict data = false ->
  result_of (exec (get_adset_details access_token adset_id) w)
  = match contains data "frequency_control_specs" with
    | Val true => Returns (dumps (Some 2%nat) data)
    | _ => Raises TypeError
    end.
Proof.
  intros Hin Hd.
  destruct (AdsetsSpec.run_get_adset_details World accounts_service dispatcher
              access_token adset_id w)
    as [ E | (r & Etr & Eres) ]; rewrite ?E, ?Etr in Hin.
  - contradiction.
  - destruct Hin as [Hev | []]. injection Hev as E1 E2 E3 E4 E5. subst.
    rewrite Eres.
    destruct data as [ | b | z | t | l | a ]; try discriminate Hd; simpl;
      reflexivity.
Qed.

(** X9.  What a tool returns for a payload is a JSON text that
    [json.loads] decodes to that payload again: the payload itself for
    [get_adsets], [create_adset] and [update_adset], and for
    [get_adset_details] the mapping with its note when it had no
    [frequency_control_specs].  The payload is any value whose dicts have
    distinct keys. *)
Theorem tool_outputs_decode (w : World) (data : value) (d : dict) :
  well_formed data = true ->
  well_formed (VDict d) = true ->
  (forall access_token account_id limit campaign_id
          endpoint token params method,
      In (Called_make_api_request endpoint token params method (Returned data))
         (trace_of
            (exec (get_adsets access_token account_id limit campaign_id) w)) ->
      exists text,
        result_of (exec (get_adsets access_token account_id limit campaign_id) w)
        = Returns text
        /\ loads text = Ok data)
  /\ (forall account_id campaign_id name status daily_budget lifetime_budget
             targeting optimization_goal billing_event bid_amount bid_strategy
             start_time end_time access_token endpoint token params method,
        In (Called_make_api_request endpoint token params method (Returned data))
           (trace_of
              (exec (create_adset account_id campaign_id name status
                       daily_budget lifetime_budget targeting optimization_goal
                       billing_event bid_amount bid_strategy start_time
                       end_time access_token) w)) ->
        exists text,
          result_of
            (exec (create_adset account_id campaign_id name status
                     daily_budget lifetime_budget targeting optimization_goal
                     billing_event bid_amount bid_strategy start_time end_time
                     access_token) w)
          = Returns text
          /\ loads text = Ok data)
  /\ (forall adset_id frequency_control_specs bid_strategy bid_amount status
             targeting optimization_goal access_token
             endpoint token params method,
        In (Called_make_api_request endpoint token params method (Returned data))
           (trace_of
              (exec (update_adset adset_id frequency_control_specs bid_strategy
                       bid_amount status targeting optimization_goal
                       access_token) w)) ->
        exists text,
          result_of
            (exec (update_adset adset_id frequency_control_specs bid_strategy
                     bid_amount status targeting optimization_goal
                     access_token) w)
          = Returns text
          /\ loads text = Ok data)
  /\ (forall access_token adset_id endpoint token params method,
        In (Called_make_api_request endpoint token params method
              (Returned (VDict d)))
           (trace_of (exec (get_adset_details access_token adset_id) w)) ->
        exists text,
          result_of (exec (get_adset_details access_token adset_id) w)
          = Returns text
          /\ loads text
             = Ok (VDict (if dict_has d "frequency_control_specs" then d
                          else dict_set d "_meta" meta_note))).
Proof.
  intros Hdata Hd. split; [ | split; [ | split ] ].
  - intros access_token account_id limit campaign_id endpoint token params
      method Hin.
    exists (dumps (Some 2%nat) data). split.
    + eapply AdsetsSpec.run_get_adsets_payload; eauto.
    + now apply JsonFacts.loads_dumps.
  - intros account_id campaign_id name status daily_budget lifetime_budget
      targeting optimization_goal billing_event bid_amount bid_strategy
      start_time end_time access_token endpoint token params method Hin.
    destruct (AdsetsSpec.run_create_adset World accounts_service dispatcher
                account_id campaign_id name status daily_budget lifetime_budget
                targeting optimization_goal billing_event bid_amount
                bid_strategy start_time end_time access_token w)
      as [ E | (ep & r & Etr & Eres) ]; rewrite ?E, ?Etr in Hin.
    + contradiction.
    + destruct Hin as [Hev | []]. injection Hev as E1 E2 E3 E4 E5. subst.
      rewrite Eres. eexists. split; [ reflexivity | ].
      now apply JsonFacts.loads_dumps.
  - intros adset_id frequency_control_specs bid_strategy bid_amount status
      targeting optimization_goal access_token endpoint token params method
      Hin.
    destruct (AdsetsSpec.run_update_adset World accounts_service dispatcher
                adset_id frequency_control_specs bid_strategy bid_amount
                status targeting optimization_goal access_token w)
      as [ E | (r & Etr & Eres) ]; rewrite ?E, ?Etr in Hin.
    + contradiction.
    + destruct Hin as [Hev | []]. injection Hev as E1 E2 E3 E4 E5. subst.
      rewrite Eres. eexists. split; [ reflexivity | ].
      now apply JsonFacts.loads_dumps.
  - intros access_token adset_id endpoint token params method Hin.
    destruct (AdsetsSpec.run_get_adset_details World accounts_service
                dispatcher access_token adset_id w)
      as [ E | (r & Etr & Eres) ]; rewrite ?E, ?Etr in Hin.
    + contradiction.
    + destruct Hin as [Hev | []]. injection Hev as E1 E2 E3 E4 E5. subst.
      rewrite Eres. simpl.
      destruct (dict_has d "frequency_control_specs");
        (eexists; split; [ reflexivity | ]);
        apply JsonFacts.loads_dumps; [ exact Hd | ].
      apply DictFacts.well_formed_dict_set; [ exact Hd | reflexivity ].
Qed.

(** X10.  [create_adset] tests its five required arguments in the order
    account, campaign, name, optimization goal, billing event, and reports
    the first one that is [None] or empty without any interaction.  When
    all five are there its one interaction is a [POST] request on the path
    [account_id/adsets] with the parameters it has built. *)
Theorem create_adset_validation
  (account_id campaign_id name : option string) (status : string)
  (daily_budget lifetime_budget targeting : value)
  (optimization_goal billing_event : option string) (bid_amount : value)
  (bid_strategy start_time end_time access_token : option string) (w : World) :
  let call := create_adset account_id campaign_id name status daily_budget
                lifetime_budget targeting optimization_goal billing_event
                bid_amount bid_strategy start_time end_time access_token in
  match first_missing account_id campaign_id name optimization_goal
          billing_event with
  | Some msg =>
      call = Return (error_envelope msg)
      /\ trace_of (exec call w) = []
      /\ world_of (exec call w) = w
  | None =>
      exists r,
        trace_of (exec call w)
        = [Called_make_api_request (str (opt_str account_id) ++ "/adsets")
             access_token
             (create_adset_params campaign_id name status daily_budget
                lifetime_budget targeting optimization_goal billing_event
                bid_amount bid_strategy start_time end_time)
             (Some "POST") r]
  end.
Proof.
  unfold first_missing, create_adset.
  destruct (truthy (opt_str account_id)); simpl negb; cbv iota;
    [ | repeat split; reflexivity ].
  destruct (truthy (opt_str campaign_id)); simpl negb; cbv iota;
    [ | repeat split; reflexivity ].
  destruct (truthy (opt_str name)); simpl negb; cbv iota;
    [ | repeat split; reflexivity ].
  destruct (truthy (opt_str optimization_goal)); simpl negb; cbv iota;
    [ | repeat split; reflexivity ].
  destruct (truthy (opt_str billing_event)); simpl negb; cbv iota;
    [ | repeat split; reflexivity ].
  cbv zeta. simpl.
  destruct (dispatcher _ _ _ _ w) as [[data | str_e | class] w']; eexists; reflexivity.
Qed.

(** X11.  What [create_adset] sends under each key.  The name, the
    campaign, the status, the optimization goal and the billing event are
    always there as given, and so is the targeting, as the [json.dumps]
    text of the argument or, when that is [None] or empty, of the default
    targeting.  The account is in the path only: no parameter
    [account_id] is sent.  A budget or a bid amount is sent, as the text
    [str] gives, whenever it is not [None], so a zero or an empty text is
    sent too; a bid strategy, a start or an end time is sent only when it
    is a non-empty text. *)
Theorem create_adset_params_lookup
  (campaign_id name : option string) (status : string)
  (daily_budget lifetime_budget targeting : value)
  (optimization_goal billing_event : option string) (bid_amount : value)
  (bid_strategy start_time end_time : option string) :
  let params := create_adset_params campaign_id name status daily_budget
                  lifetime_budget targeting optimization_goal billing_event
                  bid_amount bid_strategy start_time end_time in
  dict_get params "name" = Some (opt_str name)
  /\ dict_get params "campaign_id" = Some (opt_str campaign_id)
  /\ dict_get params "status" = Some (VStr status)
  /\ dict_get params "optimization_goal" = Some (opt_str optimization_goal)
  /\ dict_get params "billing_event" = Some (opt_str billing_event)
  /\ dict_get params "targeting"
     = Some (VStr (dumps None (if truthy targeting then targeting
                               else default_targeting)))
  /\ dict_get params "account_id" = None
  /\ dict_get params "daily_budget"
     = (if is_not_None daily_budget then Some (VStr (str daily_budget))
        else None)
  /\ dict_get params "lifetime_budget"
     = (if is_not_None lifetime_budget then Some (VStr (str lifetime_budget))
        else None)
  /\ dict_get params "bid_amount"
     = (if is_not_None bid_amount then Some (VStr (str bid_amount)) else None)
  /\ dict_get params "bid_strategy"
     = (if truthy (opt_str bid_strategy) then Some (opt_str bid_strategy)
        else None)
  /\ dict_get params "start_time"
     = (if truthy (opt_str start_time) then Some (opt_str start_time)
        else None)
  /\ dict_get params "end_time"
     = (if truthy (opt_str end_time) then Some (opt_str end_time) else None).
Proof.
  unfold create_adset_params, set_str_if_not_None, set_if_truthy.
  destruct (truthy targeting);
    destruct (is_not_None daily_budget);
    destruct (is_not_None lifetime_budget);
    destruct (is_not_None bid_amount);
    destruct (truthy (opt_str bid_strategy));
    destruct (truthy (opt_str start_time));
    destruct (truthy (opt_str end_time));
    simpl; repeat split; reflexivity.
Qed.

(** X12.  The parameters of [create_adset] are a dict in a fixed order:
    the six keys of the literal, then the optional ones that are sent, in
    the order of the assignments; no key occurs twice. *)
Theorem create_adset_params_keys
  (campaign_id name : option string) (status : string)
  (daily_budget lifetime_budget targeting : value)
  (optimization_goal billing_event : option string) (bid_amount : value)
  (bid_strategy start_time end_time : option string) :
  let params := create_adset_params campaign_id name status daily_budget
                  lifetime_budget targeting optimization_goal billing_event
                  bid_amount bid_strategy start_time end_time in
  keys params
  = (["name"; "campaign_id"; "status"; "optimization_goal"; "billing_event";
      "targeting"]
       ++ (if is_not_None daily_budget then ["daily_budget"] else [])
       ++ (if is_not_None lifetime_budget then ["lifetime_budget"] else [])
       ++ (if is_not_None bid_amount then ["bid_amount"] else [])
       ++ (if truthy (opt_str bid_strategy) then ["bid_strategy"] else [])
       ++ (if truthy (opt_str start_time) then ["start_time"] else [])
       ++ (if truthy (opt_str end_time) then ["end_time"] else []))%list
  /\ distinct (keys params) = true.
Proof.
  unfold create_adset_params, set_str_if_not_None, set_if_truthy.
  destruct (is_not_None daily_budget);
    destruct (is_not_None lifetime_budget);
    destruct (is_not_None bid_amount);
    destruct (truthy (opt_str bid_strategy));
    destruct (truthy (opt_str start_time));
    destruct (truthy (opt_str end_time));
    simpl; split; reflexivity.
Qed.

(** X13.  What [update_adset] sends, and in which order.  An argument is
    sent exactly when it is not [None], an empty text included: the
    frequency caps as given, the bid amount as its decimal text, the
    texts as they are, a targeting mapping as its [json.dumps] text and
    any other targeting as it is.  The keys follow the order of the
    assignments and none occurs twice. *)
Theorem update_adset_params_contents (frequency_control_specs : value)
  (bid_strategy : option string) (bid_amount : option Z)
  (status : option string) (targeting : value)
  (optimization_goal : option string) :
  let params := update_adset_params frequency_control_specs bid_strategy
                  bid_amount status targeting optimization_goal in
  keys params
  = ((if is_not_None frequency_control_specs
      then ["frequency_control_specs"] else [])
       ++ (if given bid_strategy then ["bid_strategy"] else [])
       ++ (if given bid_amount then ["bid_amount"] else [])
       ++ (if given status then ["status"] else [])
       ++ (if given optimization_goal then ["optimization_goal"] else [])
       ++ (if is_not_None targeting then ["targeting"] else []))%list
  /\ distinct (keys params) = true
  /\ dict_get params "frequency_control_specs"
     = (if is_not_None frequency_control_specs
        then Some frequency_control_specs else None)
  /\ dict_get params "bid_strategy" = option_map VStr bid_strategy
  /\ dict_get params "bid_amount"
     = option_map (fun z => VStr (int_repr z)) bid_amount
  /\ dict_get params "status" = option_map VStr status
  /\ dict_get params "optimization_goal" = option_map VStr optimization_goal
  /\ dict_get params "targeting"
     = (if is_not_None targeting
        then Some (if isinstance_dict targeting
                   then VStr (dumps None targeting) else targeting)
        else None).
Proof.
  unfold update_adset_params, set_if_not_None, set_str_if_not_None.
  destruct (is_not_None frequency_control_specs);
    destruct bid_strategy; destruct bid_amount; destruct status;
    destruct optimization_goal;
    destruct (is_not_None targeting);
    destruct (isinstance_dict targeting);
    simpl; repeat split; reflexivity.
Qed.

(** X14.  [update_adset] first requires an ad set: with an empty
    [adset_id] it returns [No ad set ID provided] whatever updates are
    given.  With an ad set named, it calls the dispatcher exactly when at
    least one update argument is not [None]: once, by [POST], on the path
    [adset_id]; with none it returns [No update parameters provided]. *)
Theorem update_adset_validation (adset_id : string)
  (frequency_control_specs : value) (bid_strategy : option string)
  (bid_amount : option Z) (status : option string) (targeting : value)
  (optimization_goal access_token : option string) (w : World) :
  let call := update_adset adset_id frequency_control_specs bid_strategy
                bid_amount status targeting optimization_goal access_token in
  if negb (truthy (VStr adset_id)) then
    call = Return (error_envelope "No ad set ID provided")
    /\ trace_of (exec call w) = []
    /\ world_of (exec call w) = w
  else if is_not_None frequency_control_specs || given bid_strategy
          || given bid_amount || given status || given optimization_goal
          || is_not_None targeting
  then
    exists r,
      trace_of (exec call w)
      = [Called_make_api_request adset_id access_token
           (update_adset_params frequency_control_specs bid_strategy
              bid_amount status targeting optimization_goal)
           (Some "POST") r]
  else
    call = Return (error_envelope "No update parameters provided")
    /\ trace_of (exec call w) = []
    /\ world_of (exec call w) = w.
Proof.
  unfold update_adset.
  destruct (truthy (VStr adset_id)); simpl negb; cbv iota;
    [ | repeat split; reflexivity ].
  cbv zeta.
  unfold update_adset_params, set_if_not_None, set_str_if_not_None.
  destruct (is_not_None frequency_control_specs);
    destruct bid_strategy; destruct bid_amount; destruct status;
    destruct optimization_goal;
    destruct (is_not_None targeting);
    destruct (isinstance_dict targeting);
    simpl;
    try (repeat split; reflexivity);
    destruct (dispatcher _ _ _ _ w) as [[data | str_e | class] w'];
    eexists; reflexivity.
Qed.

Lemma well_formed_opt_str (o : option string) : well_formed (opt_str o) = true.
Proof. destruct o; reflexivity. Qed.

Lemma well_formed_set_if_not_None (d : dict) (k : string) (v : value) :
  well_formed (VDict d) = true ->
  well_formed v = true ->
  well_formed (VDict (set_if_not_None d k v)) = true.
Proof.
  intros Hd Hv. unfold set_if_not_None.
  destruct (is_not_None v); [ now apply DictFacts.well_formed_dict_set | exact Hd ].
Qed.

Lemma well_formed_set_str_if_not_None (d : dict) (k : string) (v : value) :
  well_formed (VDict d) = true ->
  well_formed (VDict (set_str_if_not_None d k v)) = true.
Proof.
  intros Hd. unfold set_str_if_not_None.
  destruct (is_not_None v); [ now apply DictFacts.well_formed_dict_set | exact Hd ].
Qed.

Lemma well_formed_set_if_truthy (d : dict) (k : string) (v : value) :
  well_formed (VDict d) = true ->
  well_formed v = true ->
  well_formed (VDict (set_if_truthy d k v)) = true.
Proof.
  intros Hd Hv. unfold set_if_truthy.
  destruct (truthy v); [ now apply DictFacts.well_formed_dict_set | exact Hd ].
Qed.

Lemma well_formed_create_adset_params
  (campaign_id name : option string) (status : string)
  (daily_budget lifetime_budget targeting : value)
  (optimization_goal billing_event : option string) (bid_amount : value)
  (bid_strategy start_time end_time : option string) :
  well_formed
    (VDict (create_adset_params campaign_id name status daily_budget
              lifetime_budget targeting optimization_goal billing_event
              bid_amount bid_strategy start_time end_time)) = true.
Proof.
  unfold create_adset_params.
  repeat first [ apply well_formed_set_if_truthy;
                 [ | apply well_formed_opt_str ]
               | apply well_formed_set_str_if_not_None ].
  cbv zeta.
  change (distinct ["name"; "campaign_id"; "status"; "optimization_goal";
                    "billing_event"; "targeting"]
          && (well_formed (opt_str name)
              && (well_formed (opt_str campaign_id)
                  && (true
                      && (well_formed (opt_str optimization_goal)
                          && (well_formed (opt_str billing_event)
                              && (true && true)))))) = true).
  now rewrite !well_formed_opt_str.
Qed.

Lemma well_formed_update_adset_params (frequency_control_specs : value)
  (bid_strategy : option string) (bid_amount : option Z)
  (status : option string) (targeting : value)
  (optimization_goal : option string) :
  well_formed frequency_control_specs = true ->
  well_formed targeting = true ->
  well_formed
    (VDict (update_adset_params frequency_control_specs bid_strategy
              bid_amount status targeting optimization_goal)) = true.
Proof.
  intros Hf Ht. unfold update_adset_params. cbv zeta.
  assert (forall d,
             well_formed (VDict d) = true ->
             well_formed
               (VDict (if is_not_None targeting
                       then if isinstance_dict targeting
                            then dict_set d "targeting"
                                   (VStr (dumps None targeting))
                            else dict_set d "targeting" targeting
                       else d)) = true) as Hlast.
  { intros d Hd.
    destruct (is_not_None targeting); [ | exact Hd ].
    destruct (isinstance_dict targeting);
      now apply DictFacts.well_formed_dict_set. }
  apply Hlast.
  repeat first [ apply well_formed_set_if_not_None;
                 [ | first [ apply well_formed_opt_str | exact Hf ] ]
               | apply well_formed_set_str_if_not_None ].
  reflexivity.
Qed.

(** X15.  The targeting text a write tool sends decodes to what the tool
    was given: [json.loads] of the [targeting] parameter of [create_adset]
    is the targeting argument, or the default targeting when the argument
    is [None] or empty; [json.loads] of the one of [update_adset] is the
    targeting mapping.  The argument is any value whose dicts have
    distinct keys. *)
Theorem sent_targeting_decodes
  (campaign_id name : option string) (status : string)
  (daily_budget lifetime_budget targeting : value)
  (optimization_goal billing_event : option string) (bid_amount : value)
  (bid_strategy start_time end_time : option string)
  (frequency_control_specs : value) (update_bid_amount : option Z)
  (update_status : option string) :
  well_formed targeting = true ->
  (exists text,
      dict_get
        (create_adset_params campaign_id name status daily_budget
           lifetime_budget targeting optimization_goal billing_event
           bid_amount bid_strategy start_time end_time) "targeting"
      = Some (VStr text)
      /\ loads text
         = Ok (if truthy targeting then targeting else default_targeting))
  /\ (isinstance_dict targeting = true ->
      exists text,
        dict_get
          (update_adset_params frequency_control_specs bid_strategy
             update_bid_amount update_status targeting optimization_goal)
          "targeting"
        = Some (VStr text)
        /\ loads text = Ok targeting).
Proof.
  intros Hwf. split.
  - destruct (AdsetsSpec.create_adset_params_flat campaign_id name status
                daily_budget lifetime_budget targeting optimization_goal
                billing_event bid_amount bid_strategy start_time end_time)
      as [_ E].
    eexists. split; [ exact E | ].
    apply JsonFacts.loads_dumps.
    destruct (truthy targeting); [ exact Hwf | reflexivity ].
  - intros Hd.
    destruct (AdsetsSpec.update_adset_params_shape frequency_control_specs
                bid_strategy update_bid_amount update_status targeting
                optimization_goal) as (E & _).
    eexists. split; [ exact (E Hd) | ].
    now apply JsonFacts.loads_dumps.
Qed.

Lemma well_formed_failure_envelope (msg str_e : string) (params : dict) :
  well_formed (VDict params) = true ->
  well_formed
    (VDict [("error", VStr msg); ("details", VStr str_e);
            ("params_sent", VDict params)]) = true.
Proof.
  intros H.
  change (distinct ["error"; "details"; "params_sent"]
          && (true && (true && (well_formed (VDict params) && true))) = true).
  now rewrite H.
Qed.

(** X16.  The envelope a write tool returns when the dispatcher raises is
    a JSON text that [json.loads] decodes to the mapping of [error],
    [details] and [params_sent], the last being the parameters of the
    request: always for [create_adset], whose parameters are all texts,
    and for [update_adset] when the frequency caps and the targeting it
    was given are values whose dicts have distinct keys. *)
Theorem failure_envelopes_decode
  (account_id campaign_id name : option string) (status : string)
  (daily_budget lifetime_budget targeting : value)
  (optimization_goal billing_event : option string) (bid_amount : value)
  (bid_strategy start_time end_time access_token : option string)
  (adset_id : string) (frequency_control_specs : value)
  (update_bid_amount : option Z) (update_status : option string)
  (w : World) :
  (forall endpoint token params method str_e,
      In (Called_make_api_request endpoint token params method (Raised str_e))
         (trace_of
            (exec (create_adset account_id campaign_id name status
                     daily_budget lifetime_budget targeting optimization_goal
                     billing_event bid_amount bid_strategy start_time end_time
                     access_token) w)) ->
      exists text,
        result_of
          (exec (create_adset account_id campaign_id name status daily_budget
                   lifetime_budget targeting optimization_goal billing_event
                   bid_amount bid_strategy start_time end_time access_token) w)
        = Returns text
        /\ loads text
           = Ok (VDict [("error", VStr "Failed to create ad set");
                        ("details", VStr str_e);
                        ("params_sent", VDict params)]))
  /\ (well_formed frequency_control_specs = true ->
      well_formed targeting = true ->
      forall endpoint token params method str_e,
        In (Called_make_api_request endpoint token params method (Raised str_e))
           (trace_of
              (exec (update_adset adset_id frequency_control_specs bid_strategy
                       update_bid_amount update_status targeting
                       optimization_goal access_token) w)) ->
        exists text,
          result_of
            (exec (update_adset adset_id frequency_control_specs bid_strategy
                     update_bid_amount update_status targeting
                     optimization_goal access_token) w)
          = Returns text
          /\ loads text
             = Ok (VDict [("error",
                           VStr ("Failed to update ad set " ++ adset_id));
                          ("details", VStr str_e);
                          ("params_sent", VDict params)])).
Proof.
  split.
  - intros endpoint token params method str_e Hin.
    destruct (AdsetsSpec.run_create_adset World accounts_service dispatcher
                account_id campaign_id name status daily_budget lifetime_budget
                targeting optimization_goal billing_event bid_amount
                bid_strategy start_time end_time access_token w)
      as [ E | (ep & r & Etr & Eres) ]; rewrite ?E, ?Etr in Hin.
    + contradiction.
    + destruct Hin as [Hev | []]. injection Hev as E1 E2 E3 E4 E5. subst.
      rewrite Eres. eexists. split; [ reflexivity | ].
      apply JsonFacts.loads_dumps. apply well_formed_failure_envelope.
      apply well_formed_create_adset_params.
  - intros Hf Ht endpoint token params method str_e Hin.
    destruct (AdsetsSpec.run_update_adset World accounts_service dispatcher
                adset_id frequency_control_specs bid_strategy
                update_bid_amount update_status targeting optimization_goal
                access_token w)
      as [ E | (r & Etr & Eres) ]; rewrite ?E, ?Etr in Hin.
    + contradiction.
    + destruct Hin as [Hev | []]. injection Hev as E1 E2 E3 E4 E5. subst.
      rewrite Eres. eexists. split; [ reflexivity | ].
      apply JsonFacts.loads_dumps. apply well_formed_failure_envelope.
      now apply well_formed_update_adset_params.
Qed.

End AnyWorld.

(** ** The texts the tools return *)

Lemma plain_text_append (a b : string) :
  plain_text (a ++ b) = plain_text a && plain_text b.
Proof.
  induction a as [ | c a IHa ].
  - reflexivity.
  - change (String c a ++ b) with (String c (a ++ b)).
    simpl plain_text. now rewrite IHa, andb_assoc.
Qed.

Lemma plain_escape_char (c : ascii) : plain_text (escape_char c) = true.
Proof. destruct c as [[] [] [] [] [] [] [] []]; vm_compute; reflexivity. Qed.

Lemma plain_escape_chars (s : string) : plain_text (escape_chars s) = true.
Proof.
  induction s as [ | c s IHs ]; [ reflexivity | ].
  simpl escape_chars. now rewrite plain_text_append, plain_escape_char, IHs.
Qed.

Lemma plain_basestring (s : string) :
  plain_text (encode_basestring_ascii s) = true.
Proof.
  unfold encode_basestring_ascii.
  change (plain_char quote && plain_text (escape_chars s ++ str1 quote) = true).
  now rewrite plain_text_append, plain_escape_chars.
Qed.

Lemma plain_uint (u : Decimal.uint) :
  plain_text (NilEmpty.string_of_uint u) = true.
Proof. induction u; simpl; auto. Qed.

Lemma plain_nilzero_uint (u : Decimal.uint) :
  plain_text (NilZero.string_of_uint u) = true.
Proof.
  unfold NilZero.string_of_uint.
  destruct u; [ reflexivity | apply plain_uint .. ].
Qed.

Lemma plain_int_repr (z : Z) : plain_text (int_repr z) = true.
Proof.
  unfold int_repr.
  destruct (Z.to_int z) as [u | u]; simpl NilZero.string_of_int.
  - apply plain_nilzero_uint.
  - change (plain_char "-" && plain_text (NilZero.string_of_uint u) = true).
    now rewrite plain_nilzero_uint.
Qed.

Lemma plain_spaces (n : nat) : plain_text (spaces n) = true.
Proof. induction n; simpl; auto. Qed.

Lemma plain_newline_indent (indent : option nat) (level : nat) :
  plain_text (newline_indent indent level) = true.
Proof.
  destruct indent as [ n | ]; simpl; [ apply plain_spaces | reflexivity ].
Qed.

Lemma plain_item_separator (indent : option nat) :
  plain_text (item_separator indent) = true.
Proof. destruct indent; reflexivity. Qed.

Lemma plain_concat (sep : string) (l : list string) :
  plain_text sep = true ->
  Forall (fun s => plain_text s = true) l ->
  plain_text (String.concat sep l) = true.
Proof.
  intros Hsep Hl. induction Hl as [ | x l Hx Hl IH ]; [ reflexivity | ].
  destruct l as [ | y l ]; [ exact Hx | ].
  rewrite JsonFacts.concat_cons2, !plain_text_append, Hx, Hsep. exact IH.
Qed.

Lemma plain_iterencode (indent : option nat) (v : value) :
  forall level, plain_text (iterencode indent level v) = true.
Proof.
  induction v as [ | b | z | s | l IHl | d IHd ] using JsonFacts.value_ind';
    intros level.
  - reflexivity.
  - destruct b; reflexivity.
  - apply plain_int_repr.
  - apply plain_basestring.
  - destruct l as [ | x xs ]; [ reflexivity | ].
    assert (plain_text
              (String.concat
                 (item_separator indent ++ newline_indent indent (S level))
                 (map (iterencode indent (S level)) (x :: xs))) = true) as HC.
    { apply plain_concat.
      - now rewrite plain_text_append, plain_item_separator,
          plain_newline_indent.
      - apply Forall_map. apply Forall_forall. intros y Hy.
        rewrite Forall_forall in IHl. now apply IHl. }
    change (iterencode indent level (VList (x :: xs)))
      with ("["
              ++ newline_indent indent (S level)
              ++ String.concat
                   (item_separator indent ++ newline_indent indent (S level))
                   (map (iterencode indent (S level)) (x :: xs))
              ++ newline_indent indent level ++ "]").
    rewrite !plain_text_append, HC, !plain_newline_indent. reflexivity.
  - destruct d as [ | kv d' ]; [ reflexivity | ].
    set (member := fun kv : string * value =>
                     encode_basestring_ascii (fst kv) ++ key_separator
                       ++ iterencode indent (S level) (snd kv)).
    assert (plain_text
              (String.concat
                 (item_separator indent ++ newline_indent indent (S level))
                 (map member (kv :: d'))) = true) as HC.
    { apply plain_concat.
      - now rewrite plain_text_append, plain_item_separator,
          plain_newline_indent.
      - apply Forall_map. apply Forall_forall. intros y Hy.
        unfold member. rewrite !plain_text_append, plain_basestring.
        rewrite Forall_forall in IHd. now rewrite (IHd y Hy). }
    change (iterencode indent level (VDict (kv :: d')))
      with ("{"
              ++ newline_indent indent (S level)
              ++ String.concat
                   (item_separator indent ++ newline_indent indent (S level))
                   (map member (kv :: d'))
              ++ newline_indent indent level ++ "}").
    rewrite !plain_text_append, HC, !plain_newline_indent. reflexivity.
Qed.

Section ReturnedTexts.

Variable World : Type.
Variable accounts_service :
  string -> string -> option string -> World -> reply string * World.
Variable dispatcher :
  string -> option string -> dict -> option string -> World ->
  reply value * World.

Notation "'exec' t w" := (run accounts_service dispatcher t w)
  (at level 10, t at level 9, w at level 9, only parsing).

Ltac returned_text :=
  simpl;
  let H := fresh "H" in
  intros H;
  first [ discriminate H
        | injection H as <-; eexists; reflexivity ].

Lemma get_adsets_request_returns_dumps (access_token : option string)
  (id : value) (limit : Z) (campaign_id : string) (w : World) (text : string) :
  result_of (exec (get_adsets_request access_token id limit campaign_id) w)
  = Returns text ->
  exists v, text = dumps (Some 2%nat) v.
Proof.
  destruct (AdsetsSpec.run_get_adsets_request World accounts_service dispatcher
              access_token id limit campaign_id w)
    as (ep & ps & r & w' & _ & _ & _ & _ & _ & Eres).
  rewrite Eres. destruct r; returned_text.
Qed.

Lemma get_adsets_returns_dumps (access_token account_id : option string)
  (limit : Z) (campaign_id : string) (w : World) (text : string) :
  result_of (exec (get_adsets access_token account_id limit campaign_id) w)
  = Returns text ->
  exists v, text = dumps (Some 2%nat) v.
Proof.
  unfold get_adsets.
  destruct (truthy (opt_str account_id)); simpl negb; cbv iota;
    [ apply get_adsets_request_returns_dumps | ].
  simpl.
  destruct (accounts_service _ _ _ w) as [[s | str_e | class] w']; simpl;
    [ | discriminate .. ].
  unfold json_loads.
  destruct (loads s) as [ v | | ]; simpl; try discriminate.
  destruct v as [ | b | z | t | l | d ]; simpl; try discriminate.
  - destruct (is_substring "data" t); returned_text.
  - destruct (existsb (is_str "data") l); returned_text.
  - unfold dict_has.
    destruct (dict_get d "data") as [ x | ] eqn:Ed; simpl; [ | returned_text ].
    destruct (truthy x) eqn:Et; simpl; [ | returned_text ].
    destruct x as [ | b | z | t | l | a ]; simpl; try discriminate.
    + destruct t as [ | c t ]; simpl; discriminate.
    + destruct l as [ | first l ]; simpl; [ discriminate | ].
      destruct first as [ | b | z | t | l' | a ]; simpl; try discriminate.
      destruct (dict_get a "id") as [ id | ]; simpl; [ | discriminate ].
      apply get_adsets_request_returns_dumps.
Qed.

Lemma get_adset_details_returns_dumps (access_token adset_id : option string)
  (w : World) (text : string) :
  result_of (exec (get_adset_details access_token adset_id) w) = Returns text ->
  exists v, text = dumps (Some 2%nat) v.
Proof.
  unfold get_adset_details.
  destruct (truthy (opt_str adset_id)); simpl negb; cbv iota;
    [ | returned_text ].
  cbv zeta. simpl.
  destruct (dispatcher _ _ _ _ w) as [[data | str_e | class] w']; simpl;
    [ | discriminate .. ].
  destruct (contains data "frequency_control_specs") as [ [ | ] | e ];
    simpl; try discriminate; try returned_text.
  destruct (setitem data "_meta" _) as [ data' | e ]; returned_text.
Qed.

Lemma create_adset_returns_dumps
  (account_id campaign_id name : option string) (status : string)
  (daily_budget lifetime_budget targeting : value)
  (optimization_goal billing_event : option string) (bid_amount : value)
  (bid_strategy start_time end_time access_token : option string) (w : World)
  (text : string) :
  result_of
    (exec (create_adset account_id campaign_id name status daily_budget
             lifetime_budget targeting optimization_goal billing_event
             bid_amount bid_strategy start_time end_time access_token) w)
  = Returns text ->
  exists v, text = dumps (Some 2%nat) v.
Proof.
  unfold create_adset.
  destruct (truthy (opt_str account_id)); [ | returned_text ].
  destruct (truthy (opt_str campaign_id)); [ | returned_text ].
  destruct (truthy (opt_str name)); [ | returned_text ].
  destruct (truthy (opt_str optimization_goal)); [ | returned_text ].
  destruct (truthy (opt_str billing_event)); [ | returned_text ].
  simpl negb. cbv iota. cbv zeta. simpl.
  destruct (dispatcher _ _ _ _ w) as [[data | str_e | class] w']; returned_text.
Qed.

Lemma update_adset_returns_dumps (adset_id : string)
  (frequency_control_specs : value) (bid_strategy : option string)
  (bid_amount : option Z) (status : option string) (targeting : value)
  (optimization_goal access_token : option string) (w : World)
  (text : string) :
  result_of
    (exec (update_adset adset_id frequency_control_specs bid_strategy
             bid_amount status targeting optimization_goal access_token) w)
  = Returns text ->
  exists v, text = dumps (Some 2%nat) v.
Proof.
  unfold update_adset.
  destruct (truthy (VStr adset_id)); [ | returned_text ].
  simpl negb. cbv iota. cbv zeta.
  destruct (update_adset_params frequency_control_specs bid_strategy
              bid_amount status targeting optimization_goal)
    as [ | kv ps ]; [ returned_text | ].
  simpl.
  destruct (dispatcher _ _ _ _ w) as [[data | str_e | class] w']; returned_text.
Qed.

(** X17.  Whatever a tool returns, a payload or an error envelope, is the
    [json.dumps(..., indent=2)] text of some value, and holds printable
    ASCII characters and line feeds only: every other character of a
    payload or of an argument comes out escaped. *)
Theorem tools_return_plain_json (w : World) (text : string) :
  (forall access_token account_id limit campaign_id,
      result_of (exec (get_adsets access_token account_id limit campaign_id) w)
      = Returns text ->
      (exists v, text = dumps (Some 2%nat) v) /\ plain_text text = true)
  /\ (forall access_token adset_id,
        result_of (exec (get_adset_details access_token adset_id) w)
        = Returns text ->
        (exists v, text = dumps (Some 2%nat) v) /\ plain_text text = true)
  /\ (forall account_id campaign_id name status daily_budget lifetime_budget
             targeting optimization_goal billing_event bid_amount bid_strategy
             start_time end_time access_token,
        result_of
          (exec (create_adset account_id campaign_id name status daily_budget
                   lifetime_budget targeting optimization_goal billing_event
                   bid_amount bid_strategy start_time end_time access_token) w)
        = Returns text ->
        (exists v, text = dumps (Some 2%nat) v) /\ plain_text text = true)
  /\ (forall adset_id frequency_control_specs bid_strategy bid_amount status
             targeting optimization_goal access_token,
        result_of
          (exec (update_adset adset_id frequency_control_specs bid_strategy
                   bid_amount status targeting optimization_goal
                   access_token) w)
        = Returns text ->
        (exists v, text = dumps (Some 2%nat) v) /\ plain_text text = true).
Proof.
  assert (forall t, (exists v, t = dumps (Some 2%nat) v) ->
                    (exists v, t = dumps (Some 2%nat) v)
                    /\ plain_text t = true) as Hplain.
  { intros t [v ->]. split; [ eauto | apply plain_iterencode ]. }
  split; [ | split; [ | split ] ]; intros; apply Hplain.
  - eapply get_adsets_returns_dumps; eauto.
  - eapply get_adset_details_returns_dumps; eauto.
  - eapply create_adset_returns_dumps; eauto.
  - eapply update_adset_returns_dumps; eauto.
Qed.

End ReturnedTexts.

End Coverage.

(* ================================================================== *)
(** * The rest of the behaviour, on scripted worlds *)
(* ================================================================== *)

Module CoverageExamples.
Import Py Json Tool Adsets Scenario Shape.

Lemma get_adsets_with_account_witness :
  truthy (VStr "act_1") = true
  /\ trace_of
       (run no_accounts (answering (VDict adset_payload))
          (get_adsets None (Some "act_1") 10 EmptyString) 0%nat)
     = [Called_make_api_request "act_1/adsets" None
          [("fields", VStr adsets_fields); ("limit", VInt 10)] None
          (Returned (VDict adset_payload))].
Proof.
  split; [ reflexivity | ].
  destruct (Coverage.get_adsets_with_account World no_accounts
              (answering (VDict adset_payload)) None "act_1" 10 0%nat eq_refl)
    as (r & Er & Etr & _).
  rewrite Etr. subst r. reflexivity.
Defined.

Lemma read_tools_propagate_faults_witness :
  result_of (run one_account failing (get_adset_details None (Some "123")) 0%nat)
  = Raises (Fault "Connection refused").
Proof.
  destruct (Coverage.read_tools_propagate_faults World one_account failing
              0%nat) as (_ & H & _).
  eapply H. left. reflexivity.
Defined.


Lemma tools_make_one_request_witness :
  truthy (opt_str (Some "act_1")) = true
  /\ filter is_query
       (trace_of
          (run one_account failing
             (get_adsets None (Some "act_1") 10 EmptyString) 0%nat))
     = [].
Proof.
  split; [ reflexivity | ].
  destruct (Coverage.tools_make_one_request World one_account failing 0%nat)
    as [H _].
  destruct (H None (Some "act_1") 10%Z EmptyString) as (_ & _ & H3).
  apply H3. reflexivity.
Defined.

Lemma get_adsets_account_without_id_witness :
  truthy (opt_str None) = false
  /\ result_of
       (run account_without_id failing (get_adsets None None 10 EmptyString)
          0%nat)
     = Raises KeyError.
Proof.
  split; [ reflexivity | ].
  destruct (Coverage.get_adsets_account_without_id World account_without_id
              failing None None 10 EmptyString 0%nat
              (dumps None
                 (VDict [("data", VList [VDict [("name", VStr "Main")]])]))
              [("data", VList [VDict [("name", VStr "Main")]])]
              (VDict [("name", VStr "Main")]) []
              eq_refl eq_refl eq_refl eq_refl (or_introl eq_refl))
    as [E _].
  exact E.
Defined.

Lemma get_adset_details_request_witness :
  truthy (opt_str None) = false
  /\ get_adset_details None None
     = Return (error_envelope "No ad set ID provided").
Proof.
  split; [ reflexivity | ].
  destruct (Coverage.get_adset_details_request World one_account failing
              None None 0%nat) as [H _].
  apply H. reflexivity.
Defined.

Lemma get_adset_details_note_keeps_fields_witness :
  dict_has adset_payload "frequency_control_specs" = false
  /\ result_of
       (run no_accounts (answering (VDict adset_payload))
          (get_adset_details None (Some "123")) 0%nat)
     = Returns
         (dumps (Some 2%nat)
            (VDict (adset_payload ++ [("_meta", meta_note)])%list)).
Proof.
  split; [ reflexivity | ].
  destruct (Coverage.get_adset_details_note_keeps_fields World no_accounts
              (answering (VDict adset_payload)) None (Some "123") 0%nat
              "123" None [("fields", VStr adset_details_fields)] None
              adset_payload (or_introl eq_refl) eq_refl)
    as (d' & E & _ & _ & Happ & _).
  rewrite E, (Happ eq_refl). reflexivity.
Defined.

Lemma get_adset_details_other_payloads_witness :
  isinstance_dict (VList []) = false
  /\ result_of
       (run no_accounts (answering (VList []))
          (get_adset_details None (Some "123")) 0%nat)
     = Raises TypeError.
Proof.
  split; [ reflexivity | ].
  rewrite (Coverage.get_adset_details_other_payloads World no_accounts
             (answering (VList [])) None (Some "123") 0%nat
             "123" None [("fields", VStr adset_details_fields)] None
             (VList []) (or_introl eq_refl) eq_refl).
  reflexivity.
Defined.

Lemma tool_outputs_decode_witness :
  well_formed (VDict adset_payload) = true
  /\ exists text,
       result_of
         (run no_accounts (answering (VDict adset_payload))
            (get_adsets None (Some "act_1") 10 EmptyString) 0%nat)
       = Returns text
       /\ loads text = Ok (VDict adset_payload).
Proof.
  split; [ reflexivity | ].
  destruct (Coverage.tool_outputs_decode World no_accounts
              (answering (VDict adset_payload)) 0%nat (VDict adset_payload)
              adset_payload eq_refl eq_refl) as [H _].
  eapply H. left. reflexivity.
Defined.

Lemma sent_targeting_decodes_witness :
  well_formed VNone = true
  /\ exists text,
       dict_get
         (create_adset_params (Some "456") (Some "Spring") "PAUSED"
            (VInt 0) VNone VNone (Some "REACH") (Some "IMPRESSIONS") VNone
            None None None) "targeting"
       = Some (VStr text)
       /\ loads text = Ok default_targeting.
Proof.
  split; [ reflexivity | ].
  destruct (Coverage.sent_targeting_decodes (Some "456") (Some "Spring")
              "PAUSED" (VInt 0) VNone VNone (Some "REACH")
              (Some "IMPRESSIONS") VNone None None None
              frequency_caps None None eq_refl) as [H _].
  exact H.
Defined.

Lemma failure_envelopes_decode_witness :
  well_formed frequency_caps = true
  /\ well_formed VNone = true
  /\ exists text,
       result_of
         (run no_accounts failing
            (update_adset "123" frequency_caps None None None VNone None None)
            0%nat)
       = Returns text
       /\ loads text
          = Ok (VDict [("error", VStr "Failed to update ad set 123");
                       ("details", VStr "Connection refused");
                       ("params_sent",
                        VDict [("frequency_control_specs", frequency_caps)])]).
Proof.
  split; [ reflexivity | split; [ reflexivity | ] ].
  destruct (Coverage.failure_envelopes_decode World no_accounts failing
              None None None "PAUSED" VNone VNone VNone None None VNone
              None None None None "123" frequency_caps None None 0%nat)
    as [_ H].
  apply (H eq_refl eq_refl "123" None
           [("frequency_control_specs", frequency_caps)] (Some "POST")
           "Connection refused").
  left. reflexivity.
Defined.

Lemma tools_return_plain_json_witness :
  result_of (run one_account failing (get_adset_details None None) 0%nat)
  = Returns (error_envelope "No ad set ID provided")
  /\ plain_text (error_envelope "No ad set ID provided") = true.
Proof.
  split; [ reflexivity | ].
  destruct (Coverage.tools_return_plain_json World one_account failing 0%nat
              (error_envelope "No ad set ID provided")) as (_ & H & _).
  destruct (H None None eq_refl) as [_ P].
  exact P.
Defined.

End CoverageExamples.

(* ================================================================== *)
(** * The fuel of the decoder *)
(* ================================================================== *)

Module FuelFacts.
Import Py Json.

Lemma scan_bind_ok {A B : Type} (m : scan A) (k : A -> scan B) (b : B) :
  scan_bind m k = Ok b -> exists a, m = Ok a /\ k a = Ok b.
Proof. destruct m as [ a | | ]; simpl; intros H; try discriminate H; eauto. Qed.

Lemma skip_ws_le (s : string) :
  (String.length (skip_ws s) <= String.length s)%nat.
Proof.
  induction s as [ | c s IHs ]; simpl; [ lia | ].
  destruct (is_ws c); simpl; lia.
Qed.

Lemma skip_ws_cons_le (s : string) (c : ascii) (r : string) :
  skip_ws s = String c r -> (S (String.length r) <= String.length s)%nat.
Proof.
  intros H. pose proof (skip_ws_le s) as Hle. rewrite H in Hle. exact Hle.
Qed.

Lemma cons_char_ok (c : ascii) (m : scan (string * string)) (t r : string) :
  cons_char c m = Ok (t, r) -> exists t', m = Ok (t', r).
Proof.
  unfold cons_char. intros H. apply scan_bind_ok in H as ([t' r'] & E & H).
  injection H as _ <-. eauto.
Qed.

Lemma scanstring_lt (n : nat) :
  forall s t r,
    (String.length s <= n)%nat ->
    scanstring s = Ok (t, r) ->
    (String.length r < String.length s)%nat.
Proof.
  induction n as [ | n IH ]; intros s t r Hn H.
  - destruct s; [ discriminate H | simpl in Hn; lia ].
  - destruct s as [ | c s' ]; [ discriminate H | ].
    simpl in Hn. simpl in H.
    destruct (Ascii.eqb c quote).
    + injection H as _ <-. simpl. lia.
    + destruct (Ascii.eqb c backslash).
      * destruct s' as [ | e s'' ]; [ discriminate H | ].
        destruct (Ascii.eqb e "u").
        -- destruct s'' as [ | h1 [ | h2 [ | h3 [ | h4 s3 ] ] ] ];
             try discriminate H.
           destruct (decode_uXXXX h1 h2 h3 h4) as [ k | ];
             [ | discriminate H ].
           destruct (k <? 256)%N; [ | discriminate H ].
           apply cons_char_ok in H as [t' H].
           apply IH in H; simpl in *; lia.
        -- destruct (unescape e) as [ ch | ]; [ | discriminate H ].
           apply cons_char_ok in H as [t' H].
           apply IH in H; simpl in *; lia.
      * destruct (ord c <? 32)%N; [ discriminate H | ].
        apply cons_char_ok in H as [t' H].
        apply IH in H; simpl in *; lia.
Qed.

Lemma strip_prefix_length (p s r : string) :
  strip_prefix p s = Some r ->
  String.length s = (String.length p + String.length r)%nat.
Proof.
  revert s. induction p as [ | a p IHp ]; intros s H; simpl in H.
  - now injection H as <-.
  - destruct s as [ | b s ]; [ discriminate H | ].
    destruct (Ascii.eqb a b); [ | discriminate H ].
    simpl. now rewrite (IHp s H).
Qed.

Lemma scan_digits_le (s : string) :
  (String.length (snd (scan_digits s)) <= String.length s)%nat.
Proof.
  induction s as [ | c s IHs ]; simpl; [ lia | ].
  destruct (digit_of c) as [ D | ]; [ | simpl; lia ].
  destruct (scan_digits s) as [u0 r0]. simpl in *. lia.
Qed.

Lemma scan_digits_digit (c : ascii) (s : string) :
  is_digit c = true ->
  snd (scan_digits (String c s)) = snd (scan_digits s).
Proof.
  intros H.
  destruct c as [[] [] [] [] [] [] [] []]; try discriminate H;
    simpl; destruct (scan_digits s); reflexivity.
Qed.

Lemma match_integer_lt (s : string) (i : Decimal.int) (r : string) :
  match_integer s = Some (i, r) ->
  (String.length r < String.length s)%nat.
Proof.
  assert (forall sign s1,
             match s1 with
             | EmptyString => None
             | String c s2 =>
                 if Ascii.eqb c "0" then
                   Some (sign (Decimal.D0 Decimal.Nil) : Decimal.int, s2)
                 else if is_digit c then
                   let (u, r) := scan_digits s1 in Some (sign u, r)
                 else None
             end = Some (i, r) ->
             (String.length r < String.length s1)%nat) as Hbody.
  { intros sign s1 H. destruct s1 as [ | c s2 ]; [ discriminate H | ].
    destruct (Ascii.eqb c "0").
    - injection H as _ <-. simpl. lia.
    - destruct (is_digit c) eqn:Hd; [ | discriminate H ].
      pose proof (scan_digits_digit c s2 Hd) as E.
      pose proof (scan_digits_le s2) as Hle.
      destruct (scan_digits (String c s2)) as [u0 r0].
      injection H as _ <-. simpl in E. subst r0. simpl. lia. }
  unfold match_integer. intros H.
  destruct s as [ | c s' ]; [ discriminate H | ].
  destruct (Ascii.eqb c "-").
  - apply (Hbody Decimal.Neg s') in H. simpl. lia.
  - apply (Hbody Decimal.Pos (String c s')) in H. exact H.
Qed.

Lemma scan_atom_lt (s : string) (v : value) (r : string) :
  scan_atom s = Ok (v, r) -> (String.length r < String.length s)%nat.
Proof.
  unfold scan_atom. intros H.
  destruct (strip_prefix "null" s) as [ r1 | ] eqn:E1.
  { injection H as _ <-. apply strip_prefix_length in E1. simpl in E1. lia. }
  destruct (strip_prefix "true" s) as [ r2 | ] eqn:E2.
  { injection H as _ <-. apply strip_prefix_length in E2. simpl in E2. lia. }
  destruct (strip_prefix "false" s) as [ r3 | ] eqn:E3.
  { injection H as _ <-. apply strip_prefix_length in E3. simpl in E3. lia. }
  destruct (match_integer s) as [ [i r4] | ] eqn:E4.
  - destruct (float_follows r4); [ discriminate H | ].
    injection H as _ <-. now apply match_integer_lt in E4.
  - destruct (is_some (strip_prefix "NaN" s)
              || is_some (strip_prefix "Infinity" s)
              || is_some (strip_prefix "-Infinity" s)); discriminate H.
Qed.

(** Every scanner reads at least one character of what it is given. *)
Lemma scanners_read (fuel : nat) :
  (forall s v r,
      scan_once fuel s = Ok (v, r) ->
      (String.length r < String.length s)%nat)
  /\ (forall s l r,
        JSONArray fuel s = Ok (l, r) ->
        (String.length r < String.length s)%nat)
  /\ (forall s l r,
        JSONObject fuel s = Ok (l, r) ->
        (String.length r < String.length s)%nat).
Proof.
  induction fuel as [ | n (IHv & IHa & IHo) ];
    [ repeat split; intros; discriminate | ].
  split; [ | split ].
  - intros s v r H. destruct s as [ | c s' ]; [ discriminate H | ].
    simpl in H.
    destruct (Ascii.eqb c quote).
    { apply scan_bind_ok in H as ([t r1] & Es & H). injection H as _ <-.
      apply (scanstring_lt _ s' t r1 (le_n _)) in Es. simpl. lia. }
    destruct (Ascii.eqb c "{").
    { destruct (skip_ws s') as [ | c1 s1 ] eqn:E; [ discriminate H | ].
      apply skip_ws_cons_le in E.
      destruct (Ascii.eqb c1 "}"); [ injection H as _ <-; simpl; lia | ].
      destruct (Ascii.eqb c1 quote); [ | discriminate H ].
      apply scan_bind_ok in H as ([ps r1] & Eo & H). injection H as _ <-.
      apply IHo in Eo. simpl. lia. }
    destruct (Ascii.eqb c "[").
    { destruct (skip_ws s') as [ | c1 s1 ] eqn:E; [ discriminate H | ].
      apply skip_ws_cons_le in E.
      destruct (Ascii.eqb c1 "]"); [ injection H as _ <-; simpl; lia | ].
      apply scan_bind_ok in H as ([items r1] & Ea & H). injection H as _ <-.
      apply IHa in Ea. simpl in *. lia. }
    now apply scan_atom_lt in H.
  - intros s l r H. simpl in H.
    apply scan_bind_ok in H as ([v r1] & Ev & H). apply IHv in Ev.
    destruct (skip_ws r1) as [ | c r2 ] eqn:E; [ discriminate H | ].
    apply skip_ws_cons_le in E.
    destruct (Ascii.eqb c "]"); [ injection H as _ <-; lia | ].
    destruct (Ascii.eqb c ","); [ | discriminate H ].
    apply scan_bind_ok in H as ([items r3] & Ea & H). injection H as _ <-.
    apply IHa in Ea. pose proof (skip_ws_le r2). lia.
  - intros s l r H. simpl in H.
    apply scan_bind_ok in H as ([key r1] & Es & H).
    apply (scanstring_lt _ s key r1 (le_n _)) in Es.
    destruct (skip_ws r1) as [ | c r2 ] eqn:E; [ discriminate H | ].
    apply skip_ws_cons_le in E.
    destruct (Ascii.eqb c ":"); [ | discriminate H ].
    apply scan_bind_ok in H as ([v r3] & Ev & H). apply IHv in Ev.
    pose proof (skip_ws_le r2) as Hle2.
    destruct (skip_ws r3) as [ | c' r4 ] eqn:E3; [ discriminate H | ].
    apply skip_ws_cons_le in E3.
    destruct (Ascii.eqb c' "}"); [ injection H as _ <-; lia | ].
    destruct (Ascii.eqb c' ","); [ | discriminate H ].
    destruct (skip_ws r4) as [ | c'' r5 ] eqn:E4; [ discriminate H | ].
    apply skip_ws_cons_le in E4.
    destruct (Ascii.eqb c'' quote); [ | discriminate H ].
    apply scan_bind_ok in H as ([ps r6] & Eo & H). injection H as _ <-.
    apply IHo in Eo. lia.
Qed.

(** With two units of fuel for each character and one more (two more for
    the loops), the answer of a scanner no longer depends on its fuel. *)
Lemma scanners_fuel (n : nat) :
  forall m s,
    ((2 * String.length s + 1 <= n)%nat ->
     (2 * String.length s + 1 <= m)%nat ->
     scan_once n s = scan_once m s)
    /\ ((2 * String.length s + 2 <= n)%nat ->
        (2 * String.length s + 2 <= m)%nat ->
        JSONArray n s = JSONArray m s)
    /\ ((2 * String.length s + 2 <= n)%nat ->
        (2 * String.length s + 2 <= m)%nat ->
        JSONObject n s = JSONObject m s).
Proof.
  induction n as [ | n IH ]; intros m s;
    [ repeat split; intros; lia | ].
  destruct m as [ | m ]; [ repeat split; intros; lia | ].
  split; [ | split ]; intros Hn Hm.
  - destruct s as [ | c s' ]; [ reflexivity | ].
    simpl String.length in Hn, Hm. simpl.
    destruct (Ascii.eqb c quote); [ reflexivity | ].
    destruct (Ascii.eqb c "{").
    { destruct (skip_ws s') as [ | c1 s1 ] eqn:E; [ reflexivity | ].
      apply skip_ws_cons_le in E.
      destruct (Ascii.eqb c1 "}"); [ reflexivity | ].
      destruct (Ascii.eqb c1 quote); [ | reflexivity ].
      destruct (IH m s1) as (_ & _ & HO). rewrite HO by lia. reflexivity. }
    destruct (Ascii.eqb c "["); [ | reflexivity ].
    destruct (skip_ws s') as [ | c1 s1 ] eqn:E; [ reflexivity | ].
    apply skip_ws_cons_le in E.
    destruct (Ascii.eqb c1 "]"); [ reflexivity | ].
    destruct (IH m (String c1 s1)) as (_ & HA & _).
    rewrite HA by (simpl; lia). reflexivity.
  - simpl.
    destruct (IH m s) as (HV & _ & _). rewrite HV by lia.
    destruct (scan_once m s) as [ [v r1] | | ] eqn:Ev; try reflexivity.
    apply (proj1 (scanners_read m)) in Ev.
    simpl. destruct (skip_ws r1) as [ | c r2 ] eqn:E; [ reflexivity | ].
    apply skip_ws_cons_le in E.
    destruct (Ascii.eqb c "]"); [ reflexivity | ].
    destruct (Ascii.eqb c ","); [ | reflexivity ].
    pose proof (skip_ws_le r2) as Hle.
    destruct (IH m (skip_ws r2)) as (_ & HA & _).
    rewrite HA by lia. reflexivity.
  - simpl.
    destruct (scanstring s) as [ [key r1] | | ] eqn:Es; try reflexivity.
    apply (scanstring_lt _ s key r1 (le_n _)) in Es.
    simpl. destruct (skip_ws r1) as [ | c r2 ] eqn:E; [ reflexivity | ].
    apply skip_ws_cons_le in E.
    destruct (Ascii.eqb c ":"); [ | reflexivity ].
    pose proof (skip_ws_le r2) as Hle2.
    destruct (IH m (skip_ws r2)) as (HV & _ & _). rewrite HV by lia.
    destruct (scan_once m (skip_ws r2)) as [ [v r3] | | ] eqn:Ev;
      try reflexivity.
    apply (proj1 (scanners_read m)) in Ev.
    simpl. destruct (skip_ws r3) as [ | c' r4 ] eqn:E3; [ reflexivity | ].
    apply skip_ws_cons_le in E3.
    destruct (Ascii.eqb c' "}"); [ reflexivity | ].
    destruct (Ascii.eqb c' ","); [ | reflexivity ].
    destruct (skip_ws r4) as [ | c'' r5 ] eqn:E4; [ reflexivity | ].
    apply skip_ws_cons_le in E4.
    destruct (Ascii.eqb c'' quote); [ | reflexivity ].
    destruct (IH m r5) as (_ & _ & HO). rewrite HO by lia. reflexivity.
Qed.

(** The fuel of [loads] is enough: with any more of it the scanner gives
    the same answer on the text, so no answer of [loads] comes from a lack
    of fuel. *)
Lemma loads_fuel_suffices (s : string) (extra : nat) :
  scan_once (S (2 * String.length s) + extra) (skip_ws s)
  = scan_once (S (2 * String.length s)) (skip_ws s).
Proof.
  pose proof (skip_ws_le s) as Hle.
  apply (scanners_fuel _ _ (skip_ws s)); lia.
Qed.

(** Nesting that is opened and never closed is a syntax error of the text,
    as it is for [json.loads]; it does not use the fuel up. *)
Lemma loads_unclosed_nesting :
  loads "[[[[" = DecodeError
  /\ loads "[ [ [ [ [ [ [ [ " = DecodeError
  /\ loads "[[[[1]]]]"
     = Ok (VList [VList [VList [VList [VInt 1]]]]).
Proof. repeat split; vm_compute; reflexivity. Qed.

End FuelFacts.
